(** * Flywall eBPF programs: a shallow embedding and its properties

    The development follows the C sources under
    [internal/ebpf/programs]: the shared helpers of [include/common.h],
    the XDP blocklist program, the TC fast path, and the DNS, DHCP and TLS
    socket filters.  Every C function that a property below talks about is
    transcribed as a Rocq function of the same name.

    Conventions of the embedding.
    - Unsigned C integers are [Z] values; a store into a [__u8], [__u16],
      [__u32] or [__u64] object is written with [u8], [u16], [u32], [u64]
      (reduction modulo the width) where the source can wrap.
    - A packet or message buffer is a [list Z] of bytes; [byte_at] is the
      load of one [__u8].
    - Multi-byte header fields are loaded the way a little-endian BPF target
      loads them ([load16], [load32]); [bpf_htons] and [bpf_ntohs] are the
      16-bit byte swap.
    - A BPF hash map is a [gmap]; an update implements the [BPF_ANY],
      [BPF_NOEXIST] and [BPF_EXIST] flags.  A [BPF_MAP_TYPE_HASH] that
      the programs insert into ([ip_blocklist]) has its [max_entries]: an
      insert of a new key into a full map fails
      ([bpf_hash_map_update_elem]).  On a [BPF_MAP_TYPE_LRU_HASH] an insert
      of a new key does not fail for lack of room; which other entries the
      kernel evicts to make room is not modelled, so the statements about
      these maps speak of the key that is inserted or looked up, never of
      the survival of other entries across an insert.
    - A ring buffer is the list of submitted records together with the
      number of records that still fit; a reservation fails when none fits.
    - One program invocation reads the clock once: every call of
      [bpf_ktime_get_ns] inside an invocation yields the invocation's [now].
      Where the source calls it more than once in an invocation, no
      statement relates the values of different calls.
    - [tls_socket_filter] reads [tcp->doff] without a bounds check; the
      model is the source for packets that hold the TCP header it reads,
      and the statements about the filter assume such a packet. *)

From stdpp Require Import gmap list.
From Stdlib Require Import ZArith Lia Bool.

Open Scope Z_scope.

(** ** Machine integers and byte buffers *)

Definition u8 (x : Z) : Z := x mod 2 ^ 8.
Definition u16 (x : Z) : Z := x mod 2 ^ 16.
Definition u32 (x : Z) : Z := x mod 2 ^ 32.
Definition u64 (x : Z) : Z := x mod 2 ^ 64.

(** [data[i]] for a [__u8 *data]. *)
Definition byte_at (data : list Z) (i : Z) : Z :=
  u8 (default 0 (data !! Z.to_nat i)).

(** Host loads of 16 and 32 bit fields on a little-endian target. *)
Definition load16 (data : list Z) (off : Z) : Z :=
  Z.lor (byte_at data off) (Z.shiftl (byte_at data (off + 1)) 8).

Definition load32 (data : list Z) (off : Z) : Z :=
  Z.lor (load16 data off) (Z.shiftl (load16 data (off + 2)) 16).

(** [__builtin_bswap16], the body of [bpf_htons] / [bpf_ntohs]. *)
Definition bswap16 (x : Z) : Z :=
  Z.lor (Z.shiftl (Z.land x 255) 8) (Z.land (Z.shiftr x 8) 255).

Definition bpf_htons (x : Z) : Z := bswap16 x.
Definition bpf_ntohs (x : Z) : Z := bswap16 x.

(** The idiom [(d[i] << 8) | d[i + 1]] of the dissectors. *)
Definition be16_at (data : list Z) (i : Z) : Z :=
  Z.lor (Z.shiftl (byte_at data i) 8) (byte_at data (i + 1)).

(** ** Constants shared by the programs *)

Definition ETH_P_IP : Z := 0x0800.
Definition IPPROTO_TCP : Z := 6.
Definition IPPROTO_UDP : Z := 17.

Definition sizeof_ethhdr : Z := 14.
Definition sizeof_iphdr : Z := 20.
Definition sizeof_udphdr : Z := 8.
Definition sizeof_tcphdr : Z := 20.

Definition BPF_ANY : Z := 0.
Definition BPF_NOEXIST : Z := 1.
Definition BPF_EXIST : Z := 2.

Definition XDP_ABORTED : Z := 0.
Definition XDP_DROP : Z := 1.
Definition XDP_PASS : Z := 2.

Definition TC_ACT_OK : Z := 0.
Definition TC_ACT_SHOT : Z := -2.

Definition FLOW_TIMEOUT_NS : Z := 300000000000.

(** ** BPF helpers *)

Section BpfMap.
Context {K V : Type} `{Countable K}.

Definition bpf_map_lookup_elem (m : gmap K V) (k : K) : option V := m !! k.

(** [bpf_map_update_elem] on a [BPF_MAP_TYPE_LRU_HASH].  Returns the new
    map and the helper's return code (0 on success).  A new key always
    gets a slot; the entries the kernel may evict for it are left in the
    map (see the conventions above). *)
Definition bpf_map_update_elem (m : gmap K V) (k : K) (v : V) (flags : Z)
  : gmap K V * Z :=
  if flags =? BPF_NOEXIST then
    match m !! k with
    | Some _ => (m, -17)
    | None => (<[k := v]> m, 0)
    end
  else if flags =? BPF_EXIST then
    match m !! k with
    | Some _ => (<[k := v]> m, 0)
    | None => (m, -2)
    end
  else (<[k := v]> m, 0).

(** [bpf_map_update_elem] on a [BPF_MAP_TYPE_HASH] of [max_entries] slots:
    the flags are checked first ([-EEXIST], [-ENOENT]); an element under a
    new key then needs a free slot, and without one the helper returns
    [-E2BIG] and leaves the map as it is. *)
Definition bpf_hash_map_update_elem (max_entries : Z) (m : gmap K V) (k : K)
    (v : V) (flags : Z) : gmap K V * Z :=
  match m !! k with
  | Some _ =>
      if flags =? BPF_NOEXIST then (m, -17) else (<[k := v]> m, 0)
  | None =>
      if flags =? BPF_EXIST then (m, -2)
      else if max_entries <=? Z.of_nat (size m) then (m, -7)
      else (<[k := v]> m, 0)
  end.

Definition bpf_map_delete_elem (m : gmap K V) (k : K) : gmap K V :=
  delete k m.
End BpfMap.

(** A ring buffer: the records submitted so far (oldest first) and how many
    more records fit before the consumer drains it. *)
Record ringbuf (E : Type) : Type := mk_ringbuf {
  rb_records : list E;
  rb_room : nat
}.
Arguments mk_ringbuf {E} _ _.
Arguments rb_records {E} _.
Arguments rb_room {E} _.

(** [bpf_ringbuf_reserve]: [true] when a slot was obtained. *)
Definition bpf_ringbuf_reserve {E} (rb : ringbuf E) : bool :=
  negb (Nat.eqb (rb_room rb) 0).

(** [bpf_ringbuf_submit] of a record filled in a reserved slot. *)
Definition bpf_ringbuf_submit {E} (rb : ringbuf E) (e : E) : ringbuf E :=
  {| rb_records := rb_records rb ++ [e]; rb_room := Nat.pred (rb_room rb) |}.

(** The per-invocation view of the kernel: the clock reading and the value of
    [bpf_get_current_pid_tgid]. *)
Record kernel := mk_kernel {
  ktime_ns : Z;
  pid_tgid : Z
}.

(** A statistics array map of [__u64] slots; [increment_stat] adds one to an
    existing slot and does nothing for an index outside the array. *)
Definition stat_increment (stats : list Z) (idx : Z) : list Z :=
  match stats !! Z.to_nat idx with
  | Some c => <[Z.to_nat idx := u64 (c + 1)]> stats
  | None => stats
  end.

Definition stat_get (stats : list Z) (idx : Z) : Z :=
  default 0 (stats !! Z.to_nat idx).

(** ** [include/common.h]: helper functions *)

Definition is_expired (now expires_at : Z) : Z :=
  if now >? expires_at then 1 else 0.

(** *** [parse_dns_name] *)

(** The local variables of [parse_dns_name]; [pn_name] is the prefix
    [name[0 .. name_len - 1]] written so far, so [name_len] is its length. *)
Record pn_state := mk_pn {
  pn_pos : Z;
  pn_name : list Z;
  pn_original_pos : Z;
  pn_jumped : bool;
  pn_jumps : Z
}.

Definition name_len (s : pn_state) : Z := Z.of_nat (length (pn_name s)).

(** What one trip through the [while] body does. *)
Inductive pn_outcome : Type :=
| PnContinue (s : pn_state)
| PnBreak (s : pn_state)
| PnReturn (r : Z) (s : pn_state).

(** [c >= ' ' && c <= '~' ? c : '?'] *)
Definition printable (c : Z) : Z :=
  if (32 <=? c) && (c <=? 126) then c else 63.

(** The inner [for] loop copying one label: [n] counts the remaining trips,
    [i] is the loop index. *)
Fixpoint copy_label (n : nat) (data : list Z) (pos i : Z) (name : list Z)
    (name_max : Z) : list Z :=
  match n with
  | O => name
  | S n' =>
      if Z.of_nat (length name) <? name_max - 1 then
        copy_label n' data pos (i + 1)
          (name ++ [printable (byte_at data (pos + i))]) name_max
      else name
  end.

Definition parse_dns_name_body (data : list Z) (data_len name_max : Z)
    (s : pn_state) : pn_outcome :=
  let len := byte_at data (pn_pos s) in
  let pos := pn_pos s + 1 in
  if len =? 0 then
    PnBreak
      (mk_pn pos (pn_name s) (pn_original_pos s) (pn_jumped s) (pn_jumps s))
  else if Z.land len 0xc0 =? 0xc0 then
    if pos >=? data_len then
      PnReturn (-1)
        (mk_pn pos (pn_name s) (pn_original_pos s) (pn_jumped s) (pn_jumps s))
    else
      let original_pos := if pn_jumped s then pn_original_pos s else pos + 1 in
      (* [if (jumps++ > 5)]: the test reads the old value *)
      if pn_jumps s >? 5 then
        PnReturn (-1) (mk_pn pos (pn_name s) original_pos true (pn_jumps s + 1))
      else
        let offset :=
          u16 (Z.lor (Z.shiftl (Z.land len 0x3f) 8) (byte_at data pos)) in
        PnContinue (mk_pn offset (pn_name s) original_pos true (pn_jumps s + 1))
  else if pos + len >? data_len then
    PnReturn (-1)
      (mk_pn pos (pn_name s) (pn_original_pos s) (pn_jumped s) (pn_jumps s))
  else
    let name1 := if name_len s >? 0 then pn_name s ++ [46] else pn_name s in
    let name2 := copy_label (Z.to_nat len) data pos 0 name1 name_max in
    PnContinue
      (mk_pn (pos + len) name2 (pn_original_pos s) (pn_jumped s) (pn_jumps s)).

(** The result of a call: the return value, the final [*pos], the bytes left
    in [name] (without the terminating NUL) and the final local state. *)
Record pn_result := mk_pn_result {
  pn_ret : Z;
  pn_pos_out : Z;
  pn_name_out : list Z;
  pn_final : pn_state
}.

(** The code after the loop: terminate the name, restore [*pos]. *)
Definition parse_dns_name_exit (s : pn_state) : pn_result :=
  mk_pn_result (name_len s)
    (if pn_jumped s then pn_original_pos s else pn_pos s) (pn_name s) s.

Fixpoint parse_dns_name_loop (fuel : nat) (data : list Z)
    (data_len name_max : Z) (s : pn_state) : option pn_result :=
  match fuel with
  | O => None
  | S fuel' =>
      if (pn_pos s <? data_len) && (name_len s <? name_max - 1) then
        match parse_dns_name_body data data_len name_max s with
        | PnContinue s' => parse_dns_name_loop fuel' data data_len name_max s'
        | PnBreak s' => Some (parse_dns_name_exit s')
        | PnReturn r s' => Some (mk_pn_result r (pn_pos s') (pn_name s') s')
        end
      else Some (parse_dns_name_exit s)
  end.

(** Trips through the loop are bounded by [8 * (data_len + 1)]
    (see [parse_dns_name_terminates]). *)
Definition parse_dns_name_fuel (data_len : Z) : nat :=
  Z.to_nat (8 * (Z.max 0 data_len + 1)).

Definition parse_dns_name (data : list Z) (data_len pos name_max : Z)
    : option pn_result :=
  parse_dns_name_loop (parse_dns_name_fuel data_len) data data_len name_max
    (mk_pn pos [] pos false 0).


(** *** [parse_tls_sni] *)

(** The [sni] output array is a list of [sni_max] bytes updated in place. *)
Fixpoint copy_sni (n : nat) (data : list Z) (data_len pos i : Z)
    (sni : list Z) : list Z :=
  match n with
  | O => sni
  | S n' =>
      if pos + i <? data_len then
        copy_sni n' data data_len pos (i + 1)
          (<[Z.to_nat i := byte_at data (pos + i)]> sni)
      else sni
  end.

(** The extension walk; returns the result code and the [sni] array. *)
Fixpoint parse_tls_extensions (fuel : nat) (data : list Z)
    (data_len extensions_end pos sni_max : Z) (sni : list Z) : Z * list Z :=
  match fuel with
  | O => (0, sni)
  | S fuel' =>
      if (pos + 4 <=? extensions_end) && (pos <? data_len) then
        let ext_type := be16_at data pos in
        let ext_len := be16_at data (pos + 2) in
        let pos := pos + 4 in
        if pos + ext_len >? data_len then (-1, sni)
        else if ext_type =? 0 then
          if pos + 2 >? data_len then (-1, sni)
          else
            let pos := pos + 2 in
            if pos + 3 >? data_len then (-1, sni)
            else
              let pos := pos + 3 in
              let sni_len := be16_at data (pos - 2) in
              let sni_len := if sni_len >=? sni_max then u16 (sni_max - 1)
                             else sni_len in
              let sni := copy_sni (Z.to_nat sni_len) data data_len pos 0 sni in
              (sni_len, <[Z.to_nat sni_len := 0]> sni)
        else
          parse_tls_extensions fuel' data data_len extensions_end
            (pos + ext_len) sni_max sni
      else (0, sni)
  end.

Definition parse_tls_sni (data : list Z) (data_len : Z) (sni : list Z)
    (sni_max : Z) : Z * list Z :=
  if data_len <? 9 then (-1, sni)
  else
    let pos := 9 in
    if pos + 1 >=? data_len then (-1, sni)
    else
      let session_id_len := byte_at data pos in
      let pos := pos + 1 + session_id_len in
      if pos + 2 >=? data_len then (-1, sni)
      else
        let cipher_suites_len := be16_at data pos in
        let pos := pos + (2 + cipher_suites_len) in
        if pos + 1 >=? data_len then (-1, sni)
        else
          let compression_methods_len := byte_at data pos in
          let pos := pos + 1 + compression_methods_len in
          if pos + 2 >=? data_len then (-1, sni)
          else
            let extensions_len := be16_at data pos in
            let pos := pos + 2 in
            let extensions_end := pos + extensions_len in
            parse_tls_extensions (Z.to_nat data_len) data data_len
              extensions_end pos sni_max sni.

(** ** Socket buffers and header fields *)

Record sk_buff := mk_skb {
  skb_data : list Z;       (* the bytes between [data] and [data_end] *)
  skb_len : Z;
  skb_ifindex : Z;
  skb_mark : Z;
  skb_priority : Z;
  skb_queue_mapping : Z
}.

(** [data_end - data] *)
Definition data_end (pkt : list Z) : Z := Z.of_nat (length pkt).

(** Field offsets of [struct ethhdr], [struct iphdr] (placed right after the
    Ethernet header), [struct udphdr] and [struct tcphdr]. *)
Definition eth_h_proto (pkt : list Z) : Z := load16 pkt 12.
Definition ip_off : Z := sizeof_ethhdr.
Definition ip_ihl (pkt : list Z) : Z := Z.land (byte_at pkt ip_off) 15.
Definition ip_tot_len (pkt : list Z) : Z := load16 pkt (ip_off + 2).
Definition ip_frag_off (pkt : list Z) : Z := load16 pkt (ip_off + 6).
Definition ip_protocol (pkt : list Z) : Z := byte_at pkt (ip_off + 9).
Definition ip_saddr (pkt : list Z) : Z := load32 pkt (ip_off + 12).
Definition ip_daddr (pkt : list Z) : Z := load32 pkt (ip_off + 16).

(** Transport header fields, [l4] being the offset of the header. *)
Definition l4_source (pkt : list Z) (l4 : Z) : Z := load16 pkt l4.
Definition l4_dest (pkt : list Z) (l4 : Z) : Z := load16 pkt (l4 + 2).
Definition udp_len (pkt : list Z) (l4 : Z) : Z := load16 pkt (l4 + 4).
Definition tcp_doff (pkt : list Z) (l4 : Z) : Z :=
  Z.shiftr (byte_at pkt (l4 + 12)) 4.

(** *** Packet parsing helpers of [include/common.h]

    A returned header pointer is the offset of the header in the packet;
    [None] is [NULL]. *)

Definition parse_iphdr (pkt : list Z) : option Z :=
  if sizeof_ethhdr >? data_end pkt then None
  else if negb (eth_h_proto pkt =? bpf_htons ETH_P_IP) then None
  else if sizeof_ethhdr + sizeof_iphdr >? data_end pkt then None
  else Some sizeof_ethhdr.

Definition parse_tcphdr (pkt : list Z) (ip : Z) : option Z :=
  if negb (byte_at pkt (ip + 9) =? IPPROTO_TCP) then None
  else
    let transport_start := ip + Z.land (byte_at pkt ip) 15 * 4 in
    if transport_start + sizeof_tcphdr >? data_end pkt then None
    else Some transport_start.

Definition parse_udphdr (pkt : list Z) (ip : Z) : option Z :=
  if negb (byte_at pkt (ip + 9) =? IPPROTO_UDP) then None
  else
    let transport_start := ip + Z.land (byte_at pkt ip) 15 * 4 in
    if transport_start + sizeof_udphdr >? data_end pkt then None
    else Some transport_start.

(** ** [c/dhcp_socket.c] *)

Module Dhcp.

(** The outcome of [parse_dhcp_options]: the return value, the final
    [*pos] and the bytes copied to [option_value]. *)
Record opt_result := mk_opt_result {
  opt_ret : Z;
  opt_pos : Z;
  opt_value : list Z
}.

(** [data[pos .. pos + n - 1]], what [bpf_probe_read_kernel] copies. *)
Definition read_bytes (data : list Z) (pos n : Z) : list Z :=
  map (fun i => byte_at data (pos + Z.of_nat i)) (seq 0 (Z.to_nat n)).

Fixpoint parse_dhcp_options_loop (fuel : nat) (data : list Z)
    (data_len pos option_type max_len : Z) : option opt_result :=
  match fuel with
  | O => None
  | S fuel' =>
      if pos + 2 <=? data_len then
        let opt := byte_at data pos in
        let opt_len := byte_at data (pos + 1) in
        let pos := pos + 2 in
        if opt =? 255 then Some (mk_opt_result (-1) pos [])
        else
          (* inside [if (opt == option_type)]: [opt_len] is clamped to
             [max_len] and keeps that value afterwards *)
          let opt_len :=
            if (opt =? option_type) && (opt_len >? max_len) then u8 max_len
            else opt_len in
          if (opt =? option_type) && (pos + opt_len <=? data_len) then
            Some (mk_opt_result opt_len pos (read_bytes data pos opt_len))
          else
            parse_dhcp_options_loop fuel' data data_len (pos + opt_len)
              option_type max_len
      else Some (mk_opt_result (-1) pos [])
  end.

Definition parse_dhcp_options (data : list Z)
    (data_len pos option_type max_len : Z) : option opt_result :=
  parse_dhcp_options_loop (S (Z.to_nat (data_len - pos))) data data_len pos
    option_type max_len.

End Dhcp.

(** ** [c/dns_socket.c] *)

Module Dns.

Definition DNS_PORT : Z := 53.
Definition MAX_DOMAIN_LEN : Z := 253.
Definition DNS_QUERY : Z := 0.
Definition DNS_RESPONSE : Z := 1.

Definition STAT_QUERIES_PROCESSED : Z := 0.
Definition STAT_RESPONSES_PROCESSED : Z := 1.
Definition STAT_ERRORS : Z := 5.

Record dns_key := mk_dns_key {
  src_ip : Z;
  dst_ip : Z;
  src_port : Z;
  dst_port : Z;
  query_id : Z;
  pad : Z
}.

Global Instance dns_key_eq_dec : EqDecision dns_key.
Proof. solve_decision. Defined.

Definition dns_key_to_tuple (k : dns_key) : Z * Z * Z * Z * Z * Z :=
  (src_ip k, dst_ip k, src_port k, dst_port k, query_id k, pad k).

Definition dns_key_of_tuple (t : Z * Z * Z * Z * Z * Z) : dns_key :=
  let '(a, b, c, d, e, f) := t in mk_dns_key a b c d e f.

Lemma dns_key_tuple_inv k : dns_key_of_tuple (dns_key_to_tuple k) = k.
Proof. by destruct k. Qed.

Global Instance dns_key_countable : Countable dns_key :=
  inj_countable' dns_key_to_tuple dns_key_of_tuple dns_key_tuple_inv.

(** The value structs with the fields the program assigns.  A domain
    buffer is represented by the name bytes it holds. *)
Record dns_query_info := mk_query_info {
  q_domain : list Z;
  q_query_type : Z;
  q_query_class : Z;
  q_packet_size : Z;
  q_timestamp : Z
}.

Record dns_response_info := mk_response_info {
  r_response_code : Z;
  r_answer_count : Z;
  r_authority_count : Z;
  r_additional_count : Z;
  r_query_timestamp : Z;
  r_response_timestamp : Z;
  r_domain : list Z;
  r_packet_size : Z
}.

(** A record of the ring buffer.  The reserved slot is not cleared, so a
    field that the program does not assign is [None]. *)
Record dns_event := mk_dns_event {
  e_timestamp : Z;
  e_pid : Z;
  e_tid : Z;
  e_src_ip : Z;
  e_dst_ip : Z;
  e_src_port : Z;
  e_dst_port : Z;
  e_query_id : Z;
  e_is_response : Z;
  e_query_type : option Z;
  e_query_class : option Z;
  e_response_code : option Z;
  e_answer_count : option Z;
  e_domain : option (list Z);
  e_packet_size : option Z;
  e_response_time_ns : option Z
}.

Record state := mk_state {
  dns_queries : gmap dns_key dns_query_info;
  dns_responses : gmap Z dns_response_info;
  dns_stats : list Z;
  dns_events : ringbuf dns_event
}.

Definition increment_stat (stat_idx : Z) (st : state) : state :=
  mk_state (dns_queries st) (dns_responses st)
    (stat_increment (dns_stats st) stat_idx) (dns_events st).

Definition send_dns_event (k : kernel) (st : state) (key : dns_key)
    (query_info : option dns_query_info)
    (response_info : option dns_response_info) (is_response : Z) : state :=
  if bpf_ringbuf_reserve (dns_events st) then
    let base qt qc rc ac dom ps rt :=
      mk_dns_event (ktime_ns k) (u32 (Z.shiftr (pid_tgid k) 32))
        (Z.land (pid_tgid k) 0xFFFFFFFF) (src_ip key) (dst_ip key)
        (src_port key) (dst_port key) (query_id key) is_response
        qt qc rc ac dom ps rt in
    let event :=
      match negb (is_response =? 0), response_info, query_info with
      | true, Some r, _ =>
          base None None (Some (r_response_code r))
            (Some (r_answer_count r)) (Some (r_domain r))
            (Some (r_packet_size r))
            (if r_query_timestamp r >? 0 then
               Some (u64 (r_response_timestamp r - r_query_timestamp r))
             else None)
      | false, _, Some q =>
          base (Some (q_query_type q)) (Some (q_query_class q)) None None
            (Some (q_domain q)) (Some (q_packet_size q)) None
      | _, _, _ => base None None None None None None None
      end in
    mk_state (dns_queries st) (dns_responses st) (dns_stats st)
      (bpf_ringbuf_submit (dns_events st) event)
  else increment_stat STAT_ERRORS st.

Section Filter.
(** [extract_domain(dns, dns_len, &pos, domain, sizeof(domain))] is
    declared outside the files at hand; it is a parameter of the filter:
    from the DNS message, its length, the start position and the buffer
    size it yields the return value, the updated [pos] and the domain
    bytes. *)
Variable extract_domain : list Z -> Z -> Z -> Z -> Z * Z * list Z.

Definition dns_socket_filter (k : kernel) (skb : sk_buff) (st : state)
    : state * Z :=
  let pkt := skb_data skb in
  if sizeof_ethhdr + sizeof_iphdr + sizeof_udphdr >? data_end pkt then
    (st, 0)
  else
    let udp := ip_off + sizeof_iphdr in
    if negb (eth_h_proto pkt =? bpf_htons ETH_P_IP)
       || negb (ip_protocol pkt =? IPPROTO_UDP) then (st, 0)
    else if negb (l4_dest pkt udp =? bpf_htons DNS_PORT)
            && negb (l4_source pkt udp =? bpf_htons DNS_PORT) then (st, 0)
    else
      let dns_data := udp + sizeof_udphdr in
      let dns_len := bpf_ntohs (udp_len pkt udp) - sizeof_udphdr in
      if (dns_data + dns_len >? data_end pkt) || (dns_len <? 12) then
        (st, 0)
      else
        let dns := drop (Z.to_nat dns_data) pkt in
        let transaction_id := be16_at dns 0 in
        let flags := be16_at dns 2 in
        let questions := be16_at dns 4 in
        let answers := be16_at dns 6 in
        let is_response := negb (Z.land flags 0x8000 =? 0) in
        let key :=
          mk_dns_key (ip_saddr pkt) (ip_daddr pkt) (l4_source pkt udp)
            (l4_dest pkt udp) transaction_id 0 in
        let '(domain_len, pos, domain) :=
          extract_domain dns dns_len 12 MAX_DOMAIN_LEN in
        if domain_len <? 0 then (increment_stat STAT_ERRORS st, 0)
        else if negb is_response && (questions >? 0) then
          let '(query_type, query_class) :=
            if pos + 4 <=? dns_len then
              (be16_at dns pos, be16_at dns (pos + 2))
            else (0, 0) in
          let query_info :=
            mk_query_info domain query_type query_class
              (u16 (skb_len skb)) (ktime_ns k) in
          let '(queries, rc) :=
            bpf_map_update_elem (dns_queries st) key query_info BPF_ANY in
          let st := mk_state queries (dns_responses st) (dns_stats st)
                      (dns_events st) in
          if rc =? 0 then
            (send_dns_event k (increment_stat STAT_QUERIES_PROCESSED st)
               key (Some query_info) None DNS_QUERY, 0)
          else (increment_stat STAT_ERRORS st, 0)
        else if is_response && (answers >? 0) then
          let lookup_key :=
            mk_dns_key (ip_daddr pkt) (ip_saddr pkt) (l4_dest pkt udp)
              (l4_source pkt udp) transaction_id 0 in
          let query := bpf_map_lookup_elem (dns_queries st) lookup_key in
          let response_info :=
            mk_response_info (u8 (Z.land flags 0x000F)) answers
              (be16_at dns 8) (be16_at dns 10)
              (match query with Some q => q_timestamp q | None => 0 end)
              (ktime_ns k) domain (u16 (skb_len skb)) in
          let '(responses, rc) :=
            bpf_map_update_elem (dns_responses st) transaction_id
              response_info BPF_ANY in
          let st := mk_state (dns_queries st) responses (dns_stats st)
                      (dns_events st) in
          let st :=
            if rc =? 0 then
              send_dns_event k
                (increment_stat STAT_RESPONSES_PROCESSED st) key None
                (Some response_info) DNS_RESPONSE
            else increment_stat STAT_ERRORS st in
          (* "Clean up query entry": the delete is keyed by [key] *)
          (mk_state (bpf_map_delete_elem (dns_queries st) key)
             (dns_responses st) (dns_stats st) (dns_events st), 0)
        else (st, 0).
End Filter.

(** The one name decompressor present in the files, [parse_dns_name],
    packaged with the calling convention of [extract_domain]. *)
Definition extract_domain_by_parse_dns_name (dns : list Z)
    (dns_len pos domain_max : Z) : Z * Z * list Z :=
  match parse_dns_name dns dns_len pos domain_max with
  | Some r => (pn_ret r, pn_pos_out r, pn_name_out r)
  | None => (-1, pos, [])
  end.

End Dns.

(** ** [c/socket_tls.c] *)

Module Tls.

Definition TLS_RECORD_HANDSHAKE : Z := 0x16.
Definition TLS_HANDSHAKE_CLIENT_HELLO : Z := 0x01.
Definition MAX_SNI_LEN : Z := 64.

Definition STAT_HANDSHAKES_OBSERVED : Z := 0.
Definition STAT_ERRORS : Z := 3.

Record tls_key := mk_tls_key {
  src_ip : Z;
  dst_ip : Z;
  src_port : Z;
  dst_port : Z
}.

Global Instance tls_key_eq_dec : EqDecision tls_key.
Proof. solve_decision. Defined.

Definition tls_key_to_tuple (k : tls_key) : Z * Z * Z * Z :=
  (src_ip k, dst_ip k, src_port k, dst_port k).

Definition tls_key_of_tuple (t : Z * Z * Z * Z) : tls_key :=
  let '(a, b, c, d) := t in mk_tls_key a b c d.

Lemma tls_key_tuple_inv k : tls_key_of_tuple (tls_key_to_tuple k) = k.
Proof. by destruct k. Qed.

Global Instance tls_key_countable : Countable tls_key :=
  inj_countable' tls_key_to_tuple tls_key_of_tuple tls_key_tuple_inv.

Record tls_handshake_info := mk_info {
  hs_version : Z;
  hs_cipher_suite : Z;
  hs_sni : list Z;         (* [char sni[MAX_SNI_LEN]] *)
  hs_ja3_hash : list Z;    (* [__u32 ja3_hash[4]] *)
  hs_timestamp : Z
}.

Record tls_event := mk_tls_event {
  e_timestamp : Z;
  e_pid : Z;
  e_tid : Z;
  e_src_ip : Z;
  e_dst_ip : Z;
  e_src_port : Z;
  e_dst_port : Z;
  e_version : Z;
  e_cipher_suite : Z;
  e_sni : list Z;
  e_ja3_hash : list Z;
  e_packet_size : Z
}.

Record state := mk_state {
  tls_handshakes : gmap tls_key tls_handshake_info;
  tls_stats : list Z;
  tls_events : ringbuf tls_event
}.

Definition increment_stat (stat_idx : Z) (st : state) : state :=
  mk_state (tls_handshakes st) (stat_increment (tls_stats st) stat_idx)
    (tls_events st).

(** A [char] (signed on the BPF target) promoted to [int]. *)
Definition char_to_int (c : Z) : Z := if c <? 128 then c else c - 256.

(** The [for] loop of [produce_ja3_hash] over [i = start .. MAX_SNI_LEN-1];
    [h2] and [h3] are [ja3_hash[2]] and [ja3_hash[3]]. *)
Fixpoint ja3_mix (chars : list Z) (i : Z) (h2 h3 : Z) : Z * Z :=
  match chars with
  | [] => (h2, h3)
  | c :: rest =>
      ja3_mix rest (i + 1)
        (Z.lxor h2 (u32 (Z.shiftl (char_to_int c) (i mod 24))))
        (Z.lxor h3 (u32 (Z.shiftl (char_to_int c) ((i + 13) mod 24))))
  end.

Definition produce_ja3_hash (info : tls_handshake_info)
    : tls_handshake_info :=
  let '(h2, h3) := ja3_mix (take (Z.to_nat MAX_SNI_LEN) (hs_sni info)) 0 0 0 in
  mk_info (hs_version info) (hs_cipher_suite info) (hs_sni info)
    [hs_version info; hs_cipher_suite info; h2; h3] (hs_timestamp info).

Definition send_tls_event (k : kernel) (skb : sk_buff) (st : state)
    (key : tls_key) (info : tls_handshake_info) : state :=
  if bpf_ringbuf_reserve (tls_events st) then
    let event :=
      mk_tls_event (ktime_ns k) (u32 (Z.shiftr (pid_tgid k) 32))
        (u32 (pid_tgid k)) (src_ip key) (dst_ip key) (src_port key)
        (dst_port key) (hs_version info) (hs_cipher_suite info) (hs_sni info)
        (hs_ja3_hash info) (u16 (skb_len skb)) in
    mk_state (tls_handshakes st) (tls_stats st)
      (bpf_ringbuf_submit (tls_events st) event)
  else increment_stat STAT_ERRORS st.

Definition tls_socket_filter (k : kernel) (skb : sk_buff) (st : state)
    : state * Z :=
  let pkt := skb_data skb in
  if sizeof_ethhdr + sizeof_iphdr + sizeof_tcphdr >? data_end pkt then
    (st, 0)
  else
    let tcp := ip_off + ip_ihl pkt * 4 in
    if negb (eth_h_proto pkt =? bpf_htons ETH_P_IP)
       || negb (ip_protocol pkt =? IPPROTO_TCP) then (st, 0)
    else
      (* [tcp->doff] is read with no check that [tcp] lies inside the
         packet; for [ihl > 5] it can lie behind [data_end], where [pkt]
         has no byte and the source reads what memory holds.  The
         statements about the filter assume [tls_header_inside]. *)
      let payload := tcp + tcp_doff pkt tcp * 4 in
      if payload + 5 >? data_end pkt then (st, 0)
      else
        let tls_data := drop (Z.to_nat payload) pkt in
        let content_type := byte_at tls_data 0 in
        let version := be16_at tls_data 1 in
        if negb (content_type =? TLS_RECORD_HANDSHAKE) then (st, 0)
        else if payload + 5 + 4 >? data_end pkt then (st, 0)
        else
          let handshake_type := byte_at tls_data 5 in
          if negb (handshake_type =? TLS_HANDSHAKE_CLIENT_HELLO) then (st, 0)
          else
            let key :=
              mk_tls_key (ip_saddr pkt) (ip_daddr pkt) (l4_source pkt tcp)
                (l4_dest pkt tcp) in
            (* [struct tls_handshake_info info = {}] with the timestamp and
               the version assigned *)
            let info :=
              mk_info version 0 (replicate (Z.to_nat MAX_SNI_LEN) 0)
                [0; 0; 0; 0] (ktime_ns k) in
            let payload_len := data_end pkt - payload in
            let '(_, sni) :=
              parse_tls_sni tls_data payload_len (hs_sni info) MAX_SNI_LEN in
            let info :=
              mk_info (hs_version info) (hs_cipher_suite info) sni
                (hs_ja3_hash info)
                (hs_timestamp info) in
            let info := produce_ja3_hash info in
            let '(handshakes, rc) :=
              bpf_map_update_elem (tls_handshakes st) key info BPF_ANY in
            let st := mk_state handshakes (tls_stats st) (tls_events st) in
            if rc =? 0 then
              (send_tls_event k skb
                 (increment_stat STAT_HANDSHAKES_OBSERVED st) key info, 0)
            else (st, 0).

End Tls.

(** ** [c/xdp_blocklist.c] *)

Module Xdp.

Definition DNS_PORT : Z := 53.
Definition TRUSTED_FLOW_FLAG : Z := 0x01.
Definition RATE_LIMIT_WINDOW_NS : Z := 1000000000.

(** [max_entries] of [ip_blocklist], a [BPF_MAP_TYPE_HASH]. *)
Definition IP_BLOCKLIST_MAX_ENTRIES : Z := 1000000.

Record flow_key := mk_flow_key {
  src_ip : Z;
  dst_ip : Z;
  src_port : Z;
  dst_port : Z;
  ip_proto : Z
}.

Global Instance flow_key_eq_dec : EqDecision flow_key.
Proof. solve_decision. Defined.

Definition flow_key_to_tuple (k : flow_key) : Z * Z * Z * Z * Z :=
  (src_ip k, dst_ip k, src_port k, dst_port k, ip_proto k).

Definition flow_key_of_tuple (t : Z * Z * Z * Z * Z) : flow_key :=
  let '(a, b, c, d, e) := t in mk_flow_key a b c d e.

Lemma xdp_flow_key_tuple_inv k : flow_key_of_tuple (flow_key_to_tuple k) = k.
Proof. by destruct k. Qed.

Global Instance flow_key_countable : Countable flow_key :=
  inj_countable' flow_key_to_tuple flow_key_of_tuple xdp_flow_key_tuple_inv.

(** [struct flow_state] of [include/common.h]; the [ja3_hash] and [sni]
    members, which this program never touches, are left out. *)
Record flow_state := mk_flow_state {
  verdict : Z;
  qos_profile : Z;
  flags : Z;
  packet_count : Z;
  byte_count : Z;
  last_seen : Z;
  created_at : Z;
  expires_at : Z
}.

Record statistics := mk_statistics {
  packets_processed : Z;
  packets_dropped : Z;
  packets_passed : Z;
  bytes_processed : Z;
  blocked_ips : Z;
  blocked_dns : Z;
  flows_offloaded : Z;
  events_generated : Z;
  last_cleanup : Z
}.

Record event := mk_event {
  e_type : Z;
  e_timestamp : Z;
  e_src_ip : Z;
  e_dst_ip : Z;
  e_src_port : Z;
  e_dst_port : Z;
  e_protocol : Z;
  e_data_len : Z;
  e_data : list Z
}.

(** The maps of the program.  [stats] is the single slot of the
    [statistics] array, whose lookup with key 0 always succeeds;
    [dns_bloom] lists the nonzero bytes of the bloom array. *)
Record state := mk_state {
  ip_blocklist : gmap Z Z;
  flow_map : gmap flow_key flow_state;
  stats : statistics;
  dns_bloom : gmap Z Z;
  events : ringbuf event
}.

Definition set_ip_blocklist (m : gmap Z Z) (st : state) : state :=
  mk_state m (flow_map st) (stats st) (dns_bloom st) (events st).
Definition set_flow_map (m : gmap flow_key flow_state) (st : state) : state :=
  mk_state (ip_blocklist st) m (stats st) (dns_bloom st) (events st).
Definition set_stats (s : statistics) (st : state) : state :=
  mk_state (ip_blocklist st) (flow_map st) s (dns_bloom st) (events st).
Definition set_events (e : ringbuf event) (st : state) : state :=
  mk_state (ip_blocklist st) (flow_map st) (stats st) (dns_bloom st) e.

Definition is_ip_blocked (st : state) (ip : Z) : bool :=
  match bpf_map_lookup_elem (ip_blocklist st) ip with
  | Some _ => true
  | None => false
  end.

(** A [char] (signed on the BPF target) promoted to [int]. *)
Definition char_to_int (c : Z) : Z := if c <? 128 then c else c - 256.

(** [hash = hash * 31 + domain[i]] for [i < len && i < 64]. *)
Definition domain_hash (domain : list Z) (len : Z) : Z :=
  fold_left (fun hash c => u32 (hash * 31 + char_to_int c))
    (take (Z.to_nat (Z.min len 64)) domain) 0.

Definition is_domain_blocked (st : state) (domain : list Z) (len : Z)
    : bool :=
  let hash := domain_hash domain len in
  let index := (hash mod (131072 * 8)) / 8 in
  let bit := hash mod 8 in
  if index <? 131072 then
    let filter := default 0 (dns_bloom st !! index) in
    negb (Z.land filter (Z.shiftl 1 bit) =? 0)
  else false.

Definition update_statistics (packets bytes dropped : Z) (st : state)
    : state :=
  let s := stats st in
  let processed := u64 (packets_processed s + packets) in
  let bytes_total := u64 (bytes_processed s + bytes) in
  set_stats
    (if negb (dropped =? 0) then
       mk_statistics processed (u64 (packets_dropped s + dropped))
         (packets_passed s) bytes_total (blocked_ips s) (blocked_dns s)
         (flows_offloaded s) (events_generated s) (last_cleanup s)
     else
       mk_statistics processed (packets_dropped s)
         (u64 (packets_passed s + packets)) bytes_total (blocked_ips s)
         (blocked_dns s) (flows_offloaded s) (events_generated s)
         (last_cleanup s))
    st.

(** [data] is [None] for a [NULL] pointer. *)
Definition send_event (k : kernel) (st : state) (type src dst sport dport
    protocol : Z) (data : option (list Z)) (data_len : Z) : state :=
  if bpf_ringbuf_reserve (events st) then
    let payload :=
      match data with
      | Some d =>
          if data_len >? 0 then
            take (Z.to_nat (if data_len >? 64 then 64 else data_len)) d
          else []
      | None => []
      end in
    set_events
      (bpf_ringbuf_submit (events st)
         (mk_event type (ktime_ns k) src dst sport dport protocol data_len
            payload))
      st
  else st.

(** Returns the state and the flow entry the returned pointer refers to
    ([None] for [NULL]).  [created_at] and [expires_at] come from two calls
    of [bpf_ktime_get_ns]; both are the invocation's one reading here. *)
Definition get_or_create_flow (k : kernel) (st : state) (key : flow_key)
    : state * option flow_state :=
  match bpf_map_lookup_elem (flow_map st) key with
  | Some state => (st, Some state)
  | None =>
      let new_state :=
        mk_flow_state XDP_PASS 0 0 0 0 0 (ktime_ns k)
          (u64 (ktime_ns k + FLOW_TIMEOUT_NS)) in
      let '(m, rc) :=
        bpf_map_update_elem (flow_map st) key new_state BPF_NOEXIST in
      if rc =? 0 then
        (set_flow_map m st, bpf_map_lookup_elem m key)
      else (set_flow_map m st, None)
  end.

(** Returns the state and 1 (allowed) or 0 (rate limited). *)
Definition rate_limit_check (k : kernel) (st : state) (ip : Z) : state * Z :=
  let now := ktime_ns k in
  let last_packet := bpf_map_lookup_elem (ip_blocklist st) ip in
  let limited :=
    match last_packet with
    | Some last => u64 (now - last) <? RATE_LIMIT_WINDOW_NS
    | None => false
    end in
  if limited then (st, 0)
  else
    let '(m, rc) :=
      bpf_hash_map_update_elem IP_BLOCKLIST_MAX_ENTRIES (ip_blocklist st) ip
        now BPF_EXIST in
    let m :=
      if negb (rc =? 0) then
        fst (bpf_hash_map_update_elem IP_BLOCKLIST_MAX_ENTRIES m ip now
               BPF_NOEXIST)
      else m in
    (set_ip_blocklist m st, 1).

(** The inner [for] loop of the query-name extraction. *)
Fixpoint copy_query_label (n : nat) (pkt : list Z) (dns_data pos i : Z)
    (domain : list Z) : list Z :=
  match n with
  | O => domain
  | S n' =>
      if (pos + i + 1 <? 64) && (dns_data + pos + i + 1 <? data_end pkt) then
        copy_query_label n' pkt dns_data pos (i + 1)
          (domain ++ [byte_at pkt (dns_data + pos + i + 1)])
      else domain
  end.

(** The [while] loop filling [domain]; [domain_len] is the length of the
    list. *)
Fixpoint extract_query_name (fuel : nat) (pkt : list Z) (dns_data pos : Z)
    (domain : list Z) : list Z :=
  match fuel with
  | O => domain
  | S fuel' =>
      if (pos <? 63) && (dns_data + pos <? data_end pkt) then
        let len := byte_at pkt (dns_data + pos) in
        let domain_len := Z.of_nat (length domain) in
        if len =? 0 then domain
        else if domain_len + len + 1 >? 63 then domain
        else
          let domain := if domain_len >? 0 then domain ++ [46] else domain in
          let domain :=
            copy_query_label (Z.to_nat len) pkt dns_data pos 0 domain in
          extract_query_name fuel' pkt dns_data (pos + (len + 1)) domain
      else domain
  end.

(** The code from "Get or create flow state" to the end of
    [xdp_blocklist_prog]. *)
Definition track_flow (k : kernel) (pkt : list Z) (st : state)
    (key : flow_key) : state * Z :=
  let '(st, flow) := get_or_create_flow k st key in
  match flow with
  | None => (st, XDP_PASS)
  | Some fs =>
      let now := ktime_ns k in
      let packet_len := bpf_ntohs (ip_tot_len pkt) in
      let fs :=
        mk_flow_state (verdict fs) (qos_profile fs) (flags fs)
          (u64 (packet_count fs + 1)) (u64 (byte_count fs + packet_len)) now
          (created_at fs) (expires_at fs) in
      let offload :=
        (packet_count fs >? 100)
        && (Z.land (flags fs) TRUSTED_FLOW_FLAG =? 0) in
      let fs :=
        if offload then
          mk_flow_state (verdict fs) (qos_profile fs)
            (Z.lor (flags fs) TRUSTED_FLOW_FLAG) (packet_count fs)
            (byte_count fs) (last_seen fs) (created_at fs) (expires_at fs)
        else fs in
      let st := set_flow_map (<[key := fs]> (flow_map st)) st in
      let st :=
        if offload then
          let s := stats st in
          set_stats
            (mk_statistics (packets_processed s) (packets_dropped s)
               (packets_passed s) (bytes_processed s) (blocked_ips s)
               (blocked_dns s) (u64 (flows_offloaded s + 1))
               (events_generated s) (last_cleanup s))
            st
        else st in
      if verdict fs =? XDP_DROP then
        (update_statistics 1 packet_len 1 st, XDP_DROP)
      else (update_statistics 1 packet_len 0 st, XDP_PASS)
  end.

(** The program in two stages.  [xdp_filter_stage] is the code from the
    entry to just before "Get or create flow state": it either returns a
    verdict ([inl]) or reaches flow tracking with the flow key built so far
    ([inr]); [track_flow] is the rest. *)
Definition xdp_filter_stage (k : kernel) (pkt : list Z) (st : state)
    : state * Z + state * flow_key :=
  if sizeof_ethhdr >? data_end pkt then inl (st, XDP_PASS)
  else if negb (eth_h_proto pkt =? bpf_htons ETH_P_IP) then
    inl (st, XDP_PASS)
  else if sizeof_ethhdr + sizeof_iphdr >? data_end pkt then
    inl (st, XDP_PASS)
  else if negb (Z.land (ip_frag_off pkt) (bpf_htons 0x3FFF) =? 0) then
    inl (st, XDP_PASS)
  else
    let src_ip := ip_saddr pkt in
    let dst_ip := ip_daddr pkt in
    if is_ip_blocked st src_ip then
      let st := update_statistics 1 (bpf_ntohs (ip_tot_len pkt)) 1 st in
      inl (send_event k st 1 src_ip dst_ip 0 0 (ip_protocol pkt) None 0,
           XDP_DROP)
    else
      let '(st, allowed) := rate_limit_check k st src_ip in
      if allowed =? 0 then
        inl (update_statistics 1 (bpf_ntohs (ip_tot_len pkt)) 1 st, XDP_DROP)
      else
        let protocol := ip_protocol pkt in
        if (protocol =? IPPROTO_TCP) || (protocol =? IPPROTO_UDP) then
          if sizeof_ethhdr + sizeof_iphdr + sizeof_udphdr >? data_end pkt
          then inl (st, XDP_PASS)
          else
            let udp := sizeof_ethhdr + sizeof_iphdr in
            let key :=
              mk_flow_key src_ip dst_ip (l4_source pkt udp) (l4_dest pkt udp)
                protocol in
            if (protocol =? IPPROTO_UDP)
               && (l4_dest pkt udp =? bpf_htons DNS_PORT) then
              let dns_data := udp + sizeof_udphdr in
              if dns_data + 12 >? data_end pkt then inl (st, XDP_PASS)
              else if negb (Z.land (byte_at pkt (dns_data + 2)) 0x80 =? 0)
              then inl (st, XDP_PASS)
              else
                let domain := extract_query_name 64 pkt dns_data 12 [] in
                let domain_len := Z.of_nat (length domain) in
                if is_domain_blocked st domain domain_len then
                  let st :=
                    update_statistics 1 (bpf_ntohs (ip_tot_len pkt)) 1 st in
                  inl (send_event k st 2 src_ip dst_ip (l4_source pkt udp)
                         (l4_dest pkt udp) protocol (Some domain)
                         (u8 domain_len), XDP_DROP)
                else inr (st, key)
            else inr (st, key)
        else inr (st, mk_flow_key src_ip dst_ip 0 0 protocol).

Definition xdp_blocklist_prog (k : kernel) (pkt : list Z) (st : state)
    : state * Z :=
  match xdp_filter_stage k pkt st with
  | inl verdict => verdict
  | inr (st, key) => track_flow k pkt st key
  end.

End Xdp.

(** ** [c/tc_offload.c] with [flow.h] *)

Module Tc.

Definition VERDICT_UNKNOWN : Z := 0.
Definition VERDICT_TRUSTED : Z := 1.
Definition VERDICT_DROP : Z := 2.
Definition NFQUEUE_BYPASS_MARK : Z := 0x200000.

Definition QOS_PROFILE_DEFAULT : Z := 0.
Definition QOS_PROFILE_VIDEO : Z := 3.
Definition QOS_PROFILE_VOICE : Z := 4.

Record flow_key := mk_flow_key {
  src_ip : Z;
  dst_ip : Z;
  src_port : Z;
  dst_port : Z;
  ip_proto : Z;
  ifindex : Z
}.

Global Instance flow_key_eq_dec : EqDecision flow_key.
Proof. solve_decision. Defined.

Definition flow_key_to_tuple (k : flow_key) : Z * Z * Z * Z * Z * Z :=
  (src_ip k, dst_ip k, src_port k, dst_port k, ip_proto k, ifindex k).

Definition flow_key_of_tuple (t : Z * Z * Z * Z * Z * Z) : flow_key :=
  let '(a, b, c, d, e, f) := t in mk_flow_key a b c d e f.

Lemma tc_flow_key_tuple_inv k : flow_key_of_tuple (flow_key_to_tuple k) = k.
Proof. by destruct k. Qed.

Global Instance flow_key_countable : Countable flow_key :=
  inj_countable' flow_key_to_tuple flow_key_of_tuple tc_flow_key_tuple_inv.

Record flow_state := mk_flow_state {
  first_seen : Z;
  last_seen : Z;
  packet_count : Z;
  byte_count : Z;
  verdict : Z;
  offload_mark : Z;
  qos_profile : Z;
  flags : Z
}.

Record qos_profile_t := mk_qos_profile {
  rate_limit : Z;
  burst_limit : Z;
  priority : Z;
  app_class : Z
}.

Record tc_stats := mk_tc_stats {
  packets_processed : Z;
  packets_fast_path : Z;
  packets_slow_path : Z;
  packets_dropped : Z;
  bytes_processed : Z
}.

(** [qos_profiles] is an array map: index [i] is found when [i] is below
    the number of entries. *)
Record state := mk_state {
  flow_map : gmap flow_key flow_state;
  qos_profiles : list qos_profile_t;
  stats : tc_stats
}.

(** [None] stands for the return value -1. *)
Definition extract_flow_key (skb : sk_buff) : option flow_key :=
  let pkt := skb_data skb in
  if sizeof_ethhdr + sizeof_iphdr >? data_end pkt then None
  else if negb (eth_h_proto pkt =? bpf_htons ETH_P_IP) then None
  else
    let l4 := ip_off + ip_ihl pkt * 4 in
    let protocol := ip_protocol pkt in
    if protocol =? IPPROTO_TCP then
      if l4 + sizeof_tcphdr >? data_end pkt then None
      else
        Some (mk_flow_key (ip_saddr pkt) (ip_daddr pkt)
                (bpf_ntohs (l4_source pkt l4)) (bpf_ntohs (l4_dest pkt l4))
                protocol (skb_ifindex skb))
    else if protocol =? IPPROTO_UDP then
      if l4 + sizeof_udphdr >? data_end pkt then None
      else
        Some (mk_flow_key (ip_saddr pkt) (ip_daddr pkt)
                (bpf_ntohs (l4_source pkt l4)) (bpf_ntohs (l4_dest pkt l4))
                protocol (skb_ifindex skb))
    else
      Some (mk_flow_key (ip_saddr pkt) (ip_daddr pkt) 0 0 protocol
              (skb_ifindex skb)).

Definition apply_qos (st : state) (skb : sk_buff) (fs : flow_state)
    : sk_buff * Z :=
  if qos_profile fs =? QOS_PROFILE_DEFAULT then (skb, TC_ACT_OK)
  else
    match qos_profiles st !! Z.to_nat (qos_profile fs) with
    | None => (skb, TC_ACT_OK)
    | Some qos =>
        let queue_mapping :=
          if (app_class qos =? QOS_PROFILE_VIDEO)
             || (app_class qos =? QOS_PROFILE_VOICE)
          then app_class qos else skb_queue_mapping skb in
        (mk_skb (skb_data skb) (skb_len skb) (skb_ifindex skb)
           (Z.lor (skb_mark skb) 0x100000) (priority qos) queue_mapping,
         TC_ACT_OK)
    end.

Definition update_stats (packets bytes fast_path slow_path dropped : Z)
    (st : state) : state :=
  let s := stats st in
  mk_state (flow_map st) (qos_profiles st)
    (mk_tc_stats (u64 (packets_processed s + packets))
       (u64 (packets_fast_path s + fast_path))
       (u64 (packets_slow_path s + slow_path))
       (u64 (packets_dropped s + dropped))
       (u64 (bytes_processed s + bytes))).

Definition tc_fast_path (k : kernel) (skb : sk_buff) (st : state)
    : state * sk_buff * Z :=
  match extract_flow_key skb with
  | None => (update_stats 1 (skb_len skb) 0 1 0 st, skb, TC_ACT_OK)
  | Some key =>
      match bpf_map_lookup_elem (flow_map st) key with
      | None => (update_stats 1 (skb_len skb) 0 1 0 st, skb, TC_ACT_OK)
      | Some fs =>
          let fs :=
            mk_flow_state (first_seen fs) (u64 (last_seen fs + ktime_ns k))
              (u64 (packet_count fs + 1)) (u64 (byte_count fs + skb_len skb))
              (verdict fs) (offload_mark fs) (qos_profile fs) (flags fs) in
          let st :=
            mk_state (<[key := fs]> (flow_map st)) (qos_profiles st)
              (stats st) in
          if verdict fs =? VERDICT_TRUSTED then
            let skb :=
              mk_skb (skb_data skb) (skb_len skb) (skb_ifindex skb)
                NFQUEUE_BYPASS_MARK (skb_priority skb)
                (skb_queue_mapping skb) in
            let '(skb, qos_result) := apply_qos st skb fs in
            if negb (qos_result =? TC_ACT_OK) then
              (update_stats 1 (skb_len skb) 0 0 1 st, skb, qos_result)
            else (update_stats 1 (skb_len skb) 1 0 0 st, skb, TC_ACT_OK)
          else if verdict fs =? VERDICT_DROP then
            (update_stats 1 (skb_len skb) 0 0 1 st, skb, TC_ACT_SHOT)
          else (update_stats 1 (skb_len skb) 0 1 0 st, skb, TC_ACT_OK)
      end
  end.

(** The egress program: the key is looked up with source and destination
    swapped; no clock is read and no statistics are kept. *)
Definition tc_egress_fast_path (skb : sk_buff) (st : state)
    : state * sk_buff * Z :=
  match extract_flow_key skb with
  | None => (st, skb, TC_ACT_OK)
  | Some key =>
      let key :=
        mk_flow_key (dst_ip key) (src_ip key) (dst_port key) (src_port key)
          (ip_proto key) (ifindex key) in
      match bpf_map_lookup_elem (flow_map st) key with
      | None => (st, skb, TC_ACT_OK)
      | Some fs =>
          let fs :=
            mk_flow_state (first_seen fs) (last_seen fs)
              (u64 (packet_count fs + 1)) (u64 (byte_count fs + skb_len skb))
              (verdict fs) (offload_mark fs) (qos_profile fs) (flags fs) in
          let st :=
            mk_state (<[key := fs]> (flow_map st)) (qos_profiles st)
              (stats st) in
          if verdict fs =? VERDICT_TRUSTED then
            (st,
             mk_skb (skb_data skb) (skb_len skb) (skb_ifindex skb)
               NFQUEUE_BYPASS_MARK (skb_priority skb) (skb_queue_mapping skb),
             TC_ACT_OK)
          else if verdict fs =? VERDICT_DROP then (st, skb, TC_ACT_SHOT)
          else (st, skb, TC_ACT_OK)
      end
  end.

End Tc.

(** ** Header fields by their wire meaning *)

(** The 16 bits of the IPv4 header holding the flags and the fragment
    offset, read in network byte order. *)
Definition ipv4_frag_field (pkt : list Z) : Z := be16_at pkt (ip_off + 6).

Definition ipv4_more_fragments (pkt : list Z) : bool :=
  Z.testbit (ipv4_frag_field pkt) 13.

Definition ipv4_fragment_offset (pkt : list Z) : Z :=
  Z.land (ipv4_frag_field pkt) 0x1FFF.

(** The test [ip->frag_off & htons(0x3FFF)] on the host-order load agrees,
    for every pair of header bytes, with the wire meaning of the field: it is
    zero exactly when the more-fragments flag is clear and the offset is 0. *)
Definition frag_test_agrees (b0 b1 : Z) : bool :=
  let be := Z.lor (Z.shiftl b0 8) b1 in
  Bool.eqb
    (Z.land (Z.lor b0 (Z.shiftl b1 8)) (bpf_htons 0x3FFF) =? 0)
    (negb (Z.testbit be 13) && (Z.land be 0x1FFF =? 0)).

(** ** Wire encodings

    The encodings the dissectors read, used to state what they recover. *)

(** [bytes_at data p l]: the buffer holds the bytes [l] from offset [p]. *)
Definition bytes_at (data : list Z) (p : Z) (l : list Z) : Prop :=
  forall (i : nat) (x : Z), l !! i = Some x -> byte_at data (p + Z.of_nat i) = x.

(** A DNS label on the wire: its length, then its bytes. *)
Definition encode_label (label : list Z) : list Z :=
  Z.of_nat (length label) :: label.

Definition encode_labels (labels : list (list Z)) : list Z :=
  concat (map encode_label labels).

(** An uncompressed name: the labels, then the root label. *)
Definition encode_name (labels : list (list Z)) : list Z :=
  encode_labels labels ++ [0].

(** A compression pointer to [offset]. *)
Definition encode_pointer (offset : Z) : list Z :=
  [0xc0 + offset / 256; offset mod 256].

(** The text form: [labels] appended to [acc], with a dot before every label
    that does not start the name. *)
Definition append_labels (acc : list Z) (labels : list (list Z)) : list Z :=
  fold_left
    (fun name label =>
       match name with
       | [] => label
       | _ => name ++ 46 :: label
       end)
    labels acc.

Definition dotted_name (labels : list (list Z)) : list Z :=
  append_labels [] labels.

(** A label the parser passes through unchanged: 1 to 63 printable bytes. *)
Definition plain_label (label : list Z) : Prop :=
  (1 <= length label <= 63)%nat /\ Forall (fun c => 32 <= c <= 126) label.

(** DHCP options on the wire: type, length, value. *)
Definition encode_option (o : Z * list Z) : list Z :=
  fst o :: Z.of_nat (length (snd o)) :: snd o.

Definition encode_options (opts : list (Z * list Z)) : list Z :=
  concat (map encode_option opts).

(** A 16-bit field in network order. *)
Definition encode_be16 (n : Z) : list Z := [n / 256; n mod 256].

(** A TLS extension: type, length, body. *)
Definition encode_extension (e : Z * list Z) : list Z :=
  encode_be16 (fst e) ++ encode_be16 (Z.of_nat (length (snd e))) ++ snd e.

Definition encode_extensions (es : list (Z * list Z)) : list Z :=
  concat (map encode_extension es).

(** The body of a server-name extension with one host name. *)
Definition server_name_list (host : list Z) : list Z :=
  encode_be16 (Z.of_nat (length host) + 3) ++ [0]
  ++ encode_be16 (Z.of_nat (length host)) ++ host.

(** The layout [parse_tls_sni] walks from offset 9, right behind the
    record and handshake headers: session id, cipher suites, compression
    methods and extensions, each behind its length.  (The function skips no
    client version and no random between the headers and the session
    id.) *)
Definition client_hello_body (session_id cipher_suites compression
    extensions : list Z) : list Z :=
  [Z.of_nat (length session_id)] ++ session_id
  ++ encode_be16 (Z.of_nat (length cipher_suites)) ++ cipher_suites
  ++ [Z.of_nat (length compression)] ++ compression
  ++ encode_be16 (Z.of_nat (length extensions)) ++ extensions.

(** Where the extensions of a ClientHello start. *)
Definition extensions_start (session_id cipher_suites compression : list Z)
    : Z :=
  9 + 1 + Z.of_nat (length session_id) + 2 + Z.of_nat (length cipher_suites)
  + 1 + Z.of_nat (length compression) + 2.

(** A decision procedure for [bytes_at] on given bytes. *)
Fixpoint bytes_at_b (data : list Z) (p : Z) (l : list Z) : bool :=
  match l with
  | [] => true
  | x :: l' => (byte_at data p =? x) && bytes_at_b data (p + 1) l'
  end.

(** ** Notions used in the statements *)

(** A length byte the DNS name parser takes for a label: not the root
    label and without both top bits set. *)
Definition length_byte_ok (n : Z) : bool :=
  negb (n =? 0) && negb (Z.land n 0xc0 =? 0xc0).

(** The first byte of a pointer: the top bits are set and the low six
    bits are the high part of the offset. *)
Definition pointer_byte_ok (q : Z) : bool :=
  (Z.land (0xc0 + q) 0xc0 =? 0xc0) && (Z.land (0xc0 + q) 0x3f =? q).

(** The caller's cursor. *)
Definition cursor_inv (pos0 data_len : Z) (s : pn_state) : Prop :=
  if pn_jumped s then pos0 <= pn_original_pos s <= Z.max pos0 data_len
  else pos0 <= pn_pos s <= Z.max pos0 data_len.

(** What a call may do to the output buffer: the result is -1 with the
    buffer untouched, or an index below [sni_max]; nothing is written above
    that index, and a positive index holds the terminating NUL. *)
Definition sni_result_ok (sni : list Z) (sni_max : Z) (r : Z * list Z)
    : Prop :=
  -1 <= fst r < sni_max
  /\ (fst r = -1 -> snd r = sni)
  /\ (forall j : nat, (Z.to_nat (fst r) < j)%nat -> snd r !! j = sni !! j)
  /\ (0 < fst r -> snd r !! Z.to_nat (fst r) = Some 0).

(** The DNS message of a packet as [dns_socket_filter] takes it, and the
    two keys it builds. *)
Definition dns_of (pkt : list Z) : list Z :=
  drop (Z.to_nat (ip_off + sizeof_iphdr + sizeof_udphdr)) pkt.

Definition dns_len_of (pkt : list Z) : Z :=
  bpf_ntohs (udp_len pkt (ip_off + sizeof_iphdr)) - sizeof_udphdr.

Definition dns_key_of (pkt : list Z) : Dns.dns_key :=
  Dns.mk_dns_key (ip_saddr pkt) (ip_daddr pkt)
    (l4_source pkt (ip_off + sizeof_iphdr))
    (l4_dest pkt (ip_off + sizeof_iphdr)) (be16_at (dns_of pkt) 0) 0.

Definition dns_reverse_key_of (pkt : list Z) : Dns.dns_key :=
  Dns.mk_dns_key (ip_daddr pkt) (ip_saddr pkt)
    (l4_dest pkt (ip_off + sizeof_iphdr))
    (l4_source pkt (ip_off + sizeof_iphdr)) (be16_at (dns_of pkt) 0) 0.

(** The packets the filter dissects: IPv4, UDP, port 53 on either side, and
    a UDP length that covers a DNS header and stays inside the packet. *)
Definition dns_accepted (pkt : list Z) : Prop :=
  sizeof_ethhdr + sizeof_iphdr + sizeof_udphdr <= data_end pkt
  /\ eth_h_proto pkt = bpf_htons ETH_P_IP
  /\ ip_protocol pkt = IPPROTO_UDP
  /\ (l4_dest pkt (ip_off + sizeof_iphdr) = bpf_htons Dns.DNS_PORT
      \/ l4_source pkt (ip_off + sizeof_iphdr) = bpf_htons Dns.DNS_PORT)
  /\ ip_off + sizeof_iphdr + sizeof_udphdr + dns_len_of pkt <= data_end pkt
  /\ 12 <= dns_len_of pkt.

(** The records the filter builds for a query and for a response. *)
Definition dns_query_info_of (k : kernel) (skb : sk_buff) (pos : Z)
    (domain : list Z) : Dns.dns_query_info :=
  let pkt := skb_data skb in
  Dns.mk_query_info domain
    (if pos + 4 <=? dns_len_of pkt then be16_at (dns_of pkt) pos else 0)
    (if pos + 4 <=? dns_len_of pkt then be16_at (dns_of pkt) (pos + 2) else 0)
    (u16 (skb_len skb)) (ktime_ns k).

Definition dns_response_info_of (k : kernel) (skb : sk_buff) (st : Dns.state)
    (domain : list Z) : Dns.dns_response_info :=
  let pkt := skb_data skb in
  let dns := dns_of pkt in
  Dns.mk_response_info (u8 (Z.land (be16_at dns 2) 0x000F)) (be16_at dns 6)
    (be16_at dns 8) (be16_at dns 10)
    (match Dns.dns_queries st !! dns_reverse_key_of pkt with
     | Some q => Dns.q_timestamp q
     | None => 0
     end)
    (ktime_ns k) domain (u16 (skb_len skb)).

(** Where [tls_socket_filter] finds the TCP payload, the key it builds and
    the name buffer it fills. *)
Definition tls_payload_off (pkt : list Z) : Z :=
  ip_off + ip_ihl pkt * 4 + tcp_doff pkt (ip_off + ip_ihl pkt * 4) * 4.

Definition tls_key_of (pkt : list Z) : Tls.tls_key :=
  Tls.mk_tls_key (ip_saddr pkt) (ip_daddr pkt)
    (l4_source pkt (ip_off + ip_ihl pkt * 4))
    (l4_dest pkt (ip_off + ip_ihl pkt * 4)).

Definition tls_sni_result (pkt : list Z) : Z * list Z :=
  parse_tls_sni (drop (Z.to_nat (tls_payload_off pkt)) pkt)
    (data_end pkt - tls_payload_off pkt)
    (replicate (Z.to_nat Tls.MAX_SNI_LEN) 0) Tls.MAX_SNI_LEN.

(** The packets the filter records: IPv4, TCP, and a payload that starts
    with a handshake record holding a ClientHello. *)
Definition tls_accepted (pkt : list Z) : Prop :=
  sizeof_ethhdr + sizeof_iphdr + sizeof_tcphdr <= data_end pkt
  /\ eth_h_proto pkt = bpf_htons ETH_P_IP
  /\ ip_protocol pkt = IPPROTO_TCP
  /\ tls_payload_off pkt + 9 <= data_end pkt
  /\ byte_at (drop (Z.to_nat (tls_payload_off pkt)) pkt) 0
     = Tls.TLS_RECORD_HANDSHAKE
  /\ byte_at (drop (Z.to_nat (tls_payload_off pkt)) pkt) 5
     = Tls.TLS_HANDSHAKE_CLIENT_HELLO.

(** The TCP header the filter reads ([source], [dest], [doff]) lies inside
    the packet.  The filter checks the packet length for an IP header of 20
    bytes only and reads [tcp->doff] behind an IP header of [ihl * 4]
    bytes without a further check. *)
Definition tls_header_inside (pkt : list Z) : Prop :=
  ip_off + ip_ihl pkt * 4 + sizeof_tcphdr <= data_end pkt.

(** A packet that gets past the header checks of [xdp_blocklist_prog]:
    an unfragmented IPv4 packet with a complete IP header. *)
Definition xdp_inspected (pkt : list Z) : Prop :=
  sizeof_ethhdr + sizeof_iphdr <= data_end pkt
  /\ eth_h_proto pkt = bpf_htons ETH_P_IP
  /\ Z.land (ip_frag_off pkt) (bpf_htons 0x3FFF) = 0.

(** [packets_processed] is the sum of the two outcome counters. *)
Definition stats_consistent (s : Xdp.statistics) : Prop :=
  Xdp.packets_processed s
  = u64 (Xdp.packets_dropped s + Xdp.packets_passed s).

(** Case analysis of [xdp_filter_stage] without unfolding the maps. *)
Ltac xdp_stage_cases :=
  repeat match goal with
         | |- context [let '(_, _) := Xdp.rate_limit_check ?a ?b ?c in _] =>
             let Hrl := fresh "Hrl" in
             destruct (Xdp.rate_limit_check a b c) as [? ?] eqn:Hrl;
             cbv beta iota zeta
         | |- context [if ?c then _ else _] =>
             destruct c eqn:?; cbv beta iota zeta
         end.

(** The stored verdict the ingress program finds for a packet, if any. *)
Definition tc_found_verdict (skb : sk_buff) (st : Tc.state) : option Z :=
  match Tc.extract_flow_key skb with
  | Some key => Tc.verdict <$> Tc.flow_map st !! key
  | None => None
  end.

(** [key] with source and destination swapped. *)
Definition tc_reverse_key (key : Tc.flow_key) : Tc.flow_key :=
  Tc.mk_flow_key (Tc.dst_ip key) (Tc.src_ip key) (Tc.dst_port key)
    (Tc.src_port key) (Tc.ip_proto key) (Tc.ifindex key).

(** ** Sample packets *)

Module Samples.

Definition be16 (x : Z) : list Z := [Z.shiftr x 8 mod 256; x mod 256].
Definition be32 (x : Z) : list Z := be16 (x / 65536) ++ be16 (x mod 65536).

Definition ipv4 (a b c d : Z) : Z := ((a * 256 + b) * 256 + c) * 256 + d.

(** The host-order value a program loads from a 32 or 16 bit field that
    holds [x] on the wire. *)
Definition host32 (x : Z) : Z := load32 (be32 x) 0.
Definition host16 (x : Z) : Z := load16 (be16 x) 0.

(** An Ethernet frame carrying an IPv4 packet with a 20 byte header;
    [frag] is the flags / fragment-offset field. *)
Definition ethernet_ipv4 (protocol frag src dst : Z) (l4 : list Z)
    : list Z :=
  replicate 12 0 ++ be16 0x0800
  ++ [0x45; 0] ++ be16 (20 + Z.of_nat (length l4)) ++ be16 0 ++ be16 frag
  ++ [64; protocol] ++ be16 0 ++ be32 src ++ be32 dst ++ l4.

Definition udp_datagram (sport dport : Z) (payload : list Z) : list Z :=
  be16 sport ++ be16 dport ++ be16 (8 + Z.of_nat (length payload))
  ++ be16 0 ++ payload.

Definition tcp_segment (sport dport : Z) (payload : list Z) : list Z :=
  be16 sport ++ be16 dport ++ replicate 8 0 ++ [0x50; 0x18] ++ be16 0xffff
  ++ be16 0 ++ be16 0 ++ payload.

Definition dns_message (id flags qdcount ancount : Z) (body : list Z)
    : list Z :=
  be16 id ++ be16 flags ++ be16 qdcount ++ be16 ancount ++ be16 0 ++ be16 0
  ++ body.

Definition skb_of (pkt : list Z) : sk_buff :=
  mk_skb pkt (Z.of_nat (length pkt)) 1 0 0 0.

Definition client : Z := ipv4 10 0 0 1.
Definition server : Z := ipv4 10 0 0 2.

(** "example.com" as a sequence of labels, then QTYPE A, QCLASS IN. *)
Definition example_com_question : list Z :=
  [7; 101; 120; 97; 109; 112; 108; 101; 3; 99; 111; 109; 0; 0; 1; 0; 1].

Definition empty_stats : Xdp.statistics :=
  Xdp.mk_statistics 0 0 0 0 0 0 0 0 0.

Definition xdp_empty (room : nat) : Xdp.state :=
  Xdp.mk_state ∅ ∅ empty_stats ∅ (mk_ringbuf [] room).

(** An ICMP packet from [client], and the same packet as a fragment with
    the more-fragments flag set. *)
Definition icmp_packet : list Z :=
  ethernet_ipv4 1 0 client server [8; 0; 0; 0; 0; 1; 0; 1].
Definition icmp_fragment : list Z :=
  ethernet_ipv4 1 0x2000 client server [8; 0; 0; 0; 0; 1; 0; 1].

(** The fixed part of a DHCP message up to and including the magic
    cookie. *)
Definition dhcp_header : list Z :=
  replicate 236 0 ++ [0x63; 0x82; 0x53; 0x63].

(** A Discover whose host-name option (12) declares 10 bytes while only
    "abc" is left in the buffer. *)
Definition dhcp_discover_cut : list Z :=
  dhcp_header ++ [53; 1; 1; 12; 10; 97; 98; 99].

(** A Discover with host name "laptop1". *)
Definition dhcp_discover : list Z :=
  dhcp_header ++ [53; 1; 1; 12; 7; 108; 97; 112; 116; 111; 112; 49; 255].

(** "example.org" *)
Definition example_org : list Z :=
  [101; 120; 97; 109; 112; 108; 101; 46; 111; 114; 103].

(** A ClientHello record in the layout [parse_tls_sni] walks: record
    header, handshake header, empty session id, one cipher suite, one
    compression method, and a server-name extension for "example.org". *)
Definition tls_client_hello (suite : Z) : list Z :=
  [0x16; 0x03; 0x01] ++ be16 33 ++ [0x01; 0; 0; 29]
  ++ [0] ++ be16 2 ++ be16 suite ++ [1; 0] ++ be16 20
  ++ be16 0 ++ be16 16 ++ be16 14 ++ [0] ++ be16 11 ++ example_org.

Definition tls_packet (suite : Z) : list Z :=
  ethernet_ipv4 6 0 client server
    (tcp_segment 50000 443 (tls_client_hello suite)).

(** A query for "example.com" with transaction id 0x1234 from
    [client]:5353 to [server]:53, and the response to it. *)
Definition dns_query_packet : list Z :=
  ethernet_ipv4 17 0 client server
    (udp_datagram 5353 53 (dns_message 0x1234 0x0100 1 0 example_com_question)).

Definition dns_response_packet : list Z :=
  ethernet_ipv4 17 0 server client
    (udp_datagram 53 5353
       (dns_message 0x1234 0x8180 1 1
          (example_com_question
           ++ [0xc0; 12; 0; 1; 0; 1; 0; 0; 0; 60; 0; 4; 93; 184; 216; 34]))).

(** A DNS message whose name at offset 25 is reached through six
    backward compression pointers: 25 -> 23 -> 21 -> 19 -> 17 -> 15 -> 12,
    where the label "a" and the root label are. *)
Definition dns_six_pointers : list Z :=
  replicate 12 0
  ++ [1; 97; 0; 0xc0; 12; 0xc0; 15; 0xc0; 17; 0xc0; 19; 0xc0; 21; 0xc0; 23].

(** The same message with a seventh pointer, at offset 27. *)
Definition dns_seven_pointers : list Z := dns_six_pointers ++ [0xc0; 25].

(** A message whose name is a pointer to offset 255, past its 14 bytes. *)
Definition dns_pointer_outside : list Z := replicate 12 0 ++ [0xc0; 0xff].

Definition dns_empty (room : nat) : Dns.state :=
  Dns.mk_state ∅ ∅ (replicate 10 0) (mk_ringbuf [] room).

Definition tls_empty (room : nat) : Tls.state :=
  Tls.mk_state ∅ (replicate 10 0) (mk_ringbuf [] room).

End Samples.

(** ** Further sample inputs *)

Module Examples.

Definition example_com_labels : list (list Z) :=
  [[101; 120; 97; 109; 112; 108; 101]; [99; 111; 109]].

(** "example.com" at offset 12, then "www" followed by a pointer to it at
    offset 25. *)
Definition dns_www_pointer : list Z :=
  replicate 12 0
  ++ [7; 101; 120; 97; 109; 112; 108; 101; 3; 99; 111; 109; 0]
  ++ [3; 119; 119; 119; 0xc0; 12].

(** A ClientHello with a supported-groups extension before the server
    name "example.org". *)
Definition tls_hello_two_extensions : list Z :=
  [0x16; 0x03; 0x01] ++ Samples.be16 41 ++ [0x01; 0; 0; 37]
  ++ [0] ++ Samples.be16 2 ++ Samples.be16 0x1301 ++ [1; 0]
  ++ Samples.be16 28
  ++ Samples.be16 10 ++ Samples.be16 4 ++ [0; 2; 0; 29]
  ++ Samples.be16 0 ++ Samples.be16 16 ++ Samples.be16 14 ++ [0]
  ++ Samples.be16 11 ++ Samples.example_org.

Definition tls_packet_two_extensions : list Z :=
  Samples.ethernet_ipv4 6 0 Samples.client Samples.server
    (Samples.tcp_segment 50000 443 tls_hello_two_extensions).

(** A TCP segment to port 443 whose payload is a handshake record too
    short to hold a ClientHello body. *)
Definition tls_packet_short : list Z :=
  Samples.ethernet_ipv4 6 0 Samples.client Samples.server
    (Samples.tcp_segment 50000 443 [0x16; 0x03; 0x01; 0; 4; 0x01; 0; 0; 0]).



(** A query whose first label declares 7 bytes with 3 left. *)
Definition dns_query_truncated : list Z :=
  Samples.ethernet_ipv4 17 0 Samples.client Samples.server
    (Samples.udp_datagram 5353 53
       (Samples.dns_message 0x1234 0x0100 1 0 [7; 101; 120; 97])).

End Examples.

(** * Properties *)

(** ** Integers and header fields *)

Lemma byte_at_range data i : 0 <= byte_at data i < 256.
Proof. unfold byte_at, u8. apply Z.mod_pos_bound. lia. Qed.

Lemma u64_small x : 0 <= x < 2 ^ 64 -> u64 x = x.
Proof. intros. unfold u64. apply Z.mod_small. lia. Qed.

Lemma frag_test_agrees_all :
  forallb (fun b0 => forallb (frag_test_agrees b0) (seqZ 0 256)) (seqZ 0 256)
  = true.
Proof. vm_compute. reflexivity. Qed.

Lemma frag_test_bytes b0 b1 :
  0 <= b0 < 256 -> 0 <= b1 < 256 -> frag_test_agrees b0 b1 = true.
Proof.
  intros H0 H1.
  pose proof frag_test_agrees_all as Hall.
  rewrite forallb_forall in Hall.
  specialize (Hall b0).
  rewrite forallb_forall in Hall.
  apply Hall; apply list_elem_of_In, elem_of_seqZ; lia.
Qed.

Lemma frag_test_wire pkt :
  (Z.land (ip_frag_off pkt) (bpf_htons 0x3FFF) =? 0)
  = negb (ipv4_more_fragments pkt) && (ipv4_fragment_offset pkt =? 0).
Proof.
  unfold ip_frag_off, load16, ipv4_more_fragments, ipv4_fragment_offset,
    ipv4_frag_field, be16_at.
  replace (ip_off + 6 + 1) with (ip_off + 7)
    by (unfold ip_off, sizeof_ethhdr; lia).
  pose proof (frag_test_bytes (byte_at pkt (ip_off + 6))
                (byte_at pkt (ip_off + 7))
                (byte_at_range _ _) (byte_at_range _ _)) as Hb.
  unfold frag_test_agrees in Hb.
  apply Bool.eqb_prop in Hb. exact Hb.
Qed.

(** ** The XDP program *)

(** C10.  A packet whose IPv4 header has a nonzero fragment offset or the
    more-fragments flag set leaves [xdp_blocklist_prog] with [XDP_PASS] and
    with the whole state (block list, rate-limiter entries, flow table,
    counters, event ring) exactly as it was, whatever the state is; so a
    fragment from a block-listed source is passed as well. *)
Theorem xdp_fragment_passed_untouched (k : kernel) (pkt : list Z)
    (st : Xdp.state) :
  ipv4_fragment_offset pkt <> 0 \/ ipv4_more_fragments pkt = true ->
  Xdp.xdp_blocklist_prog k pkt st = (st, XDP_PASS).
Proof.
  intros Hfrag.
  assert (Htest : (Z.land (ip_frag_off pkt) (bpf_htons 0x3FFF) =? 0) = false).
  { rewrite frag_test_wire.
    destruct Hfrag as [Hoff | Hmf].
    - apply Z.eqb_neq in Hoff. rewrite Hoff. apply andb_false_r.
    - rewrite Hmf. reflexivity. }
  unfold Xdp.xdp_blocklist_prog, Xdp.xdp_filter_stage.
  rewrite Htest. simpl negb.
  repeat match goal with |- context [if ?c then _ else _] =>
    destruct c; try reflexivity end.
Qed.

Lemma xdp_fragment_passed_untouched_witness :
  let st :=
    Xdp.set_ip_blocklist {[Samples.host32 Samples.client := 1]}
      (Samples.xdp_empty 8) in
  (ipv4_fragment_offset Samples.icmp_fragment <> 0
   \/ ipv4_more_fragments Samples.icmp_fragment = true)
  /\ Xdp.is_ip_blocked st (ip_saddr Samples.icmp_fragment) = true
  /\ Xdp.xdp_blocklist_prog (mk_kernel 5000 0) Samples.icmp_fragment st
     = (st, XDP_PASS)
  /\ snd (Xdp.xdp_blocklist_prog (mk_kernel 5000 0) Samples.icmp_packet st)
     = XDP_DROP.
Proof.
  split; [right; reflexivity |].
  split; [reflexivity |].
  split; [| vm_compute; reflexivity].
  apply xdp_fragment_passed_untouched. right. reflexivity.
Defined.

(** *** The rate limiter *)

Lemma rate_limit_check_absent k st ip :
  Xdp.ip_blocklist st !! ip = None ->
  Z.of_nat (size (Xdp.ip_blocklist st)) < Xdp.IP_BLOCKLIST_MAX_ENTRIES ->
  Xdp.rate_limit_check k st ip
  = (Xdp.set_ip_blocklist (<[ip := ktime_ns k]> (Xdp.ip_blocklist st)) st, 1).
Proof.
  intros Hnone Hroom. unfold Xdp.rate_limit_check, bpf_map_lookup_elem,
    bpf_hash_map_update_elem.
  rewrite Hnone. cbn [Z.eqb Pos.eqb BPF_EXIST BPF_NOEXIST negb fst snd].
  rewrite Hnone. cbn [Z.eqb Pos.eqb BPF_EXIST BPF_NOEXIST negb fst snd].
  replace (Xdp.IP_BLOCKLIST_MAX_ENTRIES
           <=? Z.of_nat (size (Xdp.ip_blocklist st)))
    with false by (symmetry; apply Z.leb_gt; exact Hroom).
  reflexivity.
Qed.

(** On a full map a source without an entry is admitted and not recorded:
    both updates fail and their results are ignored. *)
Lemma rate_limit_check_full k st ip :
  Xdp.ip_blocklist st !! ip = None ->
  Xdp.IP_BLOCKLIST_MAX_ENTRIES <= Z.of_nat (size (Xdp.ip_blocklist st)) ->
  Xdp.rate_limit_check k st ip
  = (Xdp.set_ip_blocklist (Xdp.ip_blocklist st) st, 1).
Proof.
  intros Hnone Hfull. unfold Xdp.rate_limit_check, bpf_map_lookup_elem,
    bpf_hash_map_update_elem.
  rewrite Hnone. cbn [Z.eqb Pos.eqb BPF_EXIST BPF_NOEXIST negb fst snd].
  rewrite Hnone. cbn [Z.eqb Pos.eqb BPF_EXIST BPF_NOEXIST negb fst snd].
  replace (Xdp.IP_BLOCKLIST_MAX_ENTRIES
           <=? Z.of_nat (size (Xdp.ip_blocklist st)))
    with true by (symmetry; apply Z.leb_le; exact Hfull).
  reflexivity.
Qed.

Lemma rate_limit_check_present k st ip last :
  Xdp.ip_blocklist st !! ip = Some last ->
  Xdp.rate_limit_check k st ip
  = if u64 (ktime_ns k - last) <? Xdp.RATE_LIMIT_WINDOW_NS then (st, 0)
    else (Xdp.set_ip_blocklist (<[ip := ktime_ns k]> (Xdp.ip_blocklist st)) st,
          1).
Proof.
  intros Hsome. unfold Xdp.rate_limit_check, bpf_map_lookup_elem,
    bpf_hash_map_update_elem.
  rewrite Hsome. cbn [Z.eqb Pos.eqb BPF_EXIST BPF_NOEXIST negb fst snd].
  destruct (u64 (ktime_ns k - last) <? Xdp.RATE_LIMIT_WINDOW_NS);
    reflexivity.
Qed.

(** The limiter on its own.  With a clock that has not run backwards past
    a recorded timestamp, [rate_limit_check] admits (returns 1) exactly when
    no timestamp is recorded for the source or
    [now - last >= RATE_LIMIT_WINDOW_NS]; a rejection changes nothing; an
    admission records [now], unless the source is new and the map is
    full. *)
Lemma rate_limit_check_window (k : kernel) (st : Xdp.state) (ip : Z) :
  0 <= ktime_ns k < 2 ^ 64 ->
  (forall last,
     Xdp.ip_blocklist st !! ip = Some last -> 0 <= last <= ktime_ns k) ->
  let now := ktime_ns k in
  let r := Xdp.rate_limit_check k st ip in
  (snd r = 1 \/ snd r = 0)
  /\ (snd r = 1 <->
      Xdp.ip_blocklist st !! ip = None
      \/ exists last,
           Xdp.ip_blocklist st !! ip = Some last
           /\ now - last >= Xdp.RATE_LIMIT_WINDOW_NS)
  /\ (snd r = 0 -> fst r = st)
  /\ (snd r = 1 ->
      Xdp.ip_blocklist st !! ip <> None
      \/ Z.of_nat (size (Xdp.ip_blocklist st)) < Xdp.IP_BLOCKLIST_MAX_ENTRIES ->
      Xdp.ip_blocklist (fst r) !! ip = Some now).
Proof.
  intros Hnow Hpast now r.
  destruct (Xdp.ip_blocklist st !! ip) as [last |] eqn:Hlook.
  - specialize (Hpast last eq_refl).
    subst r. rewrite (rate_limit_check_present _ _ _ _ Hlook).
    rewrite u64_small by lia. fold now.
    destruct (now - last <? Xdp.RATE_LIMIT_WINDOW_NS) eqn:Hlt; cbn [fst snd].
    + apply Z.ltb_lt in Hlt.
      split; [right; reflexivity |].
      split; [| split; [reflexivity | discriminate]].
      split; [discriminate |].
      intros [Hn | (l & Hl & Hge)]; [discriminate |].
      injection Hl as <-. lia.
    + apply Z.ltb_ge in Hlt.
      split; [left; reflexivity |].
      split; [| split; [discriminate |]].
      * split; [| reflexivity].
        intros _. right. exists last. split; [reflexivity | lia].
      * intros _ _. cbn [Xdp.set_ip_blocklist Xdp.ip_blocklist].
        apply lookup_insert_eq.
  - destruct (Z.lt_ge_cases (Z.of_nat (size (Xdp.ip_blocklist st)))
                Xdp.IP_BLOCKLIST_MAX_ENTRIES) as [Hroom | Hfull].
    + subst r. rewrite (rate_limit_check_absent _ _ _ Hlook Hroom).
      cbn [fst snd].
      split; [left; reflexivity |].
      split; [| split; [discriminate |]].
      * split; [| reflexivity]. intros _. left. reflexivity.
      * intros _ _. cbn [Xdp.set_ip_blocklist Xdp.ip_blocklist].
        apply lookup_insert_eq.
    + subst r. rewrite (rate_limit_check_full _ _ _ Hlook Hfull).
      cbn [fst snd].
      split; [left; reflexivity |].
      split; [| split; [discriminate |]].
      * split; [| reflexivity]. intros _. left. reflexivity.
      * intros _ [Hne | Hroom]; [contradiction | lia].
Qed.

(** Inside [xdp_blocklist_prog] the limiter keeps its timestamps in
    [ip_blocklist], the map that [is_ip_blocked] consults first: once the
    limiter has recorded a source, the block-list test holds for it. *)
Lemma rate_limit_entry_is_blocklist_entry k st ip :
  Xdp.ip_blocklist st !! ip <> None
  \/ Z.of_nat (size (Xdp.ip_blocklist st)) < Xdp.IP_BLOCKLIST_MAX_ENTRIES ->
  snd (Xdp.rate_limit_check k st ip) = 1 ->
  Xdp.is_ip_blocked (fst (Xdp.rate_limit_check k st ip)) ip = true.
Proof.
  intros Hroom Hadm.
  destruct (Xdp.ip_blocklist st !! ip) as [last |] eqn:Hlook.
  - rewrite (rate_limit_check_present _ _ _ _ Hlook) in *.
    destruct (u64 (ktime_ns k - last) <? Xdp.RATE_LIMIT_WINDOW_NS);
      [discriminate |].
    unfold Xdp.is_ip_blocked, bpf_map_lookup_elem. simpl.
    by rewrite lookup_insert_eq.
  - destruct Hroom as [Hne | Hroom]; [contradiction |].
    rewrite (rate_limit_check_absent _ _ _ Hlook Hroom).
    unfold Xdp.is_ip_blocked, bpf_map_lookup_elem. simpl.
    by rewrite lookup_insert_eq.
Qed.

(** C5.  In [xdp_blocklist_prog] the limiter does not admit a source again
    after the window.  Three packets of one source arrive at an empty
    [ip_blocklist]: the first at 5 s, the second 1 ms later, the third 1.1 s
    after the first.  The first is passed and the limiter records its time
    in [ip_blocklist].  The second is dropped; the third, which the claim
    has admitted, is dropped too: [is_ip_blocked] finds the limiter's entry
    in [ip_blocklist] and drops both as block-listed sources (two events of
    type 1), so [rate_limit_check] is not reached and the recorded time
    stays that of the first packet.  Called on the same states,
    [rate_limit_check] itself rejects after 1 ms and admits after 1.1 s. *)
Theorem xdp_limiter_entry_blocks_source :
  let src := ip_saddr Samples.icmp_packet in
  let run t st :=
    Xdp.xdp_blocklist_prog (mk_kernel t 0) Samples.icmp_packet st in
  let r1 := run 5000000000 (Samples.xdp_empty 8) in
  let r2 := run 5001000000 (fst r1) in
  let r3 := run 6100000000 (fst r2) in
  Xdp.ip_blocklist (Samples.xdp_empty 8) !! src = None
  /\ snd r1 = XDP_PASS
  /\ Xdp.ip_blocklist (fst r1) !! src = Some 5000000000
  /\ snd r2 = XDP_DROP
  /\ snd r3 = XDP_DROP
  /\ Xdp.ip_blocklist (fst r3) !! src = Some 5000000000
  /\ Xdp.is_ip_blocked (fst r2) src = true
  /\ Xdp.e_type <$> rb_records (Xdp.events (fst r3)) = [1; 1]
  /\ snd (Xdp.rate_limit_check (mk_kernel 5001000000 0) (fst r1) src) = 0
  /\ snd (Xdp.rate_limit_check (mk_kernel 6100000000 0) (fst r2) src) = 1.
Proof.
  intros src run r1 r2 r3.
  split; [vm_compute; reflexivity |].
  split; [vm_compute; reflexivity |].
  split; [vm_compute; reflexivity |].
  split; [vm_compute; reflexivity |].
  split; [vm_compute; reflexivity |].
  split; [vm_compute; reflexivity |].
  split; [vm_compute; reflexivity |].
  split; [vm_compute; reflexivity |].
  split; vm_compute; reflexivity.
Qed.

(** *** Flow creation and lookup *)

Lemma get_or_create_flow_present k st key fs :
  Xdp.flow_map st !! key = Some fs ->
  Xdp.get_or_create_flow k st key = (st, Some fs).
Proof.
  intros Hlook. unfold Xdp.get_or_create_flow, bpf_map_lookup_elem.
  by rewrite Hlook.
Qed.

Lemma get_or_create_flow_absent k st key :
  Xdp.flow_map st !! key = None ->
  let new_state :=
    Xdp.mk_flow_state XDP_PASS 0 0 0 0 0 (ktime_ns k)
      (u64 (ktime_ns k + FLOW_TIMEOUT_NS)) in
  Xdp.get_or_create_flow k st key
  = (Xdp.set_flow_map (<[key := new_state]> (Xdp.flow_map st)) st,
     Some new_state).
Proof.
  intros Hlook new_state.
  unfold Xdp.get_or_create_flow, bpf_map_lookup_elem, bpf_map_update_elem.
  rewrite Hlook. simpl.
  by rewrite lookup_insert_eq.
Qed.

(** C2, as the code has it.  The entry created for a key without flow state
    carries [verdict = XDP_PASS] (2), zero packet and byte counts, QoS
    profile 0, no flags and no [last_seen]: it is not Drop for the XDP
    program's own test [verdict == XDP_DROP] and not Trusted
    ([TRUSTED_FLOW_FLAG] clear, and the value differs from
    [VERDICT_TRUSTED]).  The value is not [VERDICT_UNKNOWN] (0) of
    [tc_offload.c]; it is the number of [VERDICT_DROP]. *)
Theorem get_or_create_flow_fresh_verdict (k : kernel) (st : Xdp.state)
    (key : Xdp.flow_key) :
  Xdp.flow_map st !! key = None ->
  exists fs,
    snd (Xdp.get_or_create_flow k st key) = Some fs
    /\ Xdp.flow_map (fst (Xdp.get_or_create_flow k st key)) !! key = Some fs
    /\ Xdp.verdict fs = XDP_PASS
    /\ Xdp.verdict fs <> XDP_DROP
    /\ Xdp.verdict fs <> Tc.VERDICT_TRUSTED
    /\ Z.land (Xdp.flags fs) Xdp.TRUSTED_FLOW_FLAG = 0
    /\ Xdp.packet_count fs = 0
    /\ Xdp.byte_count fs = 0
    /\ Xdp.flags fs = 0
    /\ Xdp.qos_profile fs = 0
    /\ Xdp.last_seen fs = 0
    /\ Xdp.verdict fs <> Tc.VERDICT_UNKNOWN
    /\ Xdp.verdict fs = Tc.VERDICT_DROP.
Proof.
  intros Hlook. rewrite (get_or_create_flow_absent _ _ _ Hlook).
  eexists. split; [reflexivity |]. simpl.
  split; [by rewrite lookup_insert_eq |].
  repeat split; discriminate.
Qed.

Lemma get_or_create_flow_fresh_verdict_witness :
  let key := Xdp.mk_flow_key 1 2 0 0 1 in
  exists fs,
    snd (Xdp.get_or_create_flow (mk_kernel 5000 0) (Samples.xdp_empty 8) key)
    = Some fs
    /\ Xdp.verdict fs = XDP_PASS.
Proof.
  intros key.
  destruct (get_or_create_flow_fresh_verdict (mk_kernel 5000 0)
              (Samples.xdp_empty 8) key) as (fs & Hfs & _ & Hv & _).
  - reflexivity.
  - exists fs. split; [exact Hfs | exact Hv].
Defined.

(** C2 as stated fails: the verdict of a fresh entry is not
    [VERDICT_UNKNOWN] (0); its value is the one [tc_fast_path] reads as
    [VERDICT_DROP], and a TC flow entry holding it is shot. *)
Lemma fresh_flow_verdict_not_unknown :
  let key := Xdp.mk_flow_key 1 2 0 0 1 in
  exists fs,
    snd (Xdp.get_or_create_flow (mk_kernel 5000 0) (Samples.xdp_empty 8) key)
    = Some fs
    /\ Xdp.verdict fs <> Tc.VERDICT_UNKNOWN
    /\ Xdp.verdict fs = Tc.VERDICT_DROP
    /\ forall tkey,
         Tc.extract_flow_key (Samples.skb_of Samples.icmp_packet) = Some tkey ->
         snd (Tc.tc_fast_path (mk_kernel 5000 0)
                (Samples.skb_of Samples.icmp_packet)
                (Tc.mk_state
                   {[tkey := Tc.mk_flow_state 0 0 0 0 (Xdp.verdict fs) 0 0 0]}
                   [] (Tc.mk_tc_stats 0 0 0 0 0)))
         = TC_ACT_SHOT.
Proof.
  intros key. eexists. split; [reflexivity |].
  split; [discriminate |]. split; [reflexivity |].
  intros tkey Hk. vm_compute in Hk. injection Hk as <-.
  vm_compute. reflexivity.
Qed.

(** C6, as the code has it.  A lookup hands back whatever entry is in the
    store: [get_or_create_flow] returns an entry that [is_expired] reports
    as expired unchanged and creates nothing, and [tc_fast_path] keeps
    counting on the entry it finds, at any clock value. *)
Theorem lookup_returns_expired_entry (k : kernel) (st : Xdp.state)
    (key : Xdp.flow_key) (fs : Xdp.flow_state) (skb : sk_buff)
    (tst : Tc.state) (tkey : Tc.flow_key) (tfs : Tc.flow_state) :
  Xdp.flow_map st !! key = Some fs ->
  is_expired (ktime_ns k) (Xdp.expires_at fs) = 1 ->
  Tc.extract_flow_key skb = Some tkey ->
  Tc.flow_map tst !! tkey = Some tfs ->
  Xdp.get_or_create_flow k st key = (st, Some fs)
  /\ exists tfs',
       Tc.flow_map (fst (fst (Tc.tc_fast_path k skb tst))) !! tkey = Some tfs'
       /\ Tc.packet_count tfs' = u64 (Tc.packet_count tfs + 1)
       /\ Tc.verdict tfs' = Tc.verdict tfs.
Proof.
  intros Hlook _ Hkey Htlook.
  split; [by apply get_or_create_flow_present |].
  unfold Tc.tc_fast_path, bpf_map_lookup_elem. rewrite Hkey, Htlook.
  eexists. split.
  - repeat match goal with
           | |- context [if ?c then _ else _] => destruct c
           | |- context [let '(_, _) := ?p in _] => destruct p
           end; simpl; apply lookup_insert_eq.
  - split; reflexivity.
Qed.

Lemma lookup_returns_expired_entry_witness :
  let key := Xdp.mk_flow_key 1 2 0 0 1 in
  let fs := Xdp.mk_flow_state XDP_PASS 0 0 7 700 900 100 10 in
  let st := Xdp.set_flow_map {[key := fs]} (Samples.xdp_empty 8) in
  is_expired 1000 (Xdp.expires_at fs) = 1
  /\ Xdp.get_or_create_flow (mk_kernel 1000 0) st key = (st, Some fs).
Proof.
  intros key fs st.
  split; [reflexivity |].
  assert (Htkey : Tc.extract_flow_key (Samples.skb_of Samples.icmp_packet)
                  = Some (Tc.mk_flow_key 16777226 33554442 0 0 1 1))
    by (vm_compute; reflexivity).
  refine (proj1 (lookup_returns_expired_entry (mk_kernel 1000 0) st key fs
                   (Samples.skb_of Samples.icmp_packet)
                   (Tc.mk_state
                      {[Tc.mk_flow_key 16777226 33554442 0 0 1 1
                        := Tc.mk_flow_state 0 0 0 0 0 0 0 0]}
                      [] (Tc.mk_tc_stats 0 0 0 0 0))
                   _ (Tc.mk_flow_state 0 0 0 0 0 0 0 0) _ _ Htkey _));
    vm_compute; reflexivity.
Defined.

(** C6 as stated fails: an entry whose [expires_at] lies in the past is
    found by the lookup, and the outcome differs from the one for an absent
    key (which creates a new flow). *)
Lemma expired_entry_still_found :
  let key := Xdp.mk_flow_key 1 2 0 0 1 in
  let fs := Xdp.mk_flow_state XDP_PASS 0 0 7 700 900 100 10 in
  let st := Xdp.set_flow_map {[key := fs]} (Samples.xdp_empty 8) in
  let absent := Xdp.set_flow_map (delete key (Xdp.flow_map st)) st in
  let k := mk_kernel 1000 0 in
  is_expired (ktime_ns k) (Xdp.expires_at fs) = 1
  /\ snd (Xdp.get_or_create_flow k st key) = Some fs
  /\ snd (Xdp.get_or_create_flow k st key)
     <> snd (Xdp.get_or_create_flow k absent key).
Proof.
  intros key fs st absent k.
  split; [reflexivity |]. split; [reflexivity |].
  vm_compute. discriminate.
Qed.

(** *** Flow tracking and the offload threshold *)

Lemma xdp_prog_reaches_track_flow k pkt st st1 key :
  Xdp.xdp_filter_stage k pkt st = inr (st1, key) ->
  Xdp.xdp_blocklist_prog k pkt st = Xdp.track_flow k pkt st1 key.
Proof. intros Hstage. unfold Xdp.xdp_blocklist_prog. by rewrite Hstage. Qed.






(** ** DHCP options *)

Lemma u8_small x : 0 <= x < 256 -> u8 x = x.
Proof. intros. unfold u8. apply Z.mod_small. lia. Qed.

Lemma parse_dhcp_options_loop_total fuel data data_len pos ty max_len :
  (Z.to_nat (data_len - pos) < fuel)%nat ->
  exists r,
    Dhcp.parse_dhcp_options_loop fuel data data_len pos ty max_len = Some r.
Proof.
  revert pos. induction fuel as [| fuel IH]; intros pos Hfuel; [lia |].
  simpl.
  destruct (pos + 2 <=? data_len) eqn:Hroom; [| eauto].
  apply Z.leb_le in Hroom.
  destruct (byte_at data pos =? 255); [eauto |].
  match goal with |- context [if ?c then Some _ else _] => destruct c end;
    [eauto |].
  apply IH.
  pose proof (byte_at_range data (pos + 1)).
  assert (0 <= u8 max_len) by (unfold u8; apply Z.mod_pos_bound; lia).
  match goal with |- context [if ?c then _ else _] => destruct c end; lia.
Qed.

Lemma parse_dhcp_options_loop_sound fuel data data_len pos ty max_len r :
  0 <= max_len < 256 ->
  Dhcp.parse_dhcp_options_loop fuel data data_len pos ty max_len = Some r ->
  0 <= Dhcp.opt_ret r ->
  byte_at data (Dhcp.opt_pos r - 2) = ty
  /\ Dhcp.opt_ret r = Z.min (byte_at data (Dhcp.opt_pos r - 1)) max_len
  /\ Dhcp.opt_pos r + Dhcp.opt_ret r <= data_len
  /\ Dhcp.opt_value r = Dhcp.read_bytes data (Dhcp.opt_pos r) (Dhcp.opt_ret r).
Proof.
  intros Hmax. revert pos.
  induction fuel as [| fuel IH]; intros pos Hrun Hret; [discriminate |].
  simpl in Hrun.
  destruct (pos + 2 <=? data_len) eqn:Hroom;
    [| injection Hrun as <-; simpl in Hret; lia].
  destruct (byte_at data pos =? 255);
    [injection Hrun as <-; simpl in Hret; lia |].
  destruct (byte_at data pos =? ty) eqn:Hty; simpl in Hrun.
  - apply Z.eqb_eq in Hty.
    assert (Hclamp :
              (if byte_at data (pos + 1) >? max_len then u8 max_len
               else byte_at data (pos + 1))
              = Z.min (byte_at data (pos + 1)) max_len).
    { rewrite u8_small by lia.
      destruct (byte_at data (pos + 1) >? max_len) eqn:Hgt; lia. }
    rewrite Hclamp in Hrun.
    destruct (pos + 2 + Z.min (byte_at data (pos + 1)) max_len <=? data_len)
      eqn:Hfit.
    + injection Hrun as <-. simpl.
      replace (pos + 2 - 2) with pos by lia.
      replace (pos + 2 - 1) with (pos + 1) by lia.
      apply Z.leb_le in Hfit. repeat split; [exact Hty | exact Hfit].
    + eapply IH; eassumption.
  - eapply IH; eassumption.
Qed.

Lemma parse_dhcp_options_at_match data data_len pos ty max_len :
  0 <= max_len < 256 ->
  pos + 2 <= data_len ->
  byte_at data pos = ty ->
  ty <> 255 ->
  let l := Z.min (byte_at data (pos + 1)) max_len in
  Dhcp.parse_dhcp_options data data_len pos ty max_len
  = Some (if pos + 2 + l <=? data_len then
            Dhcp.mk_opt_result l (pos + 2) (Dhcp.read_bytes data (pos + 2) l)
          else Dhcp.mk_opt_result (-1) (pos + 2 + l) []).
Proof.
  intros Hmax Hroom Hty Hend l.
  unfold Dhcp.parse_dhcp_options.
  destruct (Z.to_nat (data_len - pos)) as [| fuel] eqn:Hfuel; [lia |].
  cbn [Dhcp.parse_dhcp_options_loop].
  replace (pos + 2 <=? data_len) with true by (symmetry; lia).
  rewrite Hty.
  replace (ty =? 255) with false by (symmetry; lia).
  rewrite Z.eqb_refl. cbn [andb].
  assert (Hclamp :
            (if byte_at data (pos + 1) >? max_len then u8 max_len
             else byte_at data (pos + 1)) = l).
  { rewrite u8_small by lia. subst l.
    destruct (byte_at data (pos + 1) >? max_len) eqn:Hgt; lia. }
  rewrite Hclamp.
  destruct (pos + 2 + l <=? data_len) eqn:Hfit; [reflexivity |].
  replace (pos + 2 + l + 2 <=? data_len) with false by (symmetry; lia).
  reflexivity.
Qed.

(** C8, as the code has it.  [parse_dhcp_options] always returns.  The
    length of a requested option is clamped to the caller's capacity
    [max_len], not to the buffer: a value is returned only when the clamped
    length fits in what is left of the buffer, and then it has exactly that
    length and lies inside the buffer.  At a requested option whose clamped
    length runs past the end of the buffer nothing is extracted and the
    result is -1. *)
Theorem parse_dhcp_options_needs_fit (data : list Z)
    (data_len pos ty max_len : Z) :
  0 <= max_len < 256 ->
  (exists r,
     Dhcp.parse_dhcp_options data data_len pos ty max_len = Some r
     /\ (0 <= Dhcp.opt_ret r ->
         byte_at data (Dhcp.opt_pos r - 2) = ty
         /\ Dhcp.opt_ret r = Z.min (byte_at data (Dhcp.opt_pos r - 1)) max_len
         /\ Dhcp.opt_pos r + Dhcp.opt_ret r <= data_len
         /\ Dhcp.opt_value r
            = Dhcp.read_bytes data (Dhcp.opt_pos r) (Dhcp.opt_ret r)))
  /\ (pos + 2 <= data_len -> byte_at data pos = ty -> ty <> 255 ->
      let l := Z.min (byte_at data (pos + 1)) max_len in
      (pos + 2 + l <= data_len ->
       Dhcp.parse_dhcp_options data data_len pos ty max_len
       = Some (Dhcp.mk_opt_result l (pos + 2)
                 (Dhcp.read_bytes data (pos + 2) l)))
      /\ (pos + 2 + l > data_len ->
          Dhcp.parse_dhcp_options data data_len pos ty max_len
          = Some (Dhcp.mk_opt_result (-1) (pos + 2 + l) []))).
Proof.
  intros Hmax. split.
  - destruct (parse_dhcp_options_loop_total
                (S (Z.to_nat (data_len - pos))) data data_len pos ty max_len)
      as [r Hr]; [lia |].
    exists r. split; [exact Hr |].
    intros Hret. eapply parse_dhcp_options_loop_sound; eassumption.
  - intros Hroom Hty Hend l.
    pose proof (parse_dhcp_options_at_match data data_len pos ty max_len
                  Hmax Hroom Hty Hend) as Hm.
    cbv zeta in Hm. fold l in Hm.
    split; intros Hfit; rewrite Hm.
    + replace (pos + 2 + l <=? data_len) with true by (symmetry; lia).
      reflexivity.
    + replace (pos + 2 + l <=? data_len) with false by (symmetry; lia).
      reflexivity.
Qed.

Lemma parse_dhcp_options_needs_fit_witness :
  Dhcp.parse_dhcp_options Samples.dhcp_discover_cut 248 243 12 63
  = Some (Dhcp.mk_opt_result (-1) 255 [])
  /\ Dhcp.parse_dhcp_options Samples.dhcp_discover 253 243 12 63
     = Some (Dhcp.mk_opt_result 7 245 [108; 97; 112; 116; 111; 112; 49]).
Proof.
  assert (Hmax : 0 <= 63 < 256) by lia.
  split.
  - destruct (parse_dhcp_options_needs_fit Samples.dhcp_discover_cut
                248 243 12 63 Hmax) as [_ Hat].
    apply Hat; [simpl; lia | reflexivity | discriminate | reflexivity].
  - destruct (parse_dhcp_options_needs_fit Samples.dhcp_discover
                253 243 12 63 Hmax) as [_ Hat].
    apply Hat; [simpl; lia | reflexivity | discriminate | discriminate].
Defined.

(** C8 as stated fails: for a host-name option declaring 10 bytes with 3
    bytes left, the scan does not return the 3 bytes that fit; it returns -1
    and no value. *)
Lemma overlong_option_not_extracted :
  Z.of_nat (length Samples.dhcp_discover_cut) = 248
  /\ byte_at Samples.dhcp_discover_cut 243 = 12
  /\ byte_at Samples.dhcp_discover_cut 244 = 10
  /\ (Dhcp.opt_ret
        <$> Dhcp.parse_dhcp_options Samples.dhcp_discover_cut 248 243 12 63)
     = Some (-1)
  /\ (Dhcp.opt_value
        <$> Dhcp.parse_dhcp_options Samples.dhcp_discover_cut 248 243 12 63)
     = Some []
  /\ Dhcp.read_bytes Samples.dhcp_discover_cut 245 3 = [97; 98; 99].
Proof. repeat split; vm_compute; reflexivity. Qed.

(** ** The TLS socket filter *)




Lemma be16_at_range data i : 0 <= be16_at data i < 2 ^ 16.
Proof.
  unfold be16_at.
  pose proof (byte_at_range data i) as H0.
  pose proof (byte_at_range data (i + 1)) as H1.
  rewrite Z.shiftl_mul_pow2 by lia.
  rewrite <- Z.add_nocarry_lor.
  - change (2 ^ 8) with 256. change (2 ^ 16) with 65536. lia.
  - apply Z.bits_inj'. intros n Hn.
    rewrite Z.land_spec, Z.bits_0.
    destruct (Z.lt_ge_cases n 8) as [Hlt | Hge].
    + rewrite Z.mul_pow2_bits_low by lia. reflexivity.
    + rewrite andb_comm.
      replace (Z.testbit (byte_at data (i + 1)) n) with false; [reflexivity |].
      symmetry. apply Z.bits_above_log2; [lia |].
      destruct (Z.eq_dec (byte_at data (i + 1)) 0) as [-> | Hne];
        [simpl; lia |].
      apply Z.log2_lt_pow2; [lia |].
      apply Z.lt_le_trans with (2 ^ 8); [change (2 ^ 8) with 256; lia |].
      apply Z.pow_le_mono_r; lia.
Qed.

Lemma copy_sni_length n data data_len pos i (sni : list Z) :
  length (copy_sni n data data_len pos i sni) = length sni.
Proof.
  revert i sni. induction n as [| n IH]; intros i sni; simpl; [reflexivity |].
  destruct (pos + i <? data_len); [| reflexivity].
  rewrite IH. apply length_insert.
Qed.

Lemma parse_tls_extensions_length fuel data data_len ext_end pos sni_max
    (sni : list Z) :
  length (snd (parse_tls_extensions fuel data data_len ext_end pos sni_max sni))
  = length sni.
Proof.
  revert pos. induction fuel as [| fuel IH]; intros pos; simpl; [reflexivity |].
  repeat match goal with
         | |- context [if ?c then _ else _] =>
             destruct c; simpl; try reflexivity
         end;
    rewrite ?length_insert, ?copy_sni_length; try reflexivity; apply IH.
Qed.

Lemma parse_tls_sni_length data data_len (sni : list Z) sni_max :
  length (snd (parse_tls_sni data data_len sni sni_max)) = length sni.
Proof.
  unfold parse_tls_sni.
  repeat match goal with
         | |- context [if ?c then _ else _] =>
             destruct c; simpl; try reflexivity
         end.
  apply parse_tls_extensions_length.
Qed.




(** ** Event emission on a full ring buffer *)

Lemma stat_increment_same stats idx :
  (Z.to_nat idx < length stats)%nat ->
  stat_get (stat_increment stats idx) idx = u64 (stat_get stats idx + 1).
Proof.
  intros Hidx. unfold stat_get, stat_increment.
  destruct (lookup_lt_is_Some_2 stats (Z.to_nat idx) Hidx) as [c Hc].
  rewrite Hc. rewrite list_lookup_insert_eq by exact Hidx. reflexivity.
Qed.

Lemma stat_increment_other stats idx j :
  Z.to_nat j <> Z.to_nat idx ->
  stat_get (stat_increment stats idx) j = stat_get stats j.
Proof.
  intros Hne. unfold stat_get, stat_increment.
  destruct (stats !! Z.to_nat idx); [| reflexivity].
  rewrite list_lookup_insert_ne by congruence. reflexivity.
Qed.

Lemma dns_socket_filter_returns_0 ed k skb st :
  snd (Dns.dns_socket_filter ed k skb st) = 0.
Proof.
  unfold Dns.dns_socket_filter.
  repeat match goal with
         | |- context [if ?c then _ else _] =>
             destruct c; simpl; try reflexivity
         | |- context [let '(_, _) := ?p in _] => destruct p; simpl
         end.
Qed.

Lemma tls_socket_filter_returns_0 k skb st :
  snd (Tls.tls_socket_filter k skb st) = 0.
Proof.
  unfold Tls.tls_socket_filter.
  repeat match goal with
         | |- context [if ?c then _ else _] =>
             destruct c; simpl; try reflexivity
         | |- context [let '(_, _) := ?p in _] => destruct p; simpl
         end.
  reflexivity.
Qed.

Lemma track_flow_pass_or_drop k pkt st key :
  snd (Xdp.track_flow k pkt st key) = XDP_PASS
  \/ snd (Xdp.track_flow k pkt st key) = XDP_DROP.
Proof.
  unfold Xdp.track_flow.
  destruct (Xdp.get_or_create_flow k st key) as [st' [fs |]];
    cbv beta iota zeta; [| left; reflexivity].
  match goal with
  | |- context [if ?c then (_, XDP_DROP) else _] => destruct c
  end; cbn [snd]; [right | left]; reflexivity.
Qed.

Lemma xdp_verdict_pass_or_drop k pkt st :
  snd (Xdp.xdp_blocklist_prog k pkt st) = XDP_PASS
  \/ snd (Xdp.xdp_blocklist_prog k pkt st) = XDP_DROP.
Proof.
  unfold Xdp.xdp_blocklist_prog, Xdp.xdp_filter_stage.
  repeat match goal with
         | |- context [let '(_, _) := Xdp.rate_limit_check ?a ?b ?c in _] =>
             destruct (Xdp.rate_limit_check a b c) as [? ?];
             cbv beta iota zeta
         | |- context [if ?c then _ else _] =>
             destruct c; cbv beta iota zeta; cbn [snd];
             try (left; reflexivity); try (right; reflexivity)
         end;
    apply track_flow_pass_or_drop.
Qed.

(** C7, as the code has it.  When the reservation fails, [send_dns_event]
    and [send_tls_event] submit nothing and add exactly one to their
    program's [STAT_ERRORS] slot, leaving every other slot and map alone;
    [send_event] of the XDP program submits nothing and changes no counter
    at all.  None of the programs stops: the socket filters return 0 and the
    XDP program returns [XDP_PASS] or [XDP_DROP] on every input. *)
Theorem full_ring_drops_event
    (k : kernel) (ed : list Z -> Z -> Z -> Z -> Z * Z * list Z)
    (skb : sk_buff) (pkt : list Z)
    (dst : Dns.state) (dkey : Dns.dns_key)
    (q : option Dns.dns_query_info) (r : option Dns.dns_response_info)
    (is_response : Z)
    (tst : Tls.state) (tkey : Tls.tls_key) (info : Tls.tls_handshake_info)
    (xst : Xdp.state) (type src dst_ip sport dport protocol data_len : Z)
    (data : option (list Z)) :
  rb_room (Dns.dns_events dst) = 0%nat ->
  rb_room (Tls.tls_events tst) = 0%nat ->
  rb_room (Xdp.events xst) = 0%nat ->
  (Z.to_nat Dns.STAT_ERRORS < length (Dns.dns_stats dst))%nat ->
  (Z.to_nat Tls.STAT_ERRORS < length (Tls.tls_stats tst))%nat ->
  let dst' := Dns.send_dns_event k dst dkey q r is_response in
  let tst' := Tls.send_tls_event k skb tst tkey info in
  (Dns.dns_events dst' = Dns.dns_events dst
   /\ Dns.dns_queries dst' = Dns.dns_queries dst
   /\ Dns.dns_responses dst' = Dns.dns_responses dst
   /\ stat_get (Dns.dns_stats dst') Dns.STAT_ERRORS
      = u64 (stat_get (Dns.dns_stats dst) Dns.STAT_ERRORS + 1)
   /\ forall j, Z.to_nat j <> Z.to_nat Dns.STAT_ERRORS ->
        stat_get (Dns.dns_stats dst') j = stat_get (Dns.dns_stats dst) j)
  /\ (Tls.tls_events tst' = Tls.tls_events tst
      /\ Tls.tls_handshakes tst' = Tls.tls_handshakes tst
      /\ stat_get (Tls.tls_stats tst') Tls.STAT_ERRORS
         = u64 (stat_get (Tls.tls_stats tst) Tls.STAT_ERRORS + 1)
      /\ forall j, Z.to_nat j <> Z.to_nat Tls.STAT_ERRORS ->
           stat_get (Tls.tls_stats tst') j = stat_get (Tls.tls_stats tst) j)
  /\ Xdp.send_event k xst type src dst_ip sport dport protocol data data_len
     = xst
  /\ snd (Dns.dns_socket_filter ed k skb dst) = 0
  /\ snd (Tls.tls_socket_filter k skb tst) = 0
  /\ (snd (Xdp.xdp_blocklist_prog k pkt xst) = XDP_PASS
      \/ snd (Xdp.xdp_blocklist_prog k pkt xst) = XDP_DROP).
Proof.
  intros Hd Ht Hx Hdslot Htslot dst' tst'.
  assert (Hdns : dst' = Dns.increment_stat Dns.STAT_ERRORS dst).
  { subst dst'. unfold Dns.send_dns_event, bpf_ringbuf_reserve.
    rewrite Hd. reflexivity. }
  assert (Htls : tst' = Tls.increment_stat Tls.STAT_ERRORS tst).
  { subst tst'. unfold Tls.send_tls_event, bpf_ringbuf_reserve.
    rewrite Ht. reflexivity. }
  rewrite Hdns, Htls. unfold Dns.increment_stat, Tls.increment_stat.
  cbn [Dns.dns_events Dns.dns_queries Dns.dns_responses Dns.dns_stats
       Tls.tls_events Tls.tls_handshakes Tls.tls_stats].
  split; [| split; [| split; [| split; [| split]]]].
  - repeat split; try reflexivity.
    + by apply stat_increment_same.
    + intros j Hj. by apply stat_increment_other.
  - repeat split; try reflexivity.
    + by apply stat_increment_same.
    + intros j Hj. by apply stat_increment_other.
  - unfold Xdp.send_event, bpf_ringbuf_reserve. rewrite Hx. reflexivity.
  - apply dns_socket_filter_returns_0.
  - apply tls_socket_filter_returns_0.
  - apply xdp_verdict_pass_or_drop.
Qed.

Lemma full_ring_drops_event_witness :
  let k := mk_kernel 9000 0 in
  let dst := Samples.dns_empty 0 in
  let key := Dns.mk_dns_key 1 2 3 4 5 0 in
  let dst' := Dns.send_dns_event k dst key None None 0 in
  Dns.dns_events dst' = Dns.dns_events dst
  /\ stat_get (Dns.dns_stats dst') Dns.STAT_ERRORS = 1
  /\ Xdp.send_event k (Samples.xdp_empty 0) 1 1 2 0 0 1 None 0
     = Samples.xdp_empty 0.
Proof.
  intros k dst key dst'.
  destruct (full_ring_drops_event k Dns.extract_domain_by_parse_dns_name
              (Samples.skb_of Samples.dns_query_packet) Samples.icmp_packet
              dst key None None 0
              (Samples.tls_empty 0) (Tls.mk_tls_key 1 2 3 4)
              (Tls.mk_info 0 0 [] [] 0)
              (Samples.xdp_empty 0) 1 1 2 0 0 1 0 None)
    as ((He & _ & _ & Hc & _) & _ & Hx & _);
    [reflexivity | reflexivity | reflexivity
    | vm_compute; lia | vm_compute; lia |].
  split; [exact He |]. split; [exact Hc | exact Hx].
Defined.

(** C7 as stated fails for the XDP program: a packet from a block-listed
    source raises an alert event; with a full ring the event is lost and the
    statistics come out exactly as in the run where it was delivered, so no
    counter records the loss. *)
Lemma xdp_lost_event_not_counted :
  let k := mk_kernel 9000 0 in
  let st room :=
    Xdp.set_ip_blocklist {[Samples.host32 Samples.client := 1]}
      (Samples.xdp_empty room) in
  let full := Xdp.xdp_blocklist_prog k Samples.icmp_packet (st 0%nat) in
  let roomy := Xdp.xdp_blocklist_prog k Samples.icmp_packet (st 8%nat) in
  length (rb_records (Xdp.events (fst roomy))) = 1%nat
  /\ rb_records (Xdp.events (fst full)) = []
  /\ Xdp.stats (fst full) = Xdp.stats (fst roomy)
  /\ Xdp.stats (fst full) = Xdp.mk_statistics 1 1 0 28 0 0 0 0 0
  /\ snd full = XDP_DROP.
Proof. repeat split; vm_compute; reflexivity. Qed.

(** ** DNS name decompression *)

Lemma parse_dns_name_loop_total fuel data data_len name_max s :
  0 <= pn_jumps s <= 6 ->
  0 <= pn_pos s ->
  Z.of_nat fuel
  > (6 - pn_jumps s) * (Z.max 0 data_len + 1)
    + Z.max 0 (Z.max 0 data_len - pn_pos s) ->
  exists r, parse_dns_name_loop fuel data data_len name_max s = Some r.
Proof.
  revert s. induction fuel as [| fuel IH]; intros s Hj Hpos Hfuel.
  - exfalso. nia.
  - cbn [parse_dns_name_loop].
    destruct ((pn_pos s <? data_len) && (name_len s <? name_max - 1))
      eqn:Hguard; [| eauto].
    apply andb_prop in Hguard as [Hlt _]. apply Z.ltb_lt in Hlt.
    unfold parse_dns_name_body.
    pose proof (byte_at_range data (pn_pos s)) as Hlen.
    destruct (byte_at data (pn_pos s) =? 0) eqn:Hzero; [eauto |].
    apply Z.eqb_neq in Hzero.
    destruct (Z.land (byte_at data (pn_pos s)) 192 =? 192).
    + destruct (pn_pos s + 1 >=? data_len); [eauto |].
      destruct (pn_jumps s >? 5) eqn:Hcap; [eauto |].
      apply IH; cbn [pn_jumps pn_pos].
      * lia.
      * unfold u16. apply Z.mod_pos_bound. lia.
      * assert (0 <= u16 (Z.lor (Z.shiftl
                   (Z.land (byte_at data (pn_pos s)) 63) 8)
                   (byte_at data (pn_pos s + 1))))
          by (unfold u16; apply Z.mod_pos_bound; lia).
        nia.
    + destruct (pn_pos s + 1 + byte_at data (pn_pos s) >? data_len) eqn:Hfit;
        [eauto |].
      apply IH; cbn [pn_jumps pn_pos]; [lia | lia | nia].
Qed.

Lemma parse_dns_name_terminates data data_len pos name_max :
  0 <= pos ->
  exists r, parse_dns_name data data_len pos name_max = Some r.
Proof.
  intros Hpos. unfold parse_dns_name, parse_dns_name_fuel.
  apply parse_dns_name_loop_total; cbn [pn_jumps pn_pos]; lia.
Qed.

(** The counter [jumps] never passes 7, and a call that returns a name has
    followed at most six pointers. *)
Lemma parse_dns_name_loop_jumps fuel data data_len name_max s r :
  pn_jumps s <= 6 ->
  parse_dns_name_loop fuel data data_len name_max s = Some r ->
  pn_jumps (pn_final r) <= 7
  /\ (0 <= pn_ret r -> pn_jumps (pn_final r) <= 6).
Proof.
  revert s. induction fuel as [| fuel IH]; intros s Hj Hrun; [discriminate |].
  cbn [parse_dns_name_loop] in Hrun.
  destruct ((pn_pos s <? data_len) && (name_len s <? name_max - 1));
    [| injection Hrun as <-; cbn; lia].
  unfold parse_dns_name_body in Hrun.
  destruct (byte_at data (pn_pos s) =? 0);
    [injection Hrun as <-; cbn; lia |].
  destruct (Z.land (byte_at data (pn_pos s)) 192 =? 192).
  - destruct (pn_pos s + 1 >=? data_len);
      [injection Hrun as <-; cbn; lia |].
    destruct (pn_jumps s >? 5) eqn:Hcap;
      [injection Hrun as <-; cbn; lia |].
    eapply IH; [| exact Hrun]. cbn. lia.
  - destruct (pn_pos s + 1 + byte_at data (pn_pos s) >? data_len);
      [injection Hrun as <-; cbn; lia |].
    eapply IH; [| exact Hrun]. cbn. lia.
Qed.

(** C4.  On a message whose name needs six compression-pointer jumps,
    [parse_dns_name] follows all six and returns the name "a" with a
    positive length: the test [jumps++ > 5] lets a sixth jump through, and
    only a seventh makes the call fail.  A pointer whose target lies outside
    the buffer does not make the call fail either: it ends the loop and the
    call returns 0. *)
Theorem parse_dns_name_follows_six_jumps :
  (exists r,
     parse_dns_name Samples.dns_six_pointers 27 25 253 = Some r
     /\ pn_ret r = 1
     /\ pn_name_out r = [97]
     /\ pn_pos_out r = 27
     /\ pn_jumps (pn_final r) = 6)
  /\ (pn_ret <$> parse_dns_name Samples.dns_seven_pointers 29 27 253)
     = Some (-1)
  /\ (pn_ret <$> parse_dns_name Samples.dns_pointer_outside 14 12 253)
     = Some 0.
Proof.
  split; [eexists; split; [vm_compute; reflexivity | repeat split] |].
  split; vm_compute; reflexivity.
Qed.

(** ** The DNS socket filter *)

(** In the response branch the filter removes the entry stored under the
    packet's own addresses and ports, in the packet's own direction. *)
Lemma dns_response_deletes_own_key ed k skb st :
  let pkt := skb_data skb in
  let udp := ip_off + sizeof_iphdr in
  let dns_len := bpf_ntohs (udp_len pkt udp) - sizeof_udphdr in
  let dns := drop (Z.to_nat (udp + sizeof_udphdr)) pkt in
  let key :=
    Dns.mk_dns_key (ip_saddr pkt) (ip_daddr pkt) (l4_source pkt udp)
      (l4_dest pkt udp) (be16_at dns 0) 0 in
  sizeof_ethhdr + sizeof_iphdr + sizeof_udphdr <= data_end pkt ->
  eth_h_proto pkt = bpf_htons ETH_P_IP ->
  ip_protocol pkt = IPPROTO_UDP ->
  l4_source pkt udp = bpf_htons Dns.DNS_PORT ->
  udp + sizeof_udphdr + dns_len <= data_end pkt ->
  12 <= dns_len ->
  0 <= fst (fst (ed dns dns_len 12 Dns.MAX_DOMAIN_LEN)) ->
  Z.land (be16_at dns 2) 0x8000 <> 0 ->
  be16_at dns 6 > 0 ->
  Dns.dns_queries (fst (Dns.dns_socket_filter ed k skb st))
  = delete key (Dns.dns_queries st).
Proof.
  intros pkt udp dns_len dns key Hlen Heth Hproto Hport Hfit Hmin Hdom Hqr
    Hans.
  unfold Dns.dns_socket_filter.
  fold pkt. fold udp. fold dns_len. fold dns.
  replace (sizeof_ethhdr + sizeof_iphdr + sizeof_udphdr >? data_end pkt)
    with false by (symmetry; lia).
  assert (Hp : (l4_source pkt udp =? bpf_htons Dns.DNS_PORT) = true)
    by (apply Z.eqb_eq; exact Hport).
  rewrite Heth, Hproto, Hp, !Z.eqb_refl.
  cbn [negb orb]. rewrite andb_false_r.
  replace ((udp + sizeof_udphdr + dns_len >? data_end pkt) || (dns_len <? 12))
    with false
    by (symmetry; apply orb_false_intro; lia).
  destruct (ed dns dns_len 12 Dns.MAX_DOMAIN_LEN) as [[domain_len pos] domain].
  cbn [fst] in Hdom.
  replace (domain_len <? 0) with false by (symmetry; lia).
  apply Z.eqb_neq in Hqr. rewrite Hqr. cbn [negb andb].
  replace (be16_at dns 6 >? 0) with true by (symmetry; lia).
  unfold bpf_map_update_elem, bpf_map_delete_elem.
  cbn [Z.eqb BPF_ANY BPF_NOEXIST BPF_EXIST].
  unfold Dns.send_dns_event.
  destruct (bpf_ringbuf_reserve _); reflexivity.
Qed.

(** C1.  A query from [client] is stored at time 1000; the response to it,
    processed at time 1500, is reported with [response_time_ns = 500].  The
    stored query is still in [dns_queries] afterwards, because the delete is
    keyed by the response's own tuple and not by the reversed one the lookup
    used; the same response processed again at time 1600 finds the query
    again and is reported with [response_time_ns = 600]. *)
Theorem dns_response_leaves_query_stored :
  let ed := Dns.extract_domain_by_parse_dns_name in
  let run t pkt st :=
    fst (Dns.dns_socket_filter ed (mk_kernel t 0) (Samples.skb_of pkt) st) in
  let st1 := run 1000 Samples.dns_query_packet (Samples.dns_empty 8) in
  let st2 := run 1500 Samples.dns_response_packet st1 in
  let st3 := run 1600 Samples.dns_response_packet st2 in
  let query_key :=
    Dns.mk_dns_key (Samples.host32 Samples.client)
      (Samples.host32 Samples.server) (Samples.host16 5353)
      (Samples.host16 53) 0x1234 0 in
  (Dns.q_timestamp <$> Dns.dns_queries st1 !! query_key) = Some 1000
  /\ (Dns.e_response_time_ns <$> last (rb_records (Dns.dns_events st2)))
     = Some (Some 500)
  /\ (Dns.q_timestamp <$> Dns.dns_queries st2 !! query_key) = Some 1000
  /\ Dns.dns_queries st2 = Dns.dns_queries st1
  /\ (Dns.e_response_time_ns <$> last (rb_records (Dns.dns_events st3)))
     = Some (Some 600)
  /\ (Dns.q_domain <$> Dns.dns_queries st1 !! query_key)
     = Some [101; 120; 97; 109; 112; 108; 101; 46; 99; 111; 109].
Proof. repeat split; vm_compute; reflexivity. Qed.

(** ** Loop bounds of the remaining dissectors *)

(** The extension walk of [parse_tls_sni] advances by at least four bytes
    per trip and stops at [data_len]: any fuel above [data_len - pos] gives
    the same result, so the walk never ends for lack of fuel. *)
Lemma parse_tls_extensions_fuel f1 f2 data data_len ext_end pos sni_max sni :
  data_len - pos < Z.of_nat f1 ->
  data_len - pos < Z.of_nat f2 ->
  parse_tls_extensions f1 data data_len ext_end pos sni_max sni
  = parse_tls_extensions f2 data data_len ext_end pos sni_max sni.
Proof.
  revert f2 pos. induction f1 as [| f1 IH]; intros f2 pos H1 H2.
  - destruct f2 as [| f2]; [reflexivity |].
    cbn [parse_tls_extensions].
    replace (pos <? data_len) with false by (symmetry; lia).
    rewrite andb_false_r. reflexivity.
  - destruct f2 as [| f2].
    + cbn [parse_tls_extensions].
      replace (pos <? data_len) with false by (symmetry; lia).
      rewrite andb_false_r. reflexivity.
    + cbn [parse_tls_extensions].
      destruct ((pos + 4 <=? ext_end) && (pos <? data_len)) eqn:Hguard;
        [| reflexivity].
      apply andb_prop in Hguard as [_ Hlt]. apply Z.ltb_lt in Hlt.
      destruct (pos + 4 + be16_at data (pos + 2) >? data_len); [reflexivity |].
      destruct (be16_at data pos =? 0); [reflexivity |].
      pose proof (be16_at_range data (pos + 2)).
      apply IH; lia.
Qed.

Lemma parse_tls_sni_fuel_enough extra data data_len ext_end pos sni_max sni :
  0 < pos ->
  parse_tls_extensions (Z.to_nat data_len + extra) data data_len ext_end pos
    sni_max sni
  = parse_tls_extensions (Z.to_nat data_len) data data_len ext_end pos
      sni_max sni.
Proof. intros Hpos. apply parse_tls_extensions_fuel; lia. Qed.

(** The query-name loop of [xdp_blocklist_prog] advances by at least two
    bytes per trip and stops at offset 63: any fuel above [63 - pos] gives
    the same result, and the program runs it from offset 12 with fuel 64. *)
Lemma extract_query_name_fuel f1 f2 pkt dns_data pos domain :
  63 - pos < Z.of_nat f1 ->
  63 - pos < Z.of_nat f2 ->
  Xdp.extract_query_name f1 pkt dns_data pos domain
  = Xdp.extract_query_name f2 pkt dns_data pos domain.
Proof.
  revert f2 pos domain.
  induction f1 as [| f1 IH]; intros f2 pos domain H1 H2.
  - destruct f2 as [| f2]; [reflexivity |].
    cbn [Xdp.extract_query_name].
    replace (pos <? 63) with false by (symmetry; lia). reflexivity.
  - destruct f2 as [| f2].
    + cbn [Xdp.extract_query_name].
      replace (pos <? 63) with false by (symmetry; lia). reflexivity.
    + cbn [Xdp.extract_query_name].
      destruct ((pos <? 63) && (dns_data + pos <? data_end pkt)) eqn:Hguard;
        [| reflexivity].
      apply andb_prop in Hguard as [Hlt _]. apply Z.ltb_lt in Hlt.
      pose proof (byte_at_range pkt (dns_data + pos)).
      destruct (byte_at pkt (dns_data + pos) =? 0) eqn:Hzero; [reflexivity |].
      apply Z.eqb_neq in Hzero.
      match goal with |- context [if ?c then domain else _] => destruct c end;
        [reflexivity |].
      apply IH; lia.
Qed.

(** * Further properties of the programs *)

(** ** Side conditions on given inputs *)

Lemma bytes_at_b_spec data p l : bytes_at_b data p l = true -> bytes_at data p l.
Proof.
  revert p. induction l as [| x l IH]; intros p Hb i y Hy.
  - destruct i; discriminate.
  - cbn [bytes_at_b] in Hb. apply andb_prop in Hb as [Hx Hl].
    apply Z.eqb_eq in Hx. destruct i as [| i]; cbn in Hy.
    + injection Hy as <-. rewrite Z.add_0_r. exact Hx.
    + specialize (IH (p + 1) Hl i y Hy). rewrite <- IH. f_equal. lia.
Qed.

(** Checks of closed side conditions. *)
Ltac check_bytes := apply bytes_at_b_spec; vm_compute; reflexivity.

Ltac check_range :=
  repeat (apply List.Forall_cons; [lia |]); apply List.Forall_nil.

Ltac check_plain_labels :=
  repeat (apply List.Forall_cons; [split; [cbn [length]; lia | check_range] |]);
  apply List.Forall_nil.

Ltac check_closed :=
  first [ reflexivity | lia | discriminate
        | vm_compute; first [ reflexivity | lia | discriminate ] ].

Ltac check_dns_accepted :=
  split; [vm_compute; discriminate |];
  split; [vm_compute; reflexivity |];
  split; [vm_compute; reflexivity |];
  split; [first [left; vm_compute; reflexivity
                | right; vm_compute; reflexivity] |];
  split; vm_compute; discriminate.

Ltac check_tls_accepted :=
  split; [vm_compute; discriminate |];
  split; [vm_compute; reflexivity |];
  split; [vm_compute; reflexivity |];
  split; [vm_compute; discriminate |];
  split; vm_compute; reflexivity.

(** ** Length bytes of DNS labels *)

Lemma length_byte_ok_all : forallb length_byte_ok (seqZ 1 191) = true.
Proof. vm_compute. reflexivity. Qed.

Lemma length_byte_facts n :
  0 < n < 0xc0 -> (n =? 0) = false /\ (Z.land n 0xc0 =? 0xc0) = false.
Proof.
  intros Hn. pose proof length_byte_ok_all as Hall.
  rewrite forallb_forall in Hall.
  specialize (Hall n). unfold length_byte_ok in Hall.
  assert (Hin : In n (seqZ 1 191)) by (apply list_elem_of_In, elem_of_seqZ; lia).
  apply Hall in Hin. apply andb_prop in Hin as [H0 H1].
  split; [by apply negb_true_iff in H0 | by apply negb_true_iff in H1].
Qed.

(** ** [parse_dns_name]: what it recovers from a message *)

Lemma bytes_at_cons data p x l :
  bytes_at data p (x :: l) -> byte_at data p = x /\ bytes_at data (p + 1) l.
Proof.
  intros Hb. split.
  - specialize (Hb 0%nat x eq_refl). by rewrite Z.add_0_r in Hb.
  - intros i y Hy. specialize (Hb (S i) y Hy).
    rewrite <- Hb. f_equal. lia.
Qed.

Lemma bytes_at_app data p l1 l2 :
  bytes_at data p (l1 ++ l2) ->
  bytes_at data p l1 /\ bytes_at data (p + Z.of_nat (length l1)) l2.
Proof.
  intros Hb. split.
  - intros i x Hx. apply Hb. by apply lookup_app_l_Some.
  - intros i x Hx. specialize (Hb (length l1 + i)%nat x).
    rewrite lookup_app_r in Hb by lia.
    replace (length l1 + i - length l1)%nat with i in Hb by lia.
    rewrite <- (Hb Hx). f_equal. lia.
Qed.

Lemma bytes_at_of_app pre l post :
  Forall (fun c => 0 <= c < 256) l ->
  bytes_at (pre ++ l ++ post) (Z.of_nat (length pre)) l.
Proof.
  intros Hrange i x Hx.
  unfold byte_at.
  replace (Z.to_nat (Z.of_nat (length pre) + Z.of_nat i))
    with (length pre + i)%nat by lia.
  rewrite lookup_app_r by lia.
  replace (length pre + i - length pre)%nat with i by lia.
  rewrite (lookup_app_l_Some _ _ _ _ Hx). simpl.
  rewrite Forall_lookup in Hrange. specialize (Hrange i x Hx).
  unfold u8. apply Z.mod_small. lia.
Qed.

Lemma printable_id c : 32 <= c <= 126 -> printable c = c.
Proof.
  intros Hc. unfold printable.
  replace (32 <=? c) with true by (symmetry; lia).
  replace (c <=? 126) with true by (symmetry; lia). reflexivity.
Qed.

Lemma copy_label_plain l data pos i name name_max :
  bytes_at data (pos + i) l ->
  Forall (fun c => 32 <= c <= 126) l ->
  Z.of_nat (length name) + Z.of_nat (length l) <= name_max - 1 ->
  copy_label (length l) data pos i name name_max = name ++ l.
Proof.
  revert i name. induction l as [| c l IH]; intros i name Hb Hp Hlen.
  - simpl. by rewrite app_nil_r.
  - simpl in Hlen. cbn [length copy_label].
    replace (Z.of_nat (length name) <? name_max - 1) with true
      by (symmetry; lia).
    apply bytes_at_cons in Hb as [Hc Hb].
    apply Forall_cons in Hp as [Hc' Hp'].
    rewrite Hc, (printable_id _ Hc').
    rewrite IH.
    + by rewrite <- app_assoc.
    + replace (pos + (i + 1)) with (pos + i + 1) by lia. exact Hb.
    + exact Hp'.
    + rewrite length_app. simpl. lia.
Qed.

Lemma append_labels_cons acc l labels :
  append_labels acc (l :: labels)
  = append_labels (match acc with [] => l | _ => acc ++ 46 :: l end) labels.
Proof. reflexivity. Qed.

Lemma append_labels_length_mono acc labels :
  (length acc <= length (append_labels acc labels))%nat.
Proof.
  revert acc. induction labels as [| l labels IH]; intros acc; [simpl; lia |].
  rewrite append_labels_cons.
  etransitivity; [| apply IH].
  destruct acc; simpl; [lia |]. rewrite length_app. simpl. lia.
Qed.

(** One trip through the loop body at a plain label. *)
Lemma parse_dns_name_body_label data data_len name_max s l :
  plain_label l ->
  bytes_at data (pn_pos s) (encode_label l) ->
  pn_pos s + 1 + Z.of_nat (length l) <= data_len ->
  Z.of_nat (length (append_labels (pn_name s) [l])) <= name_max - 1 ->
  parse_dns_name_body data data_len name_max s
  = PnContinue
      (mk_pn (pn_pos s + 1 + Z.of_nat (length l))
         (append_labels (pn_name s) [l]) (pn_original_pos s) (pn_jumped s)
         (pn_jumps s)).
Proof.
  intros [Hlen Hp] Hb Hfit Hroom.
  apply bytes_at_cons in Hb as [Hl Hb].
  unfold parse_dns_name_body. rewrite Hl.
  destruct (length_byte_facts (Z.of_nat (length l)) ltac:(lia)) as [H0 H1].
  rewrite H0, H1.
  replace (pn_pos s + 1 + Z.of_nat (length l) >? data_len) with false
    by (symmetry; lia).
  rewrite Nat2Z.id.
  f_equal. f_equal.
  unfold name_len. simpl in Hroom |- *.
  destruct (pn_name s) as [| c name] eqn:Hname; rewrite ?Hname in Hroom;
    simpl in Hroom.
  - simpl. rewrite copy_label_plain; [reflexivity | | exact Hp | cbn [length]; lia].
    by rewrite Z.add_0_r.
  - replace (Z.of_nat (length (c :: name)) >? 0) with true
      by (symmetry; apply Z.gtb_lt; cbn [length]; lia).
    rewrite copy_label_plain; [by rewrite <- app_assoc | | exact Hp |].
    + by rewrite Z.add_0_r.
    + rewrite length_app in Hroom |- *. cbn [length] in Hroom |- *. lia.
Qed.

Lemma encode_labels_cons l labels :
  encode_labels (l :: labels) = encode_label l ++ encode_labels labels.
Proof. reflexivity. Qed.

Lemma encode_labels_length labels :
  Forall plain_label labels ->
  (2 * length labels <= length (encode_labels labels))%nat.
Proof.
  induction 1 as [| l labels [Hl _] _ IH]; [simpl; lia |].
  rewrite encode_labels_cons, length_app. simpl. lia.
Qed.

(** A run of plain labels: the loop consumes them one per trip. *)
Lemma parse_dns_name_loop_labels labels fuel data data_len name_max s :
  Forall plain_label labels ->
  bytes_at data (pn_pos s) (encode_labels labels) ->
  pn_pos s + Z.of_nat (length (encode_labels labels)) < data_len ->
  Z.of_nat (length (append_labels (pn_name s) labels)) < name_max - 1 ->
  parse_dns_name_loop (length labels + fuel) data data_len name_max s
  = parse_dns_name_loop fuel data data_len name_max
      (mk_pn (pn_pos s + Z.of_nat (length (encode_labels labels)))
         (append_labels (pn_name s) labels) (pn_original_pos s) (pn_jumped s)
         (pn_jumps s)).
Proof.
  intros Hplain. revert s.
  induction Hplain as [| l labels Hl Hplain IH]; intros s Hb Hfit Hroom.
  - simpl. rewrite Z.add_0_r. by destruct s.
  - rewrite encode_labels_cons in Hb, Hfit |- *.
    apply bytes_at_app in Hb as [Hb1 Hb2].
    rewrite length_app in Hfit |- *.
    assert (Hel : length (encode_label l) = S (length l)) by reflexivity.
    rewrite Hel in *.
    rewrite append_labels_cons in Hroom.
    pose proof (append_labels_length_mono
                  (match pn_name s with [] => l | _ => pn_name s ++ 46 :: l end)
                  labels) as Hmono.
    assert (Hone : append_labels (pn_name s) [l]
                   = match pn_name s with [] => l | _ => pn_name s ++ 46 :: l end)
      by reflexivity.
    cbn [length Nat.add parse_dns_name_loop].
    assert (Hname : (length (pn_name s)
                     <= length (append_labels (pn_name s) [l]))%nat)
      by apply append_labels_length_mono.
    replace (pn_pos s <? data_len) with true by (symmetry; lia).
    replace (name_len s <? name_max - 1) with true
      by (symmetry; unfold name_len; rewrite Hone in Hname; lia).
    cbn [andb].
    rewrite (parse_dns_name_body_label _ _ _ _ l Hl Hb1);
      [| lia | rewrite Hone; lia].
    rewrite IH; cbn [pn_pos pn_name pn_original_pos pn_jumped pn_jumps].
    + rewrite Hone, (append_labels_cons (pn_name s) l labels).
      do 2 f_equal. lia.
    + replace (pn_pos s + 1 + Z.of_nat (length l))
        with (pn_pos s + Z.of_nat (S (length l))) by lia. exact Hb2.
    + lia.
    + rewrite Hone. exact Hroom.
Qed.

Lemma parse_dns_name_loop_root fuel data data_len name_max s :
  byte_at data (pn_pos s) = 0 ->
  pn_pos s < data_len ->
  name_len s < name_max - 1 ->
  parse_dns_name_loop (S fuel) data data_len name_max s
  = Some (mk_pn_result (name_len s)
            (if pn_jumped s then pn_original_pos s else pn_pos s + 1)
            (pn_name s)
            (mk_pn (pn_pos s + 1) (pn_name s) (pn_original_pos s)
               (pn_jumped s) (pn_jumps s))).
Proof.
  intros Hzero Hpos Hroom. cbn [parse_dns_name_loop].
  replace (pn_pos s <? data_len) with true by (symmetry; lia).
  replace (name_len s <? name_max - 1) with true by (symmetry; lia).
  cbn [andb]. unfold parse_dns_name_body. rewrite Hzero. reflexivity.
Qed.

Lemma encode_name_length labels :
  length (encode_name labels) = S (length (encode_labels labels)).
Proof. unfold encode_name. rewrite length_app. simpl. lia. Qed.

(** X1.  Round trip for an uncompressed name. *)
Theorem parse_dns_name_plain_name (data : list Z) (data_len pos name_max : Z)
    (labels : list (list Z)) :
  0 <= pos ->
  Forall plain_label labels ->
  bytes_at data pos (encode_name labels) ->
  pos + Z.of_nat (length (encode_name labels)) <= data_len ->
  Z.of_nat (length (dotted_name labels)) < name_max - 1 ->
  exists r,
    parse_dns_name data data_len pos name_max = Some r
    /\ pn_ret r = Z.of_nat (length (dotted_name labels))
    /\ pn_name_out r = dotted_name labels
    /\ pn_pos_out r = pos + Z.of_nat (length (encode_name labels)).
Proof.
  intros Hpos Hplain Hb Hfit Hroom.
  rewrite encode_name_length in Hfit |- *.
  unfold encode_name in Hb. apply bytes_at_app in Hb as [Hb Hroot].
  apply bytes_at_cons in Hroot as [Hroot _].
  pose proof (encode_labels_length labels Hplain) as Hn.
  unfold parse_dns_name.
  assert (Hfuel : exists f,
             parse_dns_name_fuel data_len = (length labels + S f)%nat).
  { exists (parse_dns_name_fuel data_len - length labels - 1)%nat.
    unfold parse_dns_name_fuel. lia. }
  destruct Hfuel as [f ->].
  rewrite parse_dns_name_loop_labels; cbn [pn_pos pn_name]; try assumption;
    [| lia].
  rewrite parse_dns_name_loop_root;
    cbn [pn_pos pn_name pn_jumped pn_original_pos];
    [| exact Hroot | lia | unfold name_len; cbn [pn_name]; exact Hroom].
  eexists. split; [reflexivity |].
  cbn [pn_ret pn_name_out pn_pos_out]. unfold name_len. cbn [pn_name].
  repeat split. lia.
Qed.

Lemma parse_dns_name_plain_name_witness :
  exists r,
    parse_dns_name (replicate 12 0 ++ Samples.example_com_question) 29 12 253
    = Some r
    /\ pn_ret r = 11
    /\ pn_name_out r = [101; 120; 97; 109; 112; 108; 101; 46; 99; 111; 109]
    /\ pn_pos_out r = 25.
Proof.
  apply (parse_dns_name_plain_name
           (replicate 12 0 ++ Samples.example_com_question) 29 12 253
           Examples.example_com_labels);
    [lia | check_plain_labels | check_bytes | check_closed | check_closed].
Defined.

Lemma lor_shiftl_8 a b :
  0 <= a -> 0 <= b < 256 -> Z.lor (Z.shiftl a 8) b = a * 256 + b.
Proof.
  intros Ha Hb.
  rewrite Z.shiftl_mul_pow2 by lia. change (2 ^ 8) with 256.
  rewrite <- Z.lxor_lor, <- Z.add_nocarry_lxor; [reflexivity | |].
  all: apply Z.bits_inj'; intros n Hn;
    rewrite Z.land_spec, Z.bits_0;
    change 256 with (2 ^ 8); rewrite Z.mul_pow2_bits by lia;
    destruct (Z.ltb_spec n 8) as [Hlt | Hge];
    [ rewrite (Z.testbit_neg_r a) by lia; reflexivity
    | destruct (Z.eq_dec b 0) as [-> | Hb0];
      [ rewrite Z.bits_0; apply andb_false_r
      | rewrite (Z.bits_above_log2 b n);
        [ apply andb_false_r | lia
        | apply Z.log2_lt_pow2; [lia |];
          apply Z.lt_le_trans with (2 ^ 8); [simpl; lia |];
          apply Z.pow_le_mono_r; lia ] ] ].
Qed.

Lemma pointer_byte_ok_all : forallb pointer_byte_ok (seqZ 0 64) = true.
Proof. vm_compute. reflexivity. Qed.

Lemma pointer_bytes_facts offset :
  0 <= offset < 16384 ->
  let b0 := 0xc0 + offset / 256 in
  let b1 := offset mod 256 in
  (b0 =? 0) = false
  /\ (Z.land b0 0xc0 =? 0xc0) = true
  /\ u16 (Z.lor (Z.shiftl (Z.land b0 0x3f) 8) b1) = offset.
Proof.
  intros Ho b0 b1. subst b0 b1.
  assert (Hq : 0 <= offset / 256 < 64).
  { split; [apply Z.div_pos; lia | apply Z.div_lt_upper_bound; lia]. }
  pose proof (Z.mod_pos_bound offset 256 ltac:(lia)) as Hr.
  pose proof (Z.div_mod offset 256 ltac:(lia)) as Hdm.
  pose proof pointer_byte_ok_all as Hall.
  rewrite forallb_forall in Hall. specialize (Hall (offset / 256)).
  assert (Hin : In (offset / 256) (seqZ 0 64))
    by (apply list_elem_of_In, elem_of_seqZ; lia).
  apply Hall in Hin. unfold pointer_byte_ok in Hin.
  apply andb_prop in Hin as [H1 H2]. apply Z.eqb_eq in H2.
  split; [apply Z.eqb_neq; lia |].
  split; [exact H1 |].
  rewrite H2, lor_shiftl_8 by lia.
  unfold u16. rewrite Z.mod_small; lia.
Qed.

Lemma parse_dns_name_loop_pointer fuel data data_len name_max s offset :
  0 <= offset < 16384 ->
  bytes_at data (pn_pos s) (encode_pointer offset) ->
  pn_pos s + 1 < data_len ->
  name_len s < name_max - 1 ->
  pn_jumps s <= 5 ->
  parse_dns_name_loop (S fuel) data data_len name_max s
  = parse_dns_name_loop fuel data data_len name_max
      (mk_pn offset (pn_name s)
         (if pn_jumped s then pn_original_pos s else pn_pos s + 2) true
         (pn_jumps s + 1)).
Proof.
  intros Ho Hb Hpos Hroom Hj.
  apply bytes_at_cons in Hb as [Hb0 Hb1].
  apply bytes_at_cons in Hb1 as [Hb1 _].
  destruct (pointer_bytes_facts offset Ho) as (H0 & H1 & H2).
  cbn [parse_dns_name_loop].
  replace (pn_pos s <? data_len) with true by (symmetry; lia).
  replace (name_len s <? name_max - 1) with true by (symmetry; lia).
  cbn [andb]. unfold parse_dns_name_body.
  rewrite Hb0, Hb1, H0, H1, H2.
  replace (pn_pos s + 1 >=? data_len) with false by (symmetry; lia).
  replace (pn_jumps s >? 5) with false by (symmetry; lia).
  replace (pn_pos s + 1 + 1) with (pn_pos s + 2) by lia.
  reflexivity.
Qed.

Lemma append_labels_app acc l1 l2 :
  append_labels acc (l1 ++ l2) = append_labels (append_labels acc l1) l2.
Proof. unfold append_labels. apply fold_left_app. Qed.

(** X2.  Decompression through one pointer: labels, then a pointer to a name
    stored elsewhere in the message. *)
Theorem parse_dns_name_one_pointer (data : list Z)
    (data_len pos name_max offset : Z) (labels1 labels2 : list (list Z)) :
  0 <= pos ->
  0 <= offset < 16384 ->
  Forall plain_label labels1 ->
  Forall plain_label labels2 ->
  bytes_at data pos (encode_labels labels1 ++ encode_pointer offset) ->
  bytes_at data offset (encode_name labels2) ->
  pos + Z.of_nat (length (encode_labels labels1)) + 2 <= data_len ->
  offset + Z.of_nat (length (encode_name labels2)) <= data_len ->
  Z.of_nat (length (dotted_name (labels1 ++ labels2))) < name_max - 1 ->
  exists r,
    parse_dns_name data data_len pos name_max = Some r
    /\ pn_ret r = Z.of_nat (length (dotted_name (labels1 ++ labels2)))
    /\ pn_name_out r = dotted_name (labels1 ++ labels2)
    /\ pn_pos_out r = pos + Z.of_nat (length (encode_labels labels1)) + 2
    /\ pn_jumps (pn_final r) = 1.
Proof.
  intros Hpos Ho Hp1 Hp2 Hb1 Hb2 Hfit1 Hfit2 Hroom.
  apply bytes_at_app in Hb1 as [Hb1 Hptr].
  rewrite encode_name_length in Hfit2.
  unfold encode_name in Hb2. apply bytes_at_app in Hb2 as [Hb2 Hroot].
  apply bytes_at_cons in Hroot as [Hroot _].
  pose proof (encode_labels_length labels1 Hp1) as Hn1.
  pose proof (encode_labels_length labels2 Hp2) as Hn2.
  unfold dotted_name in *. rewrite append_labels_app in *.
  pose proof (append_labels_length_mono (append_labels [] labels1) labels2)
    as Hmono.
  unfold parse_dns_name.
  assert (Hfuel : exists f,
             parse_dns_name_fuel data_len
             = (length labels1 + S (length labels2 + S f))%nat).
  { exists (parse_dns_name_fuel data_len - length labels1 - length labels2 - 2)%nat.
    unfold parse_dns_name_fuel. lia. }
  destruct Hfuel as [f ->].
  rewrite parse_dns_name_loop_labels; cbn [pn_pos pn_name]; try assumption;
    [| lia | lia].
  rewrite (parse_dns_name_loop_pointer _ _ _ _ _ offset Ho);
    cbn [pn_pos pn_name pn_jumped pn_original_pos pn_jumps];
    [| exact Hptr | lia | unfold name_len; cbn [pn_name]; lia | lia].
  rewrite parse_dns_name_loop_labels; cbn [pn_pos pn_name]; try assumption;
    [| lia].
  rewrite parse_dns_name_loop_root;
    cbn [pn_pos pn_name pn_jumped pn_original_pos pn_jumps];
    [| exact Hroot | lia | unfold name_len; cbn [pn_name]; exact Hroom].
  eexists. split; [reflexivity |].
  cbn [pn_ret pn_name_out pn_pos_out pn_final pn_jumps].
  unfold name_len. cbn [pn_name]. repeat split.
Qed.

Lemma parse_dns_name_one_pointer_witness :
  exists r,
    parse_dns_name Examples.dns_www_pointer 31 25 253 = Some r
    /\ pn_ret r = 15
    /\ pn_name_out r
       = [119; 119; 119; 46; 101; 120; 97; 109; 112; 108; 101; 46; 99; 111;
          109]
    /\ pn_pos_out r = 31
    /\ pn_jumps (pn_final r) = 1.
Proof.
  apply (parse_dns_name_one_pointer Examples.dns_www_pointer 31 25 253 12
           [[119; 119; 119]] Examples.example_com_labels);
    [lia | lia | check_plain_labels | check_plain_labels | check_bytes
    | check_bytes | check_closed | check_closed | check_closed].
Defined.

(** ** [parse_dns_name]: what holds for every message *)

Lemma printable_range c : 32 <= printable c <= 126.
Proof.
  unfold printable.
  destruct (32 <=? c) eqn:H1; destruct (c <=? 126) eqn:H2; simpl; lia.
Qed.

Lemma copy_label_output n data pos i name name_max :
  Forall (fun c => 32 <= c <= 126) name ->
  Z.of_nat (length name) <= Z.max 0 (name_max - 1) ->
  Forall (fun c => 32 <= c <= 126) (copy_label n data pos i name name_max)
  /\ Z.of_nat (length (copy_label n data pos i name name_max))
     <= Z.max 0 (name_max - 1).
Proof.
  revert i name. induction n as [| n IH]; intros i name Hp Hlen; [by split |].
  cbn [copy_label].
  destruct (Z.of_nat (length name) <? name_max - 1) eqn:Hroom; [| by split].
  apply Z.ltb_lt in Hroom. apply IH.
  - apply Forall_app. split; [exact Hp |].
    constructor; [apply printable_range | constructor].
  - rewrite length_app. cbn [length]. lia.
Qed.

Lemma parse_dns_name_loop_output fuel data data_len name_max s r :
  Forall (fun c => 32 <= c <= 126) (pn_name s) ->
  Z.of_nat (length (pn_name s)) <= Z.max 0 (name_max - 1) ->
  parse_dns_name_loop fuel data data_len name_max s = Some r ->
  Forall (fun c => 32 <= c <= 126) (pn_name_out r)
  /\ Z.of_nat (length (pn_name_out r)) <= Z.max 0 (name_max - 1)
  /\ (pn_ret r = -1 \/ pn_ret r = Z.of_nat (length (pn_name_out r))).
Proof.
  revert s. induction fuel as [| fuel IH]; intros s Hp Hlen Hrun;
    [discriminate |].
  cbn [parse_dns_name_loop] in Hrun.
  destruct ((pn_pos s <? data_len) && (name_len s <? name_max - 1))
    eqn:Hguard;
    [| injection Hrun as <-; cbn; auto].
  apply andb_prop in Hguard as [_ Hroom]. apply Z.ltb_lt in Hroom.
  unfold name_len in Hroom.
  unfold parse_dns_name_body in Hrun.
  destruct (byte_at data (pn_pos s) =? 0);
    [injection Hrun as <-; cbn; auto |].
  destruct (Z.land (byte_at data (pn_pos s)) 192 =? 192).
  - destruct (pn_pos s + 1 >=? data_len);
      [injection Hrun as <-; cbn; auto |].
    destruct (pn_jumps s >? 5); [injection Hrun as <-; cbn; auto |].
    eapply IH; [| | exact Hrun]; cbn [pn_name]; assumption.
  - destruct (pn_pos s + 1 + byte_at data (pn_pos s) >? data_len);
      [injection Hrun as <-; cbn; auto |].
    eapply IH; [| | exact Hrun]; cbn [pn_name];
      apply copy_label_output;
      destruct (name_len s >? 0); try assumption;
      try (apply Forall_app; split; [exact Hp | repeat constructor; lia]);
      try (rewrite length_app; cbn [length]; lia).
Qed.

(** X3.  Whatever the message holds, the name handed back consists of printable
    ASCII only and fits the caller's buffer with room for the terminator;
    a non-negative return value is its length. *)
Theorem parse_dns_name_output (data : list Z) (data_len pos name_max : Z)
    (r : pn_result) :
  parse_dns_name data data_len pos name_max = Some r ->
  Forall (fun c => 32 <= c <= 126) (pn_name_out r)
  /\ Z.of_nat (length (pn_name_out r)) <= Z.max 0 (name_max - 1)
  /\ (pn_ret r = -1 \/ pn_ret r = Z.of_nat (length (pn_name_out r))).
Proof.
  intros Hrun. unfold parse_dns_name in Hrun.
  eapply parse_dns_name_loop_output; [| | exact Hrun]; cbn [pn_name length].
  - constructor.
  - lia.
Qed.

Lemma parse_dns_name_output_witness :
  exists r,
    parse_dns_name Samples.dns_six_pointers 27 25 253 = Some r
    /\ Forall (fun c => 32 <= c <= 126) (pn_name_out r)
    /\ Z.of_nat (length (pn_name_out r)) <= Z.max 0 (253 - 1)
    /\ (pn_ret r = -1 \/ pn_ret r = Z.of_nat (length (pn_name_out r))).
Proof.
  eexists. split; [vm_compute; reflexivity |].
  apply (parse_dns_name_output Samples.dns_six_pointers 27 25 253).
  vm_compute. reflexivity.
Defined.

Lemma parse_dns_name_loop_cursor fuel data data_len name_max pos0 s r :
  cursor_inv pos0 data_len s ->
  parse_dns_name_loop fuel data data_len name_max s = Some r ->
  0 <= pn_ret r ->
  pos0 <= pn_pos_out r <= Z.max pos0 data_len.
Proof.
  revert s. induction fuel as [| fuel IH]; intros s Hinv Hrun Hret;
    [discriminate |].
  cbn [parse_dns_name_loop] in Hrun.
  destruct ((pn_pos s <? data_len) && (name_len s <? name_max - 1))
    eqn:Hguard.
  2: { injection Hrun as <-. unfold cursor_inv in Hinv. cbn.
       destruct (pn_jumped s); exact Hinv. }
  apply andb_prop in Hguard as [Hlt _]. apply Z.ltb_lt in Hlt.
  unfold parse_dns_name_body in Hrun. unfold cursor_inv in Hinv.
  destruct (byte_at data (pn_pos s) =? 0).
  { injection Hrun as <-. cbn. destruct (pn_jumped s); lia. }
  destruct (Z.land (byte_at data (pn_pos s)) 192 =? 192).
  - destruct (pn_pos s + 1 >=? data_len) eqn:Hsecond;
      [injection Hrun as <-; cbn in Hret; lia |].
    destruct (pn_jumps s >? 5); [injection Hrun as <-; cbn in Hret; lia |].
    eapply IH; [| exact Hrun | exact Hret].
    unfold cursor_inv. cbn [pn_jumped pn_original_pos].
    destruct (pn_jumped s); lia.
  - pose proof (byte_at_range data (pn_pos s)).
    destruct (pn_pos s + 1 + byte_at data (pn_pos s) >? data_len) eqn:Hfit;
      [injection Hrun as <-; cbn in Hret; lia |].
    eapply IH; [| exact Hrun | exact Hret].
    unfold cursor_inv. cbn [pn_jumped pn_original_pos pn_pos].
    destruct (pn_jumped s); lia.
Qed.

(** X4.  After a successful call the caller's cursor has not moved backwards
    and lies within the message (or where it was, if it started beyond the
    end), also when compression pointers were followed. *)
Theorem parse_dns_name_cursor (data : list Z) (data_len pos name_max : Z)
    (r : pn_result) :
  parse_dns_name data data_len pos name_max = Some r ->
  0 <= pn_ret r ->
  pos <= pn_pos_out r <= Z.max pos data_len.
Proof.
  intros Hrun Hret. unfold parse_dns_name in Hrun.
  eapply parse_dns_name_loop_cursor; [| exact Hrun | exact Hret].
  unfold cursor_inv. cbn. lia.
Qed.

Lemma parse_dns_name_cursor_witness :
  exists r,
    parse_dns_name Samples.dns_six_pointers 27 25 253 = Some r
    /\ 25 <= pn_pos_out r <= Z.max 25 27.
Proof.
  eexists. split; [vm_compute; reflexivity |].
  apply (parse_dns_name_cursor Samples.dns_six_pointers 27 25 253);
    [vm_compute; reflexivity | vm_compute; discriminate].
Defined.

(** ** [parse_dhcp_options]: scanning encoded options *)

Lemma u8_nonneg x : 0 <= u8 x.
Proof. unfold u8. apply Z.mod_pos_bound. lia. Qed.

Lemma parse_dhcp_options_loop_fuel f1 f2 data data_len pos ty max_len :
  (Z.to_nat (data_len - pos) < f1)%nat ->
  (Z.to_nat (data_len - pos) < f2)%nat ->
  Dhcp.parse_dhcp_options_loop f1 data data_len pos ty max_len
  = Dhcp.parse_dhcp_options_loop f2 data data_len pos ty max_len.
Proof.
  revert f2 pos. induction f1 as [| f1 IH]; intros f2 pos H1 H2; [lia |].
  destruct f2 as [| f2]; [lia |].
  cbn [Dhcp.parse_dhcp_options_loop].
  destruct (pos + 2 <=? data_len) eqn:Hroom; [| reflexivity].
  apply Z.leb_le in Hroom.
  destruct (byte_at data pos =? 255); [reflexivity |].
  match goal with |- context [if ?c then Some _ else _] => destruct c end;
    [reflexivity |].
  pose proof (byte_at_range data (pos + 1)).
  pose proof (u8_nonneg max_len).
  apply IH;
    match goal with |- context [if ?c then _ else _] => destruct c end; lia.
Qed.

(** An option of another type is stepped over by its declared length. *)
Lemma parse_dhcp_options_skip data data_len pos ty max_len :
  pos + 2 <= data_len ->
  byte_at data pos <> ty ->
  byte_at data pos <> 255 ->
  Dhcp.parse_dhcp_options data data_len pos ty max_len
  = Dhcp.parse_dhcp_options data data_len
      (pos + 2 + byte_at data (pos + 1)) ty max_len.
Proof.
  intros Hroom Hty Hend.
  pose proof (byte_at_range data (pos + 1)) as Hlen.
  unfold Dhcp.parse_dhcp_options at 1.
  cbn [Dhcp.parse_dhcp_options_loop].
  replace (pos + 2 <=? data_len) with true by (symmetry; lia).
  replace (byte_at data pos =? 255) with false by (symmetry; lia).
  replace (byte_at data pos =? ty) with false by (symmetry; lia).
  cbn [andb].
  unfold Dhcp.parse_dhcp_options.
  apply parse_dhcp_options_loop_fuel; lia.
Qed.

Lemma read_bytes_take data p v n :
  bytes_at data p v ->
  (n <= length v)%nat ->
  Dhcp.read_bytes data p (Z.of_nat n) = take n v.
Proof.
  intros Hb Hn. unfold Dhcp.read_bytes. rewrite Nat2Z.id.
  apply list_eq. intros i.
  rewrite list_lookup_fmap, lookup_take.
  destruct (decide (i < n)%nat) as [Hi | Hi].
  - rewrite lookup_seq_lt by exact Hi. simpl.
    destruct (lookup_lt_is_Some_2 v i ltac:(lia)) as [x Hx].
    rewrite Hx. f_equal. by apply Hb.
  - rewrite lookup_seq_ge by lia. reflexivity.
Qed.

Lemma encode_options_cons o opts :
  encode_options (o :: opts) = encode_option o ++ encode_options opts.
Proof. reflexivity. Qed.

Lemma encode_options_app o1 o2 :
  encode_options (o1 ++ o2) = encode_options o1 ++ encode_options o2.
Proof.
  unfold encode_options. by rewrite map_app, concat_app.
Qed.

(** X5.  Round trip: the first option of the requested type in an encoded list is
    returned, cut to [max_len] bytes, with the cursor on its value. *)
Theorem parse_dhcp_options_finds (data : list Z)
    (data_len pos ty max_len : Z) (before : list (Z * list Z))
    (v : list Z) :
  0 <= max_len < 256 ->
  ty <> 255 ->
  Forall (fun o => fst o <> ty /\ fst o <> 255) before ->
  bytes_at data pos (encode_options (before ++ [(ty, v)])) ->
  pos + Z.of_nat (length (encode_options (before ++ [(ty, v)]))) <= data_len ->
  let n := Z.to_nat (Z.min (Z.of_nat (length v)) max_len) in
  Dhcp.parse_dhcp_options data data_len pos ty max_len
  = Some (Dhcp.mk_opt_result (Z.of_nat n)
            (pos + Z.of_nat (length (encode_options before)) + 2)
            (take n v)).
Proof.
  intros Hmax Hty Hbefore. revert pos.
  induction Hbefore as [| [t w] before [Ht Hend] _ IH]; intros pos Hb Hfit n.
  - cbn [app] in Hb, Hfit.
    rewrite encode_options_cons in Hb, Hfit. cbn [encode_options map concat] in *.
    rewrite app_nil_r in Hb, Hfit.
    unfold encode_option in Hb, Hfit. cbn [fst snd length] in Hb, Hfit.
    apply bytes_at_cons in Hb as [Hb0 Hb].
    apply bytes_at_cons in Hb as [Hb1 Hb].
    replace (pos + 1 + 1) with (pos + 2) in Hb by lia.
    pose proof (byte_at_range data (pos + 1)) as Hlen.
    pose proof (parse_dhcp_options_at_match data data_len pos ty max_len
                  Hmax ltac:(lia) Hb0 Hty) as Hm.
    cbv zeta in Hm. rewrite Hb1 in Hm, Hlen.
    replace (pos + 2 + Z.min (Z.of_nat (length v)) max_len <=? data_len)
      with true in Hm by (symmetry; lia).
    rewrite Hm. cbn [length]. f_equal.
    replace (Z.min (Z.of_nat (length v)) max_len) with (Z.of_nat n)
      by (subst n; lia).
    rewrite (read_bytes_take data (pos + 2) v n Hb) by (subst n; lia).
    f_equal. lia.
  - cbn [app] in Hb, Hfit.
    rewrite encode_options_cons in Hb, Hfit |- *.
    rewrite length_app in Hfit |- *.
    apply bytes_at_app in Hb as [Hhead Hrest].
    unfold encode_option in Hhead, Hrest, Hfit |- *.
    cbn [fst snd length] in Hhead, Hrest, Hfit |- *.
    apply bytes_at_cons in Hhead as [Hb0 Hhead].
    apply bytes_at_cons in Hhead as [Hb1 _].
    rewrite parse_dhcp_options_skip; [| lia | rewrite Hb0; exact Ht
                                      | rewrite Hb0; exact Hend].
    rewrite Hb1.
    rewrite IH.
    + f_equal. f_equal. lia.
    + replace (pos + 2 + Z.of_nat (length w))
        with (pos + Z.of_nat (S (S (length w)))) by lia. exact Hrest.
    + lia.
Qed.

Lemma parse_dhcp_options_finds_witness :
  Dhcp.parse_dhcp_options Samples.dhcp_discover 253 240 12 63
  = Some (Dhcp.mk_opt_result 7 245 [108; 97; 112; 116; 111; 112; 49]).
Proof.
  apply (parse_dhcp_options_finds Samples.dhcp_discover 253 240 12 63
           [(53, [1])] [108; 97; 112; 116; 111; 112; 49]);
    [lia | lia
    | apply List.Forall_cons; [split; discriminate | apply List.Forall_nil]
    | check_bytes | check_closed].
Defined.

(** X6.  The end option (255) stops the scan: nothing encoded behind it is ever
    returned. *)
Theorem parse_dhcp_options_end_stops (data : list Z)
    (data_len pos ty max_len : Z) (before : list (Z * list Z)) :
  Forall (fun o => fst o <> ty /\ fst o <> 255) before ->
  bytes_at data pos (encode_options before ++ [255]) ->
  pos + Z.of_nat (length (encode_options before)) < data_len ->
  Dhcp.opt_ret <$> Dhcp.parse_dhcp_options data data_len pos ty max_len
  = Some (-1).
Proof.
  intros Hbefore. revert pos.
  induction Hbefore as [| [t w] before [Ht Hend] _ IH]; intros pos Hb Hfit.
  - cbn [encode_options map concat app length] in Hb, Hfit.
    apply bytes_at_cons in Hb as [Hb0 _].
    unfold Dhcp.parse_dhcp_options. cbn [Dhcp.parse_dhcp_options_loop].
    destruct (pos + 2 <=? data_len); [| reflexivity].
    rewrite Hb0. reflexivity.
  - rewrite encode_options_cons in Hb, Hfit.
    rewrite <- app_assoc in Hb. rewrite length_app in Hfit.
    apply bytes_at_app in Hb as [Hhead Hrest].
    unfold encode_option in Hhead, Hrest, Hfit.
    cbn [fst snd length] in Hhead, Hrest, Hfit.
    apply bytes_at_cons in Hhead as [Hb0 Hhead].
    apply bytes_at_cons in Hhead as [Hb1 _].
    rewrite parse_dhcp_options_skip; [| lia | rewrite Hb0; exact Ht
                                      | rewrite Hb0; exact Hend].
    rewrite Hb1. apply IH.
    + replace (pos + 2 + Z.of_nat (length w))
        with (pos + Z.of_nat (S (S (length w)))) by lia. exact Hrest.
    + lia.
Qed.

Lemma parse_dhcp_options_end_stops_witness :
  Dhcp.opt_ret <$> Dhcp.parse_dhcp_options Samples.dhcp_discover 253 240 61 63
  = Some (-1).
Proof.
  apply (parse_dhcp_options_end_stops Samples.dhcp_discover 253 240 61 63
           [(53, [1]); (12, [108; 97; 112; 116; 111; 112; 49])]);
    [ repeat (apply List.Forall_cons; [split; discriminate |]);
      apply List.Forall_nil
    | check_bytes | check_closed ].
Defined.

(** X7.  A scan that returns a value leaves the cursor on the first byte of that
    value.  A further scan with the same cursor therefore reads the value's
    first byte as an option type and the byte after it as a length. *)
Theorem parse_dhcp_options_cursor_reuse (data : list Z)
    (data_len pos ty1 max1 ty2 max2 : Z) :
  0 <= max1 < 256 ->
  ty1 <> 255 ->
  pos + 4 <= data_len ->
  byte_at data pos = ty1 ->
  1 <= byte_at data (pos + 1) ->
  pos + 2 + Z.min (byte_at data (pos + 1)) max1 <= data_len ->
  byte_at data (pos + 2) <> ty2 ->
  byte_at data (pos + 2) <> 255 ->
  exists r,
    Dhcp.parse_dhcp_options data data_len pos ty1 max1 = Some r
    /\ Dhcp.opt_pos r = pos + 2
    /\ Dhcp.parse_dhcp_options data data_len (Dhcp.opt_pos r) ty2 max2
       = Dhcp.parse_dhcp_options data data_len
           (pos + 4 + byte_at data (pos + 3)) ty2 max2.
Proof.
  intros Hmax Hty Hroom Hb0 Hlen Hfit Hv Hend.
  pose proof (parse_dhcp_options_at_match data data_len pos ty1 max1
                Hmax ltac:(lia) Hb0 Hty) as Hm.
  cbv zeta in Hm.
  replace (pos + 2 + Z.min (byte_at data (pos + 1)) max1 <=? data_len)
    with true in Hm by (symmetry; lia).
  eexists. split; [exact Hm |]. cbn [Dhcp.opt_pos].
  split; [reflexivity |].
  rewrite parse_dhcp_options_skip by (try assumption; lia).
  f_equal. replace (pos + 2 + 1) with (pos + 3) by lia. lia.
Qed.

Lemma parse_dhcp_options_cursor_reuse_witness :
  exists r,
    Dhcp.parse_dhcp_options Samples.dhcp_discover 253 243 12 63 = Some r
    /\ Dhcp.opt_pos r = 243 + 2
    /\ Dhcp.parse_dhcp_options Samples.dhcp_discover 253 (Dhcp.opt_pos r) 61 63
       = Dhcp.parse_dhcp_options Samples.dhcp_discover 253
           (243 + 4 + byte_at Samples.dhcp_discover (243 + 3)) 61 63.
Proof.
  apply (parse_dhcp_options_cursor_reuse Samples.dhcp_discover 253 243 12 63
           61 63);
    [lia | lia | lia | check_closed | check_closed | check_closed
    | check_closed | check_closed].
Defined.

(** ** The TC programs *)

Lemma apply_qos_ok st skb fs : snd (Tc.apply_qos st skb fs) = TC_ACT_OK.
Proof.
  unfold Tc.apply_qos.
  destruct (Tc.qos_profile fs =? Tc.QOS_PROFILE_DEFAULT); [reflexivity |].
  destruct (Tc.qos_profiles st !! Z.to_nat (Tc.qos_profile fs)); reflexivity.
Qed.

Lemma apply_qos_len st skb fs :
  skb_len (fst (Tc.apply_qos st skb fs)) = skb_len skb.
Proof.
  unfold Tc.apply_qos.
  destruct (Tc.qos_profile fs =? Tc.QOS_PROFILE_DEFAULT); [reflexivity |].
  destruct (Tc.qos_profiles st !! Z.to_nat (Tc.qos_profile fs)); reflexivity.
Qed.

(** X11.  Every packet is counted once by the ingress program, in exactly one of
    the three path counters, and the action depends on the stored verdict
    alone: a packet is shot exactly when its flow is stored with
    [VERDICT_DROP]. *)
Theorem tc_fast_path_accounting (k : kernel) (skb : sk_buff) (st : Tc.state) :
  let r := Tc.tc_fast_path k skb st in
  let s := Tc.stats st in
  let s' := Tc.stats (fst (fst r)) in
  let v := tc_found_verdict skb st in
  let hit v0 := if decide (v = Some v0) then 1 else 0 in
  snd r = (if decide (v = Some Tc.VERDICT_DROP) then TC_ACT_SHOT
           else TC_ACT_OK)
  /\ Tc.packets_processed s' = u64 (Tc.packets_processed s + 1)
  /\ Tc.bytes_processed s' = u64 (Tc.bytes_processed s + skb_len skb)
  /\ Tc.packets_fast_path s'
     = u64 (Tc.packets_fast_path s + hit Tc.VERDICT_TRUSTED)
  /\ Tc.packets_dropped s' = u64 (Tc.packets_dropped s + hit Tc.VERDICT_DROP)
  /\ Tc.packets_slow_path s'
     = u64 (Tc.packets_slow_path s
            + (1 - hit Tc.VERDICT_TRUSTED - hit Tc.VERDICT_DROP)).
Proof.
  intros r s s' v hit. subst r s s' v hit.
  unfold tc_found_verdict, Tc.tc_fast_path, bpf_map_lookup_elem.
  destruct (Tc.extract_flow_key skb) as [key |]; [| repeat split].
  destruct (Tc.flow_map st !! key) as [fs |]; [| repeat split].
  cbn [fmap option_fmap option_map Tc.verdict].
  destruct (Z.eqb_spec (Tc.verdict fs) Tc.VERDICT_TRUSTED) as [Htr | Htr].
  - rewrite Htr.
    match goal with
    | |- context [Tc.apply_qos ?a ?b ?c] =>
        pose proof (apply_qos_ok a b c) as Hok;
        pose proof (apply_qos_len a b c) as Hlen;
        destruct (Tc.apply_qos a b c) as [skb' q]
    end.
    cbn [fst snd] in Hok, Hlen. subst q. cbn [skb_len] in Hlen.
    rewrite Hlen. cbn. repeat split.
  - destruct (Z.eqb_spec (Tc.verdict fs) Tc.VERDICT_DROP) as [Hdr | Hdr].
    + rewrite Hdr. cbn. repeat split.
    + destruct (decide (Some (Tc.verdict fs) = Some Tc.VERDICT_DROP))
        as [[= ?] |]; [contradiction |].
      destruct (decide (Some (Tc.verdict fs) = Some Tc.VERDICT_TRUSTED))
        as [[= ?] |]; [contradiction |].
      cbn. repeat split.
Qed.

(** X12.  Neither TC program creates or removes a flow entry or changes a stored
    verdict or QoS profile, for any key. *)
Theorem tc_programs_keep_verdicts (k : kernel) (skb : sk_buff)
    (st : Tc.state) (key : Tc.flow_key) :
  let policy fs := (Tc.verdict fs, Tc.qos_profile fs) in
  policy <$> Tc.flow_map (fst (fst (Tc.tc_fast_path k skb st))) !! key
  = policy <$> Tc.flow_map st !! key
  /\ policy <$> Tc.flow_map (fst (fst (Tc.tc_egress_fast_path skb st))) !! key
     = policy <$> Tc.flow_map st !! key.
Proof.
  intros policy. split.
  - unfold Tc.tc_fast_path, bpf_map_lookup_elem.
    destruct (Tc.extract_flow_key skb) as [pkey |]; [| reflexivity].
    destruct (Tc.flow_map st !! pkey) as [fs |] eqn:Hlook; [| reflexivity].
    assert (Hupd : forall fs',
               policy fs' = policy fs ->
               policy <$> (<[pkey := fs']> (Tc.flow_map st)) !! key
               = policy <$> Tc.flow_map st !! key).
    { intros fs' Hsame. destruct (decide (pkey = key)) as [<- | Hne].
      - rewrite lookup_insert_eq, Hlook. simpl. by rewrite Hsame.
      - by rewrite lookup_insert_ne. }
    cbn [Tc.verdict].
    destruct (Tc.verdict fs =? Tc.VERDICT_TRUSTED).
    + match goal with
      | |- context [Tc.apply_qos ?a ?b ?c] =>
          pose proof (apply_qos_ok a b c) as Hok;
          destruct (Tc.apply_qos a b c) as [skb' q]
      end.
      cbn [snd] in Hok. subst q. cbn. by apply Hupd.
    + destruct (Tc.verdict fs =? Tc.VERDICT_DROP); cbn; by apply Hupd.
  - unfold Tc.tc_egress_fast_path, bpf_map_lookup_elem.
    destruct (Tc.extract_flow_key skb) as [pkey |]; [| reflexivity].
    match goal with
    | |- context [Tc.flow_map st !! ?rk] =>
        destruct (Tc.flow_map st !! rk) as [fs |] eqn:Hlook; [| reflexivity];
        set (rkey := rk) in *
    end.
    assert (Hupd : forall fs',
               policy fs' = policy fs ->
               policy <$> (<[rkey := fs']> (Tc.flow_map st)) !! key
               = policy <$> Tc.flow_map st !! key).
    { intros fs' Hsame. destruct (decide (rkey = key)) as [<- | Hne].
      - rewrite lookup_insert_eq, Hlook. simpl. by rewrite Hsame.
      - by rewrite lookup_insert_ne. }
    cbn [Tc.verdict].
    destruct (Tc.verdict fs =? Tc.VERDICT_TRUSTED); [cbn; by apply Hupd |].
    destruct (Tc.verdict fs =? Tc.VERDICT_DROP); cbn; by apply Hupd.
Qed.

(** X13.  The egress program finds the entry stored for the opposite direction:
    a packet whose own key is the reverse of a stored key is accounted to
    that entry, while the ingress program, looking under the packet's own
    key, does not see the entry.  No statistics and no QoS fields are
    touched on egress. *)
Theorem tc_egress_uses_reverse_key (k : kernel) (skb : sk_buff)
    (st : Tc.state) (key : Tc.flow_key) (fs : Tc.flow_state) :
  Tc.extract_flow_key skb = Some (tc_reverse_key key) ->
  Tc.flow_map st !! key = Some fs ->
  Tc.flow_map st !! tc_reverse_key key = None ->
  let r := Tc.tc_egress_fast_path skb st in
  Tc.flow_map (fst (fst r)) !! key
  = Some (Tc.mk_flow_state (Tc.first_seen fs) (Tc.last_seen fs)
            (u64 (Tc.packet_count fs + 1))
            (u64 (Tc.byte_count fs + skb_len skb)) (Tc.verdict fs)
            (Tc.offload_mark fs) (Tc.qos_profile fs) (Tc.flags fs))
  /\ snd r = (if Tc.verdict fs =? Tc.VERDICT_DROP then TC_ACT_SHOT
              else TC_ACT_OK)
  /\ skb_mark (snd (fst r))
     = (if Tc.verdict fs =? Tc.VERDICT_TRUSTED then Tc.NFQUEUE_BYPASS_MARK
        else skb_mark skb)
  /\ skb_priority (snd (fst r)) = skb_priority skb
  /\ skb_queue_mapping (snd (fst r)) = skb_queue_mapping skb
  /\ Tc.stats (fst (fst r)) = Tc.stats st
  /\ Tc.flow_map (fst (fst (Tc.tc_fast_path k skb st))) = Tc.flow_map st
  /\ snd (Tc.tc_fast_path k skb st) = TC_ACT_OK.
Proof.
  intros Hkey Hlook Hrev r. subst r.
  assert (Hrr : tc_reverse_key (tc_reverse_key key) = key) by (by destruct key).
  unfold Tc.tc_egress_fast_path, Tc.tc_fast_path, bpf_map_lookup_elem.
  rewrite Hkey.
  change (Tc.mk_flow_key (Tc.dst_ip (tc_reverse_key key))
            (Tc.src_ip (tc_reverse_key key)) (Tc.dst_port (tc_reverse_key key))
            (Tc.src_port (tc_reverse_key key)) (Tc.ip_proto (tc_reverse_key key))
            (Tc.ifindex (tc_reverse_key key)))
    with (tc_reverse_key (tc_reverse_key key)).
  rewrite Hrr, Hlook, Hrev. cbn [Tc.verdict].
  destruct (Z.eqb_spec (Tc.verdict fs) Tc.VERDICT_TRUSTED) as [Htr | Htr].
  - rewrite Htr. cbn. rewrite lookup_insert_eq. repeat split.
  - destruct (Tc.verdict fs =? Tc.VERDICT_DROP); cbn;
      rewrite lookup_insert_eq; repeat split.
Qed.

Lemma tc_egress_uses_reverse_key_witness :
  let key :=
    Tc.mk_flow_key (Samples.host32 Samples.client)
      (Samples.host32 Samples.server) 5353 53 17 1 in
  let fs := Tc.mk_flow_state 100 200 3 300 Tc.VERDICT_TRUSTED 0 0 0 in
  let st := Tc.mk_state {[key := fs]} [] (Tc.mk_tc_stats 0 0 0 0 0) in
  let skb := Samples.skb_of Samples.dns_response_packet in
  let r := Tc.tc_egress_fast_path skb st in
  Tc.packet_count <$> Tc.flow_map (fst (fst r)) !! key = Some 4
  /\ snd r = TC_ACT_OK
  /\ skb_mark (snd (fst r)) = Tc.NFQUEUE_BYPASS_MARK
  /\ Tc.flow_map (fst (fst (Tc.tc_fast_path (mk_kernel 1000 0) skb st)))
     = Tc.flow_map st.
Proof.
  intros key fs st skb r.
  destruct (tc_egress_uses_reverse_key (mk_kernel 1000 0) skb st key fs)
    as (Hm & Hr & Hmark & _ & _ & _ & Hin & _);
    [vm_compute; reflexivity | vm_compute; reflexivity
    | vm_compute; reflexivity |].
  split; [subst r; rewrite Hm; vm_compute; reflexivity |].
  split; [exact Hr |]. split; [exact Hmark | exact Hin].
Defined.

(** ** The XDP program: untouched state, counters, the block list *)

Lemma update_statistics_frame packets bytes dropped st :
  Xdp.ip_blocklist (Xdp.update_statistics packets bytes dropped st)
  = Xdp.ip_blocklist st
  /\ Xdp.flow_map (Xdp.update_statistics packets bytes dropped st)
     = Xdp.flow_map st
  /\ Xdp.events (Xdp.update_statistics packets bytes dropped st)
     = Xdp.events st
  /\ Xdp.flows_offloaded (Xdp.stats (Xdp.update_statistics packets bytes dropped st))
     = Xdp.flows_offloaded (Xdp.stats st).
Proof.
  unfold Xdp.update_statistics.
  destruct (negb (dropped =? 0)); repeat split.
Qed.

Lemma send_event_frame k st type src dst sport dport protocol data data_len :
  let st' := Xdp.send_event k st type src dst sport dport protocol data
               data_len in
  Xdp.ip_blocklist st' = Xdp.ip_blocklist st
  /\ Xdp.flow_map st' = Xdp.flow_map st
  /\ Xdp.stats st' = Xdp.stats st.
Proof.
  unfold Xdp.send_event. destruct (bpf_ringbuf_reserve _); repeat split.
Qed.

Lemma rate_limit_check_frame k st ip :
  Xdp.flow_map (fst (Xdp.rate_limit_check k st ip)) = Xdp.flow_map st
  /\ Xdp.stats (fst (Xdp.rate_limit_check k st ip)) = Xdp.stats st
  /\ Xdp.events (fst (Xdp.rate_limit_check k st ip)) = Xdp.events st.
Proof.
  unfold Xdp.rate_limit_check.
  repeat match goal with
         | |- context [if ?c then _ else _] => destruct c
         | |- context [let '(_, _) := ?p in _] => destruct p
         end; repeat split.
Qed.

Lemma get_or_create_flow_frame k st key :
  let st' := fst (Xdp.get_or_create_flow k st key) in
  Xdp.ip_blocklist st' = Xdp.ip_blocklist st
  /\ Xdp.stats st' = Xdp.stats st
  /\ Xdp.events st' = Xdp.events st
  /\ forall key', key' <> key ->
       Xdp.flow_map st' !! key' = Xdp.flow_map st !! key'.
Proof.
  destruct (Xdp.flow_map st !! key) as [fs |] eqn:Hlook.
  - rewrite (get_or_create_flow_present _ _ _ _ Hlook). repeat split.
  - rewrite (get_or_create_flow_absent _ _ _ Hlook). cbn.
    repeat split. intros key' Hne. by rewrite lookup_insert_ne.
Qed.

Lemma track_flow_frame k pkt st key :
  let st' := fst (Xdp.track_flow k pkt st key) in
  Xdp.ip_blocklist st' = Xdp.ip_blocklist st
  /\ forall key', key' <> key ->
       Xdp.flow_map st' !! key' = Xdp.flow_map st !! key'.
Proof.
  unfold Xdp.track_flow.
  pose proof (get_or_create_flow_frame k st key) as (Hbl & _ & _ & Hfm).
  cbv zeta in Hbl, Hfm.
  destruct (Xdp.get_or_create_flow k st key) as [st1 [fs |]];
    cbn [fst] in Hbl, Hfm; cbv beta iota zeta; [| by split].
  match goal with
  | |- context [if ?c then (_, XDP_DROP) else _] => destruct c
  end; cbn [fst];
    match goal with
    | |- context [Xdp.update_statistics ?a ?b ?c ?s] =>
        destruct (update_statistics_frame a b c s) as (-> & -> & _)
    end;
    (split;
     [match goal with
      | |- context [if ?c then _ else _] => destruct c
      end; exact Hbl
     | intros key' Hne;
       match goal with
       | |- context [if ?c then _ else _] => destruct c
       end; cbn; rewrite lookup_insert_ne by congruence; by apply Hfm]).
Qed.

Lemma xdp_filter_stage_facts k pkt st :
  match Xdp.xdp_filter_stage k pkt st with
  | inl (st', v) =>
      Xdp.flow_map st' = Xdp.flow_map st
      /\ ((v = XDP_PASS /\ Xdp.stats st' = Xdp.stats st)
          \/ (v = XDP_DROP
              /\ exists st0,
                   Xdp.stats st0 = Xdp.stats st
                   /\ Xdp.stats st'
                      = Xdp.stats
                          (Xdp.update_statistics 1
                             (bpf_ntohs (ip_tot_len pkt)) 1 st0)))
  | inr (st1, key) =>
      Xdp.flow_map st1 = Xdp.flow_map st
      /\ Xdp.stats st1 = Xdp.stats st
      /\ Xdp.src_ip key = ip_saddr pkt
      /\ Xdp.dst_ip key = ip_daddr pkt
      /\ Xdp.ip_proto key = ip_protocol pkt
  end.
Proof.
  unfold Xdp.xdp_filter_stage. xdp_stage_cases;
    try match goal with
        | Hrl : Xdp.rate_limit_check ?a ?b ?c = (?s1, _) |- _ =>
            pose proof (rate_limit_check_frame a b c) as (Hfm & Hst & _);
            rewrite Hrl in Hfm, Hst; cbn [fst] in Hfm, Hst
        end;
    try (split; [reflexivity | left; split; reflexivity]);
    try (split; [assumption | left; split; [reflexivity | assumption]]);
    try (repeat split; assumption).
  - (* block-listed source *)
    match goal with
    | |- context [Xdp.send_event ?k ?s ?t ?a ?b ?c ?d ?e ?f ?g] =>
        destruct (send_event_frame k s t a b c d e f g) as (_ & -> & ->)
    end.
    destruct (update_statistics_frame 1 (bpf_ntohs (ip_tot_len pkt)) 1 st)
      as (_ & -> & _).
    split; [reflexivity |]. right. split; [reflexivity |].
    exists st. split; reflexivity.
  - (* rate limited *)
    match goal with
    | |- context [Xdp.update_statistics 1 ?b 1 ?s] =>
        destruct (update_statistics_frame 1 b 1 s) as (_ & -> & _)
    end.
    split; [assumption |]. right. split; [reflexivity |].
    eexists. split; [| reflexivity]. assumption.
  - (* blocked domain *)
    match goal with
    | |- context [Xdp.send_event ?k ?s ?t ?a ?b ?c ?d ?e ?f ?g] =>
        destruct (send_event_frame k s t a b c d e f g) as (_ & -> & ->)
    end.
    match goal with
    | |- context [Xdp.update_statistics 1 ?b 1 ?s] =>
        destruct (update_statistics_frame 1 b 1 s) as (_ & -> & _)
    end.
    split; [assumption |]. right. split; [reflexivity |].
    eexists. split; [| reflexivity]. assumption.
Qed.

(** X14.  One invocation never creates or rewrites the flow entry of
    another connection: an entry found in [flow_map] afterwards under a key
    with another source address, destination address or protocol than the
    packet's was there before, unchanged.  (Whether the map evicts such an
    entry to make room is not the subject.) *)
Theorem xdp_prog_flow_frame (k : kernel) (pkt : list Z) (st : Xdp.state)
    (key : Xdp.flow_key) (fs : Xdp.flow_state) :
  Xdp.src_ip key <> ip_saddr pkt
  \/ Xdp.dst_ip key <> ip_daddr pkt
  \/ Xdp.ip_proto key <> ip_protocol pkt ->
  Xdp.flow_map (fst (Xdp.xdp_blocklist_prog k pkt st)) !! key = Some fs ->
  Xdp.flow_map st !! key = Some fs.
Proof.
  intros Hother. unfold Xdp.xdp_blocklist_prog.
  pose proof (xdp_filter_stage_facts k pkt st) as Hfacts.
  destruct (Xdp.xdp_filter_stage k pkt st) as [[st' v] | [st1 pkey]].
  - destruct Hfacts as [Hfm _]. cbn [fst]. by rewrite Hfm.
  - destruct Hfacts as (Hfm & _ & Hs & Hd & Hp).
    destruct (track_flow_frame k pkt st1 pkey) as [_ Hframe].
    rewrite Hframe, Hfm; [tauto |].
    intros ->. rewrite Hs, Hd, Hp in Hother. tauto.
Qed.

Lemma xdp_prog_flow_frame_witness :
  let key := Xdp.mk_flow_key 1 2 0 0 6 in
  let fs := Xdp.mk_flow_state XDP_DROP 0 0 1 60 5 5 500 in
  let st := Xdp.mk_state ∅ {[key := fs]} Samples.empty_stats ∅
              (mk_ringbuf [] 8) in
  Xdp.flow_map st !! key = Some fs.
Proof.
  intros key fs st.
  apply (xdp_prog_flow_frame (mk_kernel 1000 0) Samples.icmp_packet st key fs).
  - left. vm_compute. discriminate.
  - vm_compute. reflexivity.
Defined.

Lemma u64_add_l a b : u64 (u64 a + b) = u64 (a + b).
Proof. unfold u64. apply Zplus_mod_idemp_l. Qed.

Lemma u64_add_r a b : u64 (a + u64 b) = u64 (a + b).
Proof. unfold u64. apply Zplus_mod_idemp_r. Qed.

Lemma update_statistics_consistent bytes dropped st :
  dropped = 0 \/ dropped = 1 ->
  stats_consistent (Xdp.stats st) ->
  stats_consistent (Xdp.stats (Xdp.update_statistics 1 bytes dropped st)).
Proof.
  unfold stats_consistent, Xdp.update_statistics.
  intros [-> | ->] Hc;
    cbn [Z.eqb negb Xdp.stats Xdp.set_stats Xdp.packets_processed
         Xdp.packets_dropped Xdp.packets_passed];
    rewrite Hc, ?u64_add_l, ?u64_add_r, ?u64_add_l; f_equal; lia.
Qed.

Lemma update_statistics_drop bytes st :
  Xdp.packets_dropped (Xdp.stats (Xdp.update_statistics 1 bytes 1 st))
  = u64 (Xdp.packets_dropped (Xdp.stats st) + 1)
  /\ Xdp.packets_passed (Xdp.stats (Xdp.update_statistics 1 bytes 1 st))
     = Xdp.packets_passed (Xdp.stats st).
Proof. split; reflexivity. Qed.

(** X15.  The counters stay consistent: if [packets_processed] is the sum of
    [packets_dropped] and [packets_passed] (modulo 2^64) before an
    invocation, it still is afterwards, and a dropped packet has been
    counted. *)
Theorem xdp_prog_stats_consistent (k : kernel) (pkt : list Z)
    (st : Xdp.state) :
  stats_consistent (Xdp.stats st) ->
  let r := Xdp.xdp_blocklist_prog k pkt st in
  stats_consistent (Xdp.stats (fst r))
  /\ (snd r = XDP_DROP ->
      Xdp.packets_dropped (Xdp.stats (fst r))
      = u64 (Xdp.packets_dropped (Xdp.stats st) + 1)
      /\ Xdp.packets_passed (Xdp.stats (fst r))
         = Xdp.packets_passed (Xdp.stats st)).
Proof.
  intros Hc r. subst r. unfold Xdp.xdp_blocklist_prog.
  pose proof (xdp_filter_stage_facts k pkt st) as Hfacts.
  destruct (Xdp.xdp_filter_stage k pkt st) as [[st' v] | [st1 pkey]].
  - destruct Hfacts as [_ [[-> Hst] | [-> (st0 & Hst0 & Hst)]]];
      cbn [fst snd]; rewrite Hst.
    + split; [exact Hc | discriminate].
    + split.
      * apply update_statistics_consistent; [by right | by rewrite Hst0].
      * intros _.
        destruct (update_statistics_drop (bpf_ntohs (ip_tot_len pkt)) st0)
          as [-> ->].
        rewrite Hst0. split; reflexivity.
  - destruct Hfacts as (_ & Hst & _).
    unfold Xdp.track_flow.
    pose proof (get_or_create_flow_frame k st1 pkey) as (_ & Hgs & _).
    cbv zeta in Hgs.
    destruct (Xdp.get_or_create_flow k st1 pkey) as [st2 [fs |]];
      cbn [fst] in Hgs; cbv beta iota zeta.
    2: { cbn [fst snd]. rewrite Hgs, Hst. split; [exact Hc | discriminate]. }
    match goal with
    | |- context [Xdp.update_statistics 1 ?b 1 ?s] =>
        remember s as st3 eqn:Hst3; remember b as packet_len eqn:Hpl
    end.
    assert (H3 : Xdp.packets_processed (Xdp.stats st3)
                 = Xdp.packets_processed (Xdp.stats st)
                 /\ Xdp.packets_dropped (Xdp.stats st3)
                    = Xdp.packets_dropped (Xdp.stats st)
                 /\ Xdp.packets_passed (Xdp.stats st3)
                    = Xdp.packets_passed (Xdp.stats st)).
    { rewrite Hst3.
      match goal with |- context [if ?c then _ else _] => destruct c end;
        cbn; rewrite Hgs, Hst; repeat split. }
    destruct H3 as (Hp & Hd & Hpa).
    assert (Hc3 : stats_consistent (Xdp.stats st3))
      by (unfold stats_consistent; rewrite Hp, Hd, Hpa; exact Hc).
    match goal with
    | |- context [if ?c then (_, XDP_DROP) else _] => destruct c
    end; cbn [fst snd].
    + split; [apply update_statistics_consistent; [by right | exact Hc3] |].
      intros _.
      destruct (update_statistics_drop packet_len st3) as [-> ->].
      rewrite Hd, Hpa. split; reflexivity.
    + split; [apply update_statistics_consistent; [by left | exact Hc3] |].
      discriminate.
Qed.

Lemma xdp_prog_stats_consistent_witness :
  let r := Xdp.xdp_blocklist_prog (mk_kernel 1000 0) Samples.icmp_packet
             (Samples.xdp_empty 8) in
  stats_consistent (Xdp.stats (fst r))
  /\ (snd r = XDP_DROP ->
      Xdp.packets_dropped (Xdp.stats (fst r))
      = u64 (Xdp.packets_dropped (Xdp.stats (Samples.xdp_empty 8)) + 1)
      /\ Xdp.packets_passed (Xdp.stats (fst r))
         = Xdp.packets_passed (Xdp.stats (Samples.xdp_empty 8))).
Proof.
  apply (xdp_prog_stats_consistent (mk_kernel 1000 0) Samples.icmp_packet
           (Samples.xdp_empty 8)).
  vm_compute. reflexivity.
Defined.

Lemma xdp_stage_inspected k pkt st :
  xdp_inspected pkt ->
  Xdp.xdp_filter_stage k pkt st
  = (if Xdp.is_ip_blocked st (ip_saddr pkt) then
       inl (Xdp.send_event k
              (Xdp.update_statistics 1 (bpf_ntohs (ip_tot_len pkt)) 1 st)
              1 (ip_saddr pkt) (ip_daddr pkt) 0 0 (ip_protocol pkt) None 0,
            XDP_DROP)
     else Xdp.xdp_filter_stage k pkt st).
Proof.
  intros (Hlen & Heth & Hfrag).
  destruct (Xdp.is_ip_blocked st (ip_saddr pkt)) eqn:Hblk; [| reflexivity].
  unfold Xdp.xdp_filter_stage.
  replace (sizeof_ethhdr >? data_end pkt) with false
    by (symmetry; unfold sizeof_ethhdr, sizeof_iphdr in *; lia).
  rewrite Heth, Z.eqb_refl. cbn [negb].
  replace (sizeof_ethhdr + sizeof_iphdr >? data_end pkt) with false
    by (symmetry; lia).
  rewrite Hfrag. cbn [Z.eqb negb]. rewrite Hblk. reflexivity.
Qed.

(** X16.  A packet from a block-listed source that passes the header checks is
    dropped and counted; the flow table and the block list stay as they
    were, and an alert of type 1 is queued when the ring has room. *)
Theorem xdp_blocked_source_dropped (k : kernel) (pkt : list Z)
    (st : Xdp.state) :
  xdp_inspected pkt ->
  Xdp.is_ip_blocked st (ip_saddr pkt) = true ->
  let r := Xdp.xdp_blocklist_prog k pkt st in
  snd r = XDP_DROP
  /\ Xdp.flow_map (fst r) = Xdp.flow_map st
  /\ Xdp.ip_blocklist (fst r) = Xdp.ip_blocklist st
  /\ Xdp.packets_dropped (Xdp.stats (fst r))
     = u64 (Xdp.packets_dropped (Xdp.stats st) + 1)
  /\ Xdp.packets_processed (Xdp.stats (fst r))
     = u64 (Xdp.packets_processed (Xdp.stats st) + 1)
  /\ rb_records (Xdp.events (fst r))
     = (if bpf_ringbuf_reserve (Xdp.events st) then
          rb_records (Xdp.events st)
          ++ [Xdp.mk_event 1 (ktime_ns k) (ip_saddr pkt) (ip_daddr pkt) 0 0
                (ip_protocol pkt) 0 []]
        else rb_records (Xdp.events st)).
Proof.
  intros Hins Hblk r. subst r. unfold Xdp.xdp_blocklist_prog.
  rewrite (xdp_stage_inspected k pkt st Hins), Hblk. cbn [fst snd].
  unfold Xdp.send_event, Xdp.update_statistics. cbn.
  destruct (bpf_ringbuf_reserve (Xdp.events st)); cbn; repeat split.
Qed.

Lemma xdp_blocked_source_dropped_witness :
  let st := Xdp.mk_state {[Samples.host32 Samples.client := 0]} ∅
              Samples.empty_stats ∅ (mk_ringbuf [] 8) in
  let r := Xdp.xdp_blocklist_prog (mk_kernel 1000 0) Samples.icmp_packet st in
  snd r = XDP_DROP
  /\ Xdp.flow_map (fst r) = Xdp.flow_map st
  /\ Xdp.packets_dropped (Xdp.stats (fst r)) = 1
  /\ length (rb_records (Xdp.events (fst r))) = 1%nat.
Proof.
  intros st r.
  destruct (xdp_blocked_source_dropped (mk_kernel 1000 0) Samples.icmp_packet
              st) as (Hv & Hf & _ & Hd & _ & He);
    [ split; [vm_compute; discriminate | split; vm_compute; reflexivity]
    | vm_compute; reflexivity |].
  split; [exact Hv |]. split; [exact Hf |].
  split; [subst r; rewrite Hd; vm_compute; reflexivity |].
  subst r. rewrite He. vm_compute. reflexivity.
Defined.

Lemma track_flow_events_blocklist k pkt st key :
  Xdp.ip_blocklist (fst (Xdp.track_flow k pkt st key)) = Xdp.ip_blocklist st.
Proof. apply track_flow_frame. Qed.

Lemma xdp_prog_blocklist_after k pkt st :
  xdp_inspected pkt ->
  Xdp.is_ip_blocked st (ip_saddr pkt) = false ->
  Xdp.ip_blocklist (fst (Xdp.xdp_blocklist_prog k pkt st))
  = Xdp.ip_blocklist (fst (Xdp.rate_limit_check k st (ip_saddr pkt))).
Proof.
  intros (Hlen & Heth & Hfrag) Hblk.
  assert (Hnone : Xdp.ip_blocklist st !! ip_saddr pkt = None).
  { unfold Xdp.is_ip_blocked, bpf_map_lookup_elem in Hblk.
    destruct (Xdp.ip_blocklist st !! ip_saddr pkt); [discriminate | done]. }
  unfold Xdp.xdp_blocklist_prog, Xdp.xdp_filter_stage.
  replace (sizeof_ethhdr >? data_end pkt) with false
    by (symmetry; unfold sizeof_ethhdr, sizeof_iphdr in *; lia).
  rewrite Heth, Z.eqb_refl. cbn [negb].
  replace (sizeof_ethhdr + sizeof_iphdr >? data_end pkt) with false
    by (symmetry; lia).
  rewrite Hfrag. cbn [Z.eqb negb]. rewrite Hblk.
  destruct (Z.lt_ge_cases (Z.of_nat (size (Xdp.ip_blocklist st)))
              Xdp.IP_BLOCKLIST_MAX_ENTRIES) as [Hroom | Hfull];
    [rewrite (rate_limit_check_absent _ _ _ Hnone Hroom)
    | rewrite (rate_limit_check_full _ _ _ Hnone Hfull)];
    cbv beta iota zeta; change (1 =? 0) with false; cbv beta iota zeta;
    xdp_stage_cases; cbn [fst];
    rewrite ?track_flow_events_blocklist;
    try match goal with
        | |- context [Xdp.send_event ?k ?s ?t ?a ?b ?c ?d ?e ?f ?g] =>
            destruct (send_event_frame k s t a b c d e f g) as (-> & _)
        end;
    try match goal with
        | |- context [Xdp.update_statistics 1 ?b 1 ?s] =>
            destruct (update_statistics_frame 1 b 1 s) as (-> & _)
        end;
    reflexivity.
Qed.

(** X17.  The limiter writes the source into the map the block-list test
    reads.  While [ip_blocklist] has a free slot, the first packet of a
    source that passes the header checks leaves the source in the map, and
    every later such packet of that source is dropped, however much time
    has gone by.  When the map is full the insert fails, its result is
    ignored, the map stays as it is and the limiter admits the source at
    any time. *)
Theorem xdp_source_blocked_after_first_packet (k1 k2 : kernel)
    (pkt1 pkt2 : list Z) (st : Xdp.state) :
  xdp_inspected pkt1 ->
  xdp_inspected pkt2 ->
  Xdp.is_ip_blocked st (ip_saddr pkt1) = false ->
  ip_saddr pkt2 = ip_saddr pkt1 ->
  let st1 := fst (Xdp.xdp_blocklist_prog k1 pkt1 st) in
  (Z.of_nat (size (Xdp.ip_blocklist st)) < Xdp.IP_BLOCKLIST_MAX_ENTRIES ->
   Xdp.ip_blocklist st1 !! ip_saddr pkt1 = Some (ktime_ns k1)
   /\ snd (Xdp.xdp_blocklist_prog k2 pkt2 st1) = XDP_DROP)
  /\ (Xdp.IP_BLOCKLIST_MAX_ENTRIES <= Z.of_nat (size (Xdp.ip_blocklist st)) ->
      Xdp.ip_blocklist st1 = Xdp.ip_blocklist st
      /\ snd (Xdp.rate_limit_check k2 st1 (ip_saddr pkt2)) = 1).
Proof.
  intros Hins1 Hins2 Hblk Hsame st1.
  assert (Hnone : Xdp.ip_blocklist st !! ip_saddr pkt1 = None).
  { unfold Xdp.is_ip_blocked, bpf_map_lookup_elem in Hblk.
    destruct (Xdp.ip_blocklist st !! ip_saddr pkt1); [discriminate | done]. }
  pose proof (xdp_prog_blocklist_after k1 pkt1 st Hins1 Hblk) as Hafter.
  fold st1 in Hafter.
  split.
  - intros Hroom.
    rewrite (rate_limit_check_absent _ _ _ Hnone Hroom) in Hafter.
    cbn [fst Xdp.set_ip_blocklist Xdp.ip_blocklist] in Hafter.
    assert (Hrec : Xdp.ip_blocklist st1 !! ip_saddr pkt1
                   = Some (ktime_ns k1))
      by (rewrite Hafter; apply lookup_insert_eq).
    split; [exact Hrec |].
    unfold Xdp.xdp_blocklist_prog.
    rewrite (xdp_stage_inspected k2 pkt2 st1 Hins2).
    unfold Xdp.is_ip_blocked, bpf_map_lookup_elem. rewrite Hsame, Hrec.
    reflexivity.
  - intros Hfull.
    rewrite (rate_limit_check_full _ _ _ Hnone Hfull) in Hafter.
    cbn [fst Xdp.set_ip_blocklist Xdp.ip_blocklist] in Hafter.
    split; [exact Hafter |].
    rewrite Hsame, rate_limit_check_full; [reflexivity | | ];
      rewrite Hafter; assumption.
Qed.

Lemma xdp_source_blocked_after_first_packet_witness :
  let st1 :=
    fst (Xdp.xdp_blocklist_prog (mk_kernel 1000 0) Samples.icmp_packet
           (Samples.xdp_empty 8)) in
  Xdp.ip_blocklist st1 !! ip_saddr Samples.icmp_packet = Some 1000
  /\ snd (Xdp.xdp_blocklist_prog (mk_kernel 3600000000000 0)
            Samples.icmp_packet st1) = XDP_DROP.
Proof.
  destruct (xdp_source_blocked_after_first_packet (mk_kernel 1000 0)
              (mk_kernel 3600000000000 0) Samples.icmp_packet
              Samples.icmp_packet (Samples.xdp_empty 8)) as [Hroom _];
    [ split; [vm_compute; discriminate | split; vm_compute; reflexivity]
    | split; [vm_compute; discriminate | split; vm_compute; reflexivity]
    | vm_compute; reflexivity | reflexivity |].
  apply Hroom. vm_compute. reflexivity.
Defined.

(** ** The XDP program: the query name and new flows *)

Lemma copy_query_label_length n pkt dns_data pos i domain :
  (length (Xdp.copy_query_label n pkt dns_data pos i domain)
   <= length domain + n)%nat.
Proof.
  revert i domain. induction n as [| n IH]; intros i domain; simpl; [lia |].
  destruct ((pos + i + 1 <? 64) && (dns_data + pos + i + 1 <? data_end pkt));
    [| lia].
  etransitivity; [apply IH |]. rewrite length_app. simpl. lia.
Qed.

(** X18.  The name the XDP program collects for the bloom test never outgrows its
    64 byte buffer: at most 63 bytes are written, whatever the packet. *)
Theorem extract_query_name_fits (fuel : nat) (pkt : list Z)
    (dns_data pos : Z) (domain : list Z) :
  (length domain <= 63)%nat ->
  (length (Xdp.extract_query_name fuel pkt dns_data pos domain) <= 63)%nat.
Proof.
  revert pos domain. induction fuel as [| fuel IH]; intros pos domain Hlen;
    [exact Hlen |].
  cbn [Xdp.extract_query_name].
  destruct ((pos <? 63) && (dns_data + pos <? data_end pkt)); [| exact Hlen].
  pose proof (byte_at_range pkt (dns_data + pos)) as Hb.
  destruct (byte_at pkt (dns_data + pos) =? 0); [exact Hlen |].
  destruct (Z.of_nat (length domain) + byte_at pkt (dns_data + pos) + 1 >? 63)
    eqn:Hroom; [exact Hlen |].
  apply IH.
  etransitivity; [apply copy_query_label_length |].
  destruct (Z.of_nat (length domain) >? 0);
    rewrite ?length_app; cbn [length]; lia.
Qed.

Lemma extract_query_name_fits_witness :
  (length (Xdp.extract_query_name 64 Samples.dns_query_packet 42 12 [])
   <= 63)%nat.
Proof.
  apply (extract_query_name_fits 64 Samples.dns_query_packet 42 12 []).
  cbn [length]. lia.
Defined.

(** X19.  The first packet of a flow that reaches flow tracking creates the
    entry with verdict [XDP_PASS], QoS profile 0, no flags, one packet and
    the packet's length counted, and is passed and counted as passed. *)
Theorem xdp_first_packet_creates_flow (k : kernel) (pkt : list Z)
    (st st1 : Xdp.state) (key : Xdp.flow_key) :
  Xdp.xdp_filter_stage k pkt st = inr (st1, key) ->
  Xdp.flow_map st1 !! key = None ->
  let r := Xdp.xdp_blocklist_prog k pkt st in
  snd r = XDP_PASS
  /\ (exists fs,
        Xdp.flow_map (fst r) !! key = Some fs
        /\ Xdp.verdict fs = XDP_PASS
        /\ Xdp.qos_profile fs = 0
        /\ Xdp.flags fs = 0
        /\ Xdp.packet_count fs = 1
        /\ Xdp.byte_count fs = u64 (bpf_ntohs (ip_tot_len pkt)))
  /\ Xdp.packets_passed (Xdp.stats (fst r))
     = u64 (Xdp.packets_passed (Xdp.stats st1) + 1).
Proof.
  intros Hstage Hnone r. subst r.
  rewrite (xdp_prog_reaches_track_flow _ _ _ _ _ Hstage).
  unfold Xdp.track_flow.
  rewrite (get_or_create_flow_absent _ _ _ Hnone).
  cbv beta iota zeta.
  cbn [Xdp.verdict Xdp.qos_profile Xdp.flags Xdp.packet_count Xdp.byte_count
       Xdp.last_seen Xdp.created_at Xdp.expires_at].
  change (u64 (0 + 1) >? 100) with false. cbn [andb].
  change (XDP_PASS =? XDP_DROP) with false. cbv beta iota zeta.
  cbn [fst snd].
  split; [reflexivity |]. split.
  - eexists. split.
    + unfold Xdp.update_statistics, Xdp.set_stats, Xdp.set_flow_map.
      cbn [negb Z.eqb Xdp.flow_map]. apply lookup_insert_eq.
    + repeat split.
  - reflexivity.
Qed.

Lemma xdp_first_packet_creates_flow_witness :
  let k := mk_kernel 1000 0 in
  let pkt := Samples.icmp_packet in
  let key :=
    Xdp.mk_flow_key (Samples.host32 Samples.client)
      (Samples.host32 Samples.server) 0 0 1 in
  let r := Xdp.xdp_blocklist_prog k pkt (Samples.xdp_empty 8) in
  snd r = XDP_PASS
  /\ exists fs,
       Xdp.flow_map (fst r) !! key = Some fs
       /\ Xdp.packet_count fs = 1
       /\ Xdp.byte_count fs = 28.
Proof.
  intros k pkt key r.
  destruct (xdp_first_packet_creates_flow k pkt (Samples.xdp_empty 8)
              (fst (Xdp.rate_limit_check k (Samples.xdp_empty 8)
                      (Samples.host32 Samples.client)))
              key) as (Hv & (fs & Hm & _ & _ & _ & Hpc & Hbc) & _);
    [vm_compute; reflexivity | vm_compute; reflexivity |].
  split; [exact Hv |]. exists fs. split; [exact Hm |].
  split; [exact Hpc |]. rewrite Hbc. vm_compute. reflexivity.
Defined.

(** ** The header helpers of [include/common.h] *)

(** X10.  A header handed back by the helpers lies inside the packet: the IP
    header follows a complete Ethernet header, and the transport header
    found behind it is complete as well and starts at most 60 bytes after
    the IP header. *)
Theorem parse_headers_in_bounds (pkt : list Z) (ip l4 : Z) :
  parse_iphdr pkt = Some ip ->
  parse_udphdr pkt ip = Some l4 \/ parse_tcphdr pkt ip = Some l4 ->
  ip = sizeof_ethhdr
  /\ ip + sizeof_iphdr <= data_end pkt
  /\ ip <= l4 <= ip + 60
  /\ (parse_udphdr pkt ip = Some l4 ->
      ip_protocol pkt = IPPROTO_UDP /\ l4 + sizeof_udphdr <= data_end pkt)
  /\ (parse_tcphdr pkt ip = Some l4 ->
      ip_protocol pkt = IPPROTO_TCP /\ l4 + sizeof_tcphdr <= data_end pkt).
Proof.
  unfold parse_iphdr, parse_udphdr, parse_tcphdr, ip_protocol, ip_off.
  intros Hip Hl4.
  destruct (sizeof_ethhdr >? data_end pkt); [discriminate |].
  destruct (negb (eth_h_proto pkt =? bpf_htons ETH_P_IP)); [discriminate |].
  destruct (sizeof_ethhdr + sizeof_iphdr >? data_end pkt) eqn:Hlen;
    [discriminate |].
  injection Hip as <-.
  assert (Hihl : 0 <= Z.land (byte_at pkt sizeof_ethhdr) 15 <= 15).
  { pose proof (byte_at_range pkt sizeof_ethhdr).
    split; [apply Z.land_nonneg; lia |].
    assert (Z.land (byte_at pkt sizeof_ethhdr) 15 < 2 ^ 4); [| lia].
    change 15 with (Z.ones 4). rewrite Z.land_ones by lia.
    apply Z.mod_pos_bound. lia. }
  split; [reflexivity |]. split; [lia |].
  set (p := byte_at pkt (sizeof_ethhdr + 9)) in *.
  set (ts := sizeof_ethhdr + Z.land (byte_at pkt sizeof_ethhdr) 15 * 4) in *.
  assert (Hts : sizeof_ethhdr <= ts <= sizeof_ethhdr + 60) by (subst ts; lia).
  assert (Hu : forall x, (if negb (p =? IPPROTO_UDP) then None
                          else if ts + sizeof_udphdr >? data_end pkt then None
                               else Some ts) = Some x ->
               x = ts /\ p = IPPROTO_UDP
               /\ ts + sizeof_udphdr <= data_end pkt).
  { intros x Hx. destruct (Z.eqb_spec p IPPROTO_UDP) as [Hp | Hp];
      [| discriminate].
    cbn [negb] in Hx.
    destruct (ts + sizeof_udphdr >? data_end pkt) eqn:Hfit; [discriminate |].
    injection Hx as <-. split; [reflexivity |]. split; [exact Hp | lia]. }
  assert (Ht : forall x, (if negb (p =? IPPROTO_TCP) then None
                          else if ts + sizeof_tcphdr >? data_end pkt then None
                               else Some ts) = Some x ->
               x = ts /\ p = IPPROTO_TCP
               /\ ts + sizeof_tcphdr <= data_end pkt).
  { intros x Hx. destruct (Z.eqb_spec p IPPROTO_TCP) as [Hp | Hp];
      [| discriminate].
    cbn [negb] in Hx.
    destruct (ts + sizeof_tcphdr >? data_end pkt) eqn:Hfit; [discriminate |].
    injection Hx as <-. split; [reflexivity |]. split; [exact Hp | lia]. }
  split.
  - destruct Hl4 as [Hl4 | Hl4];
      [apply Hu in Hl4 as (-> & _) | apply Ht in Hl4 as (-> & _)]; exact Hts.
  - split; intros Hh; [apply Hu in Hh | apply Ht in Hh];
      destruct Hh as (-> & Hp & Hfit); split; assumption.
Qed.

Lemma parse_headers_in_bounds_witness :
  14 = sizeof_ethhdr
  /\ 14 + sizeof_iphdr <= data_end Samples.dns_query_packet
  /\ 14 <= 34 <= 14 + 60
  /\ (parse_udphdr Samples.dns_query_packet 14 = Some 34 ->
      ip_protocol Samples.dns_query_packet = IPPROTO_UDP
      /\ 34 + sizeof_udphdr <= data_end Samples.dns_query_packet)
  /\ (parse_tcphdr Samples.dns_query_packet 14 = Some 34 ->
      ip_protocol Samples.dns_query_packet = IPPROTO_TCP
      /\ 34 + sizeof_tcphdr <= data_end Samples.dns_query_packet).
Proof.
  apply (parse_headers_in_bounds Samples.dns_query_packet 14 34);
    [vm_compute; reflexivity | left; vm_compute; reflexivity].
Defined.

(** ** The DNS socket filter: queries, responses and their pairing *)

(** The filter past its header checks. *)
Lemma dns_socket_filter_accepted ed k skb st :
  dns_accepted (skb_data skb) ->
  Dns.dns_socket_filter ed k skb st
  = let pkt := skb_data skb in
    let dns := dns_of pkt in
    let flags := be16_at dns 2 in
    let is_response := negb (Z.land flags 0x8000 =? 0) in
    let '(domain_len, pos, domain) :=
      ed dns (dns_len_of pkt) 12 Dns.MAX_DOMAIN_LEN in
    if domain_len <? 0 then (Dns.increment_stat Dns.STAT_ERRORS st, 0)
    else if negb is_response && (be16_at dns 4 >? 0) then
      let query_info :=
        Dns.mk_query_info domain
          (if pos + 4 <=? dns_len_of pkt then be16_at dns pos else 0)
          (if pos + 4 <=? dns_len_of pkt then be16_at dns (pos + 2) else 0)
          (u16 (skb_len skb)) (ktime_ns k) in
      (Dns.send_dns_event k
         (Dns.increment_stat Dns.STAT_QUERIES_PROCESSED
            (Dns.mk_state (<[dns_key_of pkt := query_info]> (Dns.dns_queries st))
               (Dns.dns_responses st) (Dns.dns_stats st) (Dns.dns_events st)))
         (dns_key_of pkt) (Some query_info) None Dns.DNS_QUERY, 0)
    else if is_response && (be16_at dns 6 >? 0) then
      let response_info :=
        Dns.mk_response_info (u8 (Z.land flags 0x000F)) (be16_at dns 6)
          (be16_at dns 8) (be16_at dns 10)
          (match Dns.dns_queries st !! dns_reverse_key_of pkt with
           | Some q => Dns.q_timestamp q
           | None => 0
           end)
          (ktime_ns k) domain (u16 (skb_len skb)) in
      let st1 :=
        Dns.send_dns_event k
          (Dns.increment_stat Dns.STAT_RESPONSES_PROCESSED
             (Dns.mk_state (Dns.dns_queries st)
                (<[be16_at dns 0 := response_info]> (Dns.dns_responses st))
                (Dns.dns_stats st) (Dns.dns_events st)))
          (dns_key_of pkt) None (Some response_info) Dns.DNS_RESPONSE in
      (Dns.mk_state (delete (dns_key_of pkt) (Dns.dns_queries st1))
         (Dns.dns_responses st1) (Dns.dns_stats st1) (Dns.dns_events st1), 0)
    else (st, 0).
Proof.
  intros (Hlen & Heth & Hproto & Hport & Hfit & Hmin).
  unfold Dns.dns_socket_filter, dns_key_of, dns_reverse_key_of, dns_of,
    dns_len_of in *.
  cbv zeta.
  replace (sizeof_ethhdr + sizeof_iphdr + sizeof_udphdr
           >? data_end (skb_data skb)) with false by (symmetry; lia).
  rewrite Heth, Hproto, !Z.eqb_refl. cbn [negb orb].
  assert (Hp : negb (l4_dest (skb_data skb) (ip_off + sizeof_iphdr)
                     =? bpf_htons Dns.DNS_PORT)
               && negb (l4_source (skb_data skb) (ip_off + sizeof_iphdr)
                        =? bpf_htons Dns.DNS_PORT) = false).
  { destruct Hport as [Hd | Hs].
    - apply Z.eqb_eq in Hd. rewrite Hd. reflexivity.
    - apply Z.eqb_eq in Hs. rewrite Hs. apply andb_false_r. }
  rewrite Hp.
  match goal with
  | |- context [(?a >? ?b) || (?c <? 12)] =>
      replace ((a >? b) || (c <? 12)) with false
        by (symmetry; apply orb_false_intro; lia)
  end.
  match goal with
  | |- context [ed ?a ?b ?c ?d] => destruct (ed a b c d) as [[dl pos] dom]
  end.
  destruct (dl <? 0); [reflexivity |].
  unfold bpf_map_update_elem, bpf_map_lookup_elem, bpf_map_delete_elem.
  cbn [Z.eqb BPF_ANY BPF_NOEXIST BPF_EXIST].
  destruct (negb (negb (Z.land _ 32768 =? 0)) && _).
  - match goal with
    | |- context [if ?c then (_, _) else (0, 0)] => destruct c
    end; reflexivity.
  - destruct (negb (Z.land _ 32768 =? 0) && _); reflexivity.
Qed.

Lemma send_dns_event_maps k st key q r is_response :
  Dns.dns_queries (Dns.send_dns_event k st key q r is_response)
  = Dns.dns_queries st
  /\ Dns.dns_responses (Dns.send_dns_event k st key q r is_response)
     = Dns.dns_responses st.
Proof.
  unfold Dns.send_dns_event.
  destruct (bpf_ringbuf_reserve (Dns.dns_events st)); split; reflexivity.
Qed.

Lemma send_dns_event_last k st key q r is_response :
  bpf_ringbuf_reserve (Dns.dns_events st) = true ->
  exists e,
    rb_records (Dns.dns_events (Dns.send_dns_event k st key q r is_response))
    = rb_records (Dns.dns_events st) ++ [e]
    /\ Dns.e_is_response e = is_response
    /\ Dns.e_timestamp e = ktime_ns k
    /\ Dns.e_query_id e = Dns.query_id key
    /\ (is_response <> 0 -> forall ri, r = Some ri ->
        Dns.e_response_time_ns e
        = (if Dns.r_query_timestamp ri >? 0 then
             Some (u64 (Dns.r_response_timestamp ri - Dns.r_query_timestamp ri))
           else None)
        /\ Dns.e_response_code e = Some (Dns.r_response_code ri)
        /\ Dns.e_answer_count e = Some (Dns.r_answer_count ri)
        /\ Dns.e_domain e = Some (Dns.r_domain ri)
        /\ Dns.e_query_type e = None)
    /\ (is_response = 0 -> forall qi, q = Some qi ->
        Dns.e_query_type e = Some (Dns.q_query_type qi)
        /\ Dns.e_query_class e = Some (Dns.q_query_class qi)
        /\ Dns.e_domain e = Some (Dns.q_domain qi)
        /\ Dns.e_response_time_ns e = None
        /\ Dns.e_response_code e = None).
Proof.
  intros Hroom. unfold Dns.send_dns_event. rewrite Hroom.
  destruct (Z.eqb_spec is_response 0) as [-> | Hne]; cbn [negb].
  - destruct q as [qi |], r as [ri |]; eexists;
      (split; [reflexivity |]); (split; [reflexivity |]);
      (split; [reflexivity |]); (split; [reflexivity |]);
      (split; [intros Hne; contradiction |]);
      intros _ qi'; intros [= <-]; repeat split; reflexivity.
  - destruct r as [ri |]; eexists;
      (split; [reflexivity |]); (split; [reflexivity |]);
      (split; [reflexivity |]); (split; [reflexivity |]);
      (split; [| intros He; contradiction]);
      intros _ ri'; intros [= <-]; repeat split; reflexivity.
Qed.

(** The state a query leaves behind. *)
Lemma dns_query_state ed k skb st dl pos dom :
  let pkt := skb_data skb in
  dns_accepted pkt ->
  ed (dns_of pkt) (dns_len_of pkt) 12 Dns.MAX_DOMAIN_LEN = (dl, pos, dom) ->
  0 <= dl ->
  Z.land (be16_at (dns_of pkt) 2) 0x8000 = 0 ->
  0 < be16_at (dns_of pkt) 4 ->
  fst (Dns.dns_socket_filter ed k skb st)
  = Dns.send_dns_event k
      (Dns.increment_stat Dns.STAT_QUERIES_PROCESSED
         (Dns.mk_state
            (<[dns_key_of pkt := dns_query_info_of k skb pos dom]>
               (Dns.dns_queries st))
            (Dns.dns_responses st) (Dns.dns_stats st) (Dns.dns_events st)))
      (dns_key_of pkt) (Some (dns_query_info_of k skb pos dom)) None
      Dns.DNS_QUERY.
Proof.
  cbv zeta. intros Hacc Hed Hdl Hqr Hq.
  rewrite (dns_socket_filter_accepted ed k skb st Hacc). cbv zeta.
  rewrite Hed.
  replace (dl <? 0) with false by (symmetry; lia).
  rewrite Hqr. cbn [Z.eqb negb andb].
  replace (be16_at _ 4 >? 0) with true by (symmetry; lia).
  reflexivity.
Qed.

(** The state a response leaves behind. *)
Lemma dns_response_state ed k skb st dl pos dom :
  let pkt := skb_data skb in
  dns_accepted pkt ->
  ed (dns_of pkt) (dns_len_of pkt) 12 Dns.MAX_DOMAIN_LEN = (dl, pos, dom) ->
  0 <= dl ->
  Z.land (be16_at (dns_of pkt) 2) 0x8000 <> 0 ->
  0 < be16_at (dns_of pkt) 6 ->
  fst (Dns.dns_socket_filter ed k skb st)
  = let st1 :=
      Dns.send_dns_event k
        (Dns.increment_stat Dns.STAT_RESPONSES_PROCESSED
           (Dns.mk_state (Dns.dns_queries st)
              (<[be16_at (dns_of pkt) 0 := dns_response_info_of k skb st dom]>
                 (Dns.dns_responses st))
              (Dns.dns_stats st) (Dns.dns_events st)))
        (dns_key_of pkt) None (Some (dns_response_info_of k skb st dom))
        Dns.DNS_RESPONSE in
    Dns.mk_state (delete (dns_key_of pkt) (Dns.dns_queries st1))
      (Dns.dns_responses st1) (Dns.dns_stats st1) (Dns.dns_events st1).
Proof.
  cbv zeta. intros Hacc Hed Hdl Hqr Ha.
  rewrite (dns_socket_filter_accepted ed k skb st Hacc). cbv zeta.
  rewrite Hed.
  replace (dl <? 0) with false by (symmetry; lia).
  apply Z.eqb_neq in Hqr. rewrite Hqr. cbn [negb andb].
  replace (be16_at _ 6 >? 0) with true by (symmetry; lia).
  reflexivity.
Qed.

(** X20.  A query is recorded under the key of its packet, with the parsed
    name and the clock reading of the invocation. *)
Theorem dns_query_recorded ed k skb st domain_len pos domain :
  let pkt := skb_data skb in
  let dns := dns_of pkt in
  dns_accepted pkt ->
  ed dns (dns_len_of pkt) 12 Dns.MAX_DOMAIN_LEN = (domain_len, pos, domain) ->
  0 <= domain_len ->
  Z.land (be16_at dns 2) 0x8000 = 0 ->
  0 < be16_at dns 4 ->
  let st' := fst (Dns.dns_socket_filter ed k skb st) in
  (exists q,
    Dns.dns_queries st' !! dns_key_of pkt = Some q
    /\ Dns.q_domain q = domain
    /\ Dns.q_timestamp q = ktime_ns k
    /\ Dns.q_packet_size q = u16 (skb_len skb)
    /\ Dns.q_query_type q
       = (if pos + 4 <=? dns_len_of pkt then be16_at dns pos else 0))
  /\ Dns.dns_responses st' = Dns.dns_responses st
  /\ (bpf_ringbuf_reserve (Dns.dns_events st) = true ->
      Dns.dns_stats st'
      = stat_increment (Dns.dns_stats st) Dns.STAT_QUERIES_PROCESSED
      /\ exists e,
           rb_records (Dns.dns_events st')
           = rb_records (Dns.dns_events st) ++ [e]
           /\ Dns.e_is_response e = 0
           /\ Dns.e_domain e = Some domain
           /\ Dns.e_response_time_ns e = None)
  /\ (bpf_ringbuf_reserve (Dns.dns_events st) = false ->
      Dns.dns_events st' = Dns.dns_events st
      /\ Dns.dns_stats st'
         = stat_increment
             (stat_increment (Dns.dns_stats st) Dns.STAT_QUERIES_PROCESSED)
             Dns.STAT_ERRORS).
Proof.
  cbv zeta. intros Hacc Hed Hdl Hqr Hq.
  rewrite (dns_query_state ed k skb st domain_len pos domain Hacc Hed Hdl Hqr Hq).
  match goal with
  | |- context [Dns.send_dns_event k ?s ?key ?q ?r ?f] =>
      pose proof (send_dns_event_maps k s key q r f) as [Hm1 Hm2];
      pose proof (send_dns_event_last k s key q r f) as Hlast
  end.
  rewrite Hm1, Hm2.
  cbn [Dns.increment_stat Dns.dns_queries Dns.dns_responses Dns.dns_events
       Dns.dns_stats] in Hlast |- *.
  split.
  { eexists. split; [apply lookup_insert_eq |]. repeat split; reflexivity. }
  split; [reflexivity |].
  split.
  - intros Hroom.
    specialize (Hlast Hroom) as (e & Hrec & Hir & _ & _ & _ & Hqf).
    split.
    + unfold Dns.send_dns_event, Dns.increment_stat.
      cbn [Dns.dns_events]. rewrite Hroom. reflexivity.
    + exists e. split; [exact Hrec |]. split; [exact Hir |].
      destruct (Hqf eq_refl _ eq_refl) as (_ & _ & Hd & Ht & _).
      split; [exact Hd | exact Ht].
  - intros Hroom. unfold Dns.send_dns_event, Dns.increment_stat.
    cbn [Dns.dns_events]. rewrite Hroom.
    cbn [Dns.dns_events Dns.dns_stats]. split; reflexivity.
Qed.

Lemma dns_query_recorded_witness :
  let k := mk_kernel 1000 77 in
  let skb := Samples.skb_of Samples.dns_query_packet in
  let st' :=
    fst (Dns.dns_socket_filter Dns.extract_domain_by_parse_dns_name k skb
           (Samples.dns_empty 8)) in
  (exists q,
     Dns.dns_queries st' !! dns_key_of Samples.dns_query_packet = Some q
     /\ Dns.q_domain q
        = [101; 120; 97; 109; 112; 108; 101; 46; 99; 111; 109]
     /\ Dns.q_timestamp q = 1000
     /\ Dns.q_query_type q = 1)
  /\ Dns.dns_responses st' = ∅.
Proof.
  intros k skb st'.
  destruct (dns_query_recorded Dns.extract_domain_by_parse_dns_name k skb
              (Samples.dns_empty 8) 11 25
              [101; 120; 97; 109; 112; 108; 101; 46; 99; 111; 109])
    as ((q & Hq & Hd & Ht & _ & Hty) & Hr & _);
    [ check_dns_accepted | vm_compute; reflexivity | lia
    | vm_compute; reflexivity | vm_compute; reflexivity |].
  split; [| exact Hr].
  exists q. split; [exact Hq |]. split; [exact Hd |].
  split; [exact Ht | rewrite Hty; vm_compute; reflexivity].
Defined.

(** X21.  The response time reported for a response is measured against the
    query stored under the reversed key of the response packet; without
    such a query (or with a stored time of zero) the field is not written. *)
Theorem dns_response_time_from_reverse_key ed k skb st domain_len pos domain :
  let pkt := skb_data skb in
  let dns := dns_of pkt in
  dns_accepted pkt ->
  ed dns (dns_len_of pkt) 12 Dns.MAX_DOMAIN_LEN = (domain_len, pos, domain) ->
  0 <= domain_len ->
  Z.land (be16_at dns 2) 0x8000 <> 0 ->
  0 < be16_at dns 6 ->
  bpf_ringbuf_reserve (Dns.dns_events st) = true ->
  let st' := fst (Dns.dns_socket_filter ed k skb st) in
  exists e,
    rb_records (Dns.dns_events st') = rb_records (Dns.dns_events st) ++ [e]
    /\ Dns.e_is_response e = 1
    /\ Dns.e_query_id e = be16_at dns 0
    /\ Dns.e_domain e = Some domain
    /\ Dns.e_response_code e = Some (u8 (Z.land (be16_at dns 2) 15))
    /\ Dns.e_response_time_ns e
       = match Dns.dns_queries st !! dns_reverse_key_of pkt with
         | Some q =>
             if Dns.q_timestamp q >? 0 then
               Some (u64 (ktime_ns k - Dns.q_timestamp q))
             else None
         | None => None
         end.
Proof.
  cbv zeta. intros Hacc Hed Hdl Hqr Ha Hroom.
  rewrite (dns_response_state ed k skb st domain_len pos domain
             Hacc Hed Hdl Hqr Ha).
  cbv zeta. cbn [Dns.dns_events].
  match goal with
  | |- context [Dns.send_dns_event k ?s ?key ?q ?r ?f] =>
      destruct (send_dns_event_last k s key q r f Hroom)
        as (e & Hrec & Hir & _ & Hid & Hrf & _)
  end.
  exists e. split; [exact Hrec |]. split; [exact Hir |].
  split; [exact Hid |].
  destruct (Hrf ltac:(discriminate) _ eq_refl) as (Ht & Hc & _ & Hd & _).
  split; [exact Hd |]. split; [exact Hc |].
  rewrite Ht. unfold dns_response_info_of.
  cbn [Dns.r_query_timestamp Dns.r_response_timestamp].
  destruct (Dns.dns_queries st !! dns_reverse_key_of (skb_data skb));
    reflexivity.
Qed.

Lemma dns_response_time_from_reverse_key_witness :
  let ed := Dns.extract_domain_by_parse_dns_name in
  let st1 :=
    fst (Dns.dns_socket_filter ed (mk_kernel 1000 77)
           (Samples.skb_of Samples.dns_query_packet) (Samples.dns_empty 8)) in
  let st2 :=
    fst (Dns.dns_socket_filter ed (mk_kernel 1500 77)
           (Samples.skb_of Samples.dns_response_packet) st1) in
  exists e,
    rb_records (Dns.dns_events st2) = rb_records (Dns.dns_events st1) ++ [e]
    /\ Dns.e_is_response e = 1
    /\ Dns.e_query_id e = 0x1234
    /\ Dns.e_response_time_ns e = Some 500.
Proof.
  intros ed st1 st2.
  destruct (dns_response_time_from_reverse_key ed (mk_kernel 1500 77)
              (Samples.skb_of Samples.dns_response_packet) st1 11 25
              [101; 120; 97; 109; 112; 108; 101; 46; 99; 111; 109])
    as (e & Hrec & Hir & Hid & _ & _ & Ht);
    [ check_dns_accepted | vm_compute; reflexivity | lia
    | vm_compute; discriminate | vm_compute; reflexivity
    | vm_compute; reflexivity |].
  exists e. split; [exact Hrec |]. split; [exact Hir |].
  split; [rewrite Hid; vm_compute; reflexivity |].
  rewrite Ht. vm_compute. reflexivity.
Defined.

(** X22.  A query followed by its response: when the response packet reverses
    the addresses and ports of the query and carries its transaction id,
    the response event reports the time between the two clock readings. *)
Theorem dns_query_then_response_time ed k1 k2 skb_q skb_r st
    dl_q pos_q dom_q dl_r pos_r dom_r :
  let pq := skb_data skb_q in
  let pr := skb_data skb_r in
  dns_accepted pq ->
  dns_accepted pr ->
  ed (dns_of pq) (dns_len_of pq) 12 Dns.MAX_DOMAIN_LEN = (dl_q, pos_q, dom_q) ->
  ed (dns_of pr) (dns_len_of pr) 12 Dns.MAX_DOMAIN_LEN = (dl_r, pos_r, dom_r) ->
  0 <= dl_q -> 0 <= dl_r ->
  Z.land (be16_at (dns_of pq) 2) 0x8000 = 0 ->
  0 < be16_at (dns_of pq) 4 ->
  Z.land (be16_at (dns_of pr) 2) 0x8000 <> 0 ->
  0 < be16_at (dns_of pr) 6 ->
  dns_reverse_key_of pr = dns_key_of pq ->
  0 < ktime_ns k1 ->
  (2 <= rb_room (Dns.dns_events st))%nat ->
  let st1 := fst (Dns.dns_socket_filter ed k1 skb_q st) in
  let st2 := fst (Dns.dns_socket_filter ed k2 skb_r st1) in
  exists e_q e_r,
    rb_records (Dns.dns_events st2)
    = rb_records (Dns.dns_events st) ++ [e_q; e_r]
    /\ Dns.e_is_response e_q = 0
    /\ Dns.e_is_response e_r = 1
    /\ Dns.e_response_time_ns e_r = Some (u64 (ktime_ns k2 - ktime_ns k1)).
Proof.
  cbv zeta.
  intros Haq Har Hedq Hedr Hdq Hdr Hqq Hcq Hqr Hcr Hkey Hk1 Hroom.
  assert (Hres : bpf_ringbuf_reserve (Dns.dns_events st) = true).
  { unfold bpf_ringbuf_reserve. destruct (rb_room _); [lia | reflexivity]. }
  rewrite (dns_query_state ed k1 skb_q st dl_q pos_q dom_q
             Haq Hedq Hdq Hqq Hcq).
  match goal with
  | |- context [Dns.send_dns_event k1 ?s ?key ?q ?r ?f] =>
      destruct (send_dns_event_maps k1 s key q r f) as [Hm1 _];
      destruct (send_dns_event_last k1 s key q r f Hres)
        as (e_q & Hrec1 & Hir1 & _);
      assert (Hres1 : bpf_ringbuf_reserve
                        (Dns.dns_events (Dns.send_dns_event k1 s key q r f))
                      = true);
      [| remember (Dns.send_dns_event k1 s key q r f) as st1 eqn:Hst1 ]
  end.
  { unfold Dns.send_dns_event, Dns.increment_stat.
    cbn [Dns.dns_events]. rewrite Hres. cbn [Dns.dns_events].
    unfold bpf_ringbuf_reserve, bpf_ringbuf_submit. cbn [rb_room].
    destruct (rb_room (Dns.dns_events st)) as [| [| n]]; [lia | lia |].
    reflexivity. }
  cbn [Dns.increment_stat Dns.dns_queries Dns.dns_events] in Hm1, Hrec1.
  rewrite (dns_response_state ed k2 skb_r st1 dl_r pos_r dom_r
             Har Hedr Hdr Hqr Hcr).
  cbv zeta. cbn [Dns.dns_events].
  match goal with
  | |- context [Dns.send_dns_event k2 ?s ?key ?q ?r ?f] =>
      destruct (send_dns_event_last k2 s key q r f Hres1)
        as (e_r & Hrec2 & Hir2 & _ & _ & Hrf & _)
  end.
  cbn [Dns.increment_stat Dns.dns_events] in Hrec2.
  exists e_q, e_r. split.
  { rewrite Hrec2, Hrec1, <- app_assoc. reflexivity. }
  split; [exact Hir1 |]. split; [exact Hir2 |].
  destruct (Hrf ltac:(discriminate) _ eq_refl) as (Ht & _).
  rewrite Ht. unfold dns_response_info_of.
  cbn [Dns.r_query_timestamp Dns.r_response_timestamp].
  rewrite Hkey, Hm1, lookup_insert_eq.
  unfold dns_query_info_of. cbn [Dns.q_timestamp].
  replace (ktime_ns k1 >? 0) with true by (symmetry; lia).
  reflexivity.
Qed.

Lemma dns_query_then_response_time_witness :
  let ed := Dns.extract_domain_by_parse_dns_name in
  let st1 :=
    fst (Dns.dns_socket_filter ed (mk_kernel 1000 77)
           (Samples.skb_of Samples.dns_query_packet) (Samples.dns_empty 8)) in
  let st2 :=
    fst (Dns.dns_socket_filter ed (mk_kernel 1500 77)
           (Samples.skb_of Samples.dns_response_packet) st1) in
  exists e_q e_r,
    rb_records (Dns.dns_events st2)
    = rb_records (Dns.dns_events (Samples.dns_empty 8)) ++ [e_q; e_r]
    /\ Dns.e_is_response e_q = 0
    /\ Dns.e_is_response e_r = 1
    /\ Dns.e_response_time_ns e_r = Some (u64 (1500 - 1000)).
Proof.
  apply (dns_query_then_response_time Dns.extract_domain_by_parse_dns_name
           (mk_kernel 1000 77) (mk_kernel 1500 77)
           (Samples.skb_of Samples.dns_query_packet)
           (Samples.skb_of Samples.dns_response_packet) (Samples.dns_empty 8)
           11 25 [101; 120; 97; 109; 112; 108; 101; 46; 99; 111; 109]
           11 25 [101; 120; 97; 109; 112; 108; 101; 46; 99; 111; 109]);
    [ check_dns_accepted | check_dns_accepted
    | vm_compute; reflexivity | vm_compute; reflexivity | lia | lia
    | vm_compute; reflexivity | vm_compute; reflexivity
    | vm_compute; discriminate | vm_compute; reflexivity
    | vm_compute; reflexivity | vm_compute; reflexivity
    | vm_compute; lia ].
Defined.

(** X23.  With [parse_dns_name] as the name reader: a question whose first label
    runs past the end of the DNS message makes the filter count an error
    and change nothing else. *)
Theorem dns_truncated_name_is_error k skb st :
  let pkt := skb_data skb in
  let len := byte_at (dns_of pkt) 12 in
  dns_accepted pkt ->
  12 < dns_len_of pkt ->
  0 < len < 0xc0 ->
  dns_len_of pkt < 13 + len ->
  Dns.dns_socket_filter Dns.extract_domain_by_parse_dns_name k skb st
  = (Dns.increment_stat Dns.STAT_ERRORS st, 0).
Proof.
  cbv zeta. intros Hacc Hlen Hl Hover.
  rewrite (dns_socket_filter_accepted _ k skb st Hacc). cbv zeta.
  assert (Hp : parse_dns_name (dns_of (skb_data skb)) (dns_len_of (skb_data skb))
                 12 Dns.MAX_DOMAIN_LEN
               = Some (mk_pn_result (-1) 13 [] (mk_pn 13 [] 12 false 0))).
  { unfold parse_dns_name, parse_dns_name_fuel.
    destruct (Z.to_nat _) as [| fuel] eqn:Hf; [lia |].
    cbn [parse_dns_name_loop pn_pos name_len pn_name length Z.of_nat].
    replace (12 <? dns_len_of (skb_data skb)) with true by (symmetry; lia).
    cbn [andb]. change (0 <? Dns.MAX_DOMAIN_LEN - 1) with true. cbv iota.
    unfold parse_dns_name_body. cbv zeta. cbn [pn_pos].
    replace (byte_at (dns_of (skb_data skb)) 12 =? 0) with false
      by (symmetry; lia).
    destruct (length_byte_facts _ Hl) as [_ Hc0].
    rewrite Hc0.
    replace (12 + 1 + byte_at (dns_of (skb_data skb)) 12
             >? dns_len_of (skb_data skb)) with true by (symmetry; lia).
    reflexivity. }
  unfold Dns.extract_domain_by_parse_dns_name. rewrite Hp.
  cbn [pn_ret pn_pos_out pn_name_out]. reflexivity.
Qed.

Lemma dns_truncated_name_is_error_witness :
  Dns.dns_socket_filter Dns.extract_domain_by_parse_dns_name
    (mk_kernel 1000 77) (Samples.skb_of Examples.dns_query_truncated)
    (Samples.dns_empty 8)
  = (Dns.increment_stat Dns.STAT_ERRORS (Samples.dns_empty 8), 0).
Proof.
  apply (dns_truncated_name_is_error (mk_kernel 1000 77)
           (Samples.skb_of Examples.dns_query_truncated)
           (Samples.dns_empty 8));
    [ check_dns_accepted | vm_compute; reflexivity
    | split; vm_compute; reflexivity | vm_compute; reflexivity ].
Defined.

(** ** [parse_tls_sni]: server names and the output buffer *)

Lemma be16_at_encoded data p n :
  bytes_at data p (encode_be16 n) -> be16_at data p = n.
Proof.
  intros Hb. apply bytes_at_cons in Hb as [H0 Hb].
  apply bytes_at_cons in Hb as [H1 _].
  unfold be16_at.
  pose proof (byte_at_range data p) as R0.
  pose proof (byte_at_range data (p + 1)) as R1.
  rewrite lor_shiftl_8 by lia. rewrite H0, H1.
  pose proof (Z.div_mod n 256 ltac:(lia)). lia.
Qed.

Lemma encode_be16_length n : length (encode_be16 n) = 2%nat.
Proof. reflexivity. Qed.

Lemma copy_sni_bytes l data data_len pos i (sni : list Z) :
  0 <= i ->
  bytes_at data (pos + i) l ->
  pos + i + Z.of_nat (length l) <= data_len ->
  (Z.to_nat i + length l <= length sni)%nat ->
  copy_sni (length l) data data_len pos i sni
  = take (Z.to_nat i) sni ++ l ++ drop (Z.to_nat i + length l) sni.
Proof.
  revert i sni. induction l as [| c l IH]; intros i sni Hi Hb Hfit Hlen.
  - cbn [length copy_sni app]. rewrite Nat.add_0_r.
    symmetry. apply take_drop.
  - cbn [length] in *. cbn [copy_sni].
    replace (pos + i <? data_len) with true by (symmetry; lia).
    apply bytes_at_cons in Hb as [Hc Hb].
    rewrite IH; [| lia | | | ].
    + rewrite Hc.
      replace (Z.to_nat (i + 1)) with (S (Z.to_nat i)) by lia.
      rewrite (take_S_r _ _ c)
        by (apply list_lookup_insert_eq; lia).
      rewrite take_insert_ge by lia.
      rewrite drop_insert_lt by lia.
      rewrite <- app_assoc. cbn [app].
      replace (S (Z.to_nat i) + length l)%nat
        with (Z.to_nat i + S (length l))%nat by lia.
      reflexivity.
    + replace (pos + (i + 1)) with (pos + i + 1) by lia. exact Hb.
    + lia.
    + rewrite length_insert. lia.
Qed.

Lemma encode_extension_length e :
  length (encode_extension e) = (4 + length (snd e))%nat.
Proof. unfold encode_extension. rewrite !length_app. reflexivity. Qed.

Lemma server_name_list_length host :
  length (server_name_list host) = (5 + length host)%nat.
Proof. unfold server_name_list. rewrite !length_app. reflexivity. Qed.

(** The extension walk, standing on a server-name extension. *)
Lemma parse_tls_extensions_server_name fuel data data_len ext_end pos sni_max
    host (sni : list Z) :
  0 <= pos ->
  bytes_at data pos (encode_extension (0, server_name_list host)) ->
  pos + 9 + Z.of_nat (length host) <= data_len ->
  pos + 4 <= ext_end ->
  Z.of_nat (length host) < sni_max ->
  Z.of_nat (length sni) = sni_max ->
  parse_tls_extensions (S fuel) data data_len ext_end pos sni_max sni
  = (Z.of_nat (length host),
     host ++ 0 :: drop (S (length host)) sni).
Proof.
  intros Hpos Hb Hfit Hend Hmax Hsni.
  unfold encode_extension in Hb. cbn [fst snd] in Hb.
  apply bytes_at_app in Hb as [Ht Hb]. rewrite encode_be16_length in Hb.
  apply bytes_at_app in Hb as [Hl Hb]. rewrite encode_be16_length in Hb.
  unfold server_name_list in Hb.
  apply bytes_at_app in Hb as [_ Hb]. rewrite encode_be16_length in Hb.
  apply bytes_at_cons in Hb as [_ Hb].
  apply bytes_at_app in Hb as [Hn Hb]. rewrite encode_be16_length in Hb.
  apply be16_at_encoded in Ht, Hl, Hn.
  change (0 / 256) with 0 in Ht.
  cbn [parse_tls_extensions].
  replace (pos + 4 <=? ext_end) with true by (symmetry; lia).
  replace (pos <? data_len) with true by (symmetry; lia).
  cbn [andb]. cbv zeta.
  replace (pos + Z.of_nat 2) with (pos + 2) in Hl by lia.
  rewrite Hl, Ht, server_name_list_length, Nat2Z.inj_add.
  change (Z.of_nat 5) with 5.
  replace (pos + 4 + (5 + Z.of_nat (length host)) >? data_len) with false
    by (symmetry; lia).
  cbn [Z.eqb].
  replace (pos + 4 + 2 >? data_len) with false by (symmetry; lia).
  replace (pos + 4 + 2 + 3 >? data_len) with false by (symmetry; lia).
  replace (pos + 4 + 2 + 3 - 2)
    with (pos + Z.of_nat 2 + Z.of_nat 2 + Z.of_nat 2 + 1) by lia.
  rewrite Hn.
  replace (Z.of_nat (length host) >=? sni_max) with false by (symmetry; lia).
  rewrite Nat2Z.id.
  rewrite (copy_sni_bytes host data data_len (pos + 4 + 2 + 3) 0 sni).
  - change (Z.to_nat 0) with 0%nat. rewrite take_0, Nat.add_0_l.
    cbn [app]. f_equal.
    rewrite insert_app_r_alt by lia.
    rewrite Nat.sub_diag.
    destruct (drop (length host) sni) as [| x rest] eqn:Hd.
    { apply (f_equal length) in Hd. rewrite length_drop in Hd.
      cbn [length] in Hd. lia. }
    cbn [insert list_insert]. f_equal. f_equal.
    replace (S (length host)) with (length host + 1)%nat by lia.
    rewrite <- drop_drop, Hd. reflexivity.
  - lia.
  - replace (pos + 4 + 2 + 3 + 0)
      with (pos + Z.of_nat 2 + Z.of_nat 2 + Z.of_nat 2 + 1 + Z.of_nat 2)
      by lia.
    exact Hb.
  - lia.
  - lia.
Qed.

Lemma encode_extensions_cons e es :
  encode_extensions (e :: es) = encode_extension e ++ encode_extensions es.
Proof. reflexivity. Qed.

(** The walk skips the extensions of other types. *)
Lemma parse_tls_extensions_skips others fuel data data_len ext_end pos sni_max
    tail (sni : list Z) r :
  0 <= pos ->
  Forall (fun e => fst e <> 0) others ->
  bytes_at data pos (encode_extensions others ++ tail) ->
  pos + Z.of_nat (length (encode_extensions others)) + 4 <= ext_end ->
  pos + Z.of_nat (length (encode_extensions others)) + 4 <= data_len ->
  (forall fuel',
     parse_tls_extensions (S fuel') data data_len ext_end
       (pos + Z.of_nat (length (encode_extensions others))) sni_max sni = r) ->
  parse_tls_extensions (length others + S fuel) data data_len ext_end pos
    sni_max sni = r.
Proof.
  revert pos. induction others as [| e others IH];
    intros pos Hpos Hne Hb Hend Hfit Htail.
  - cbn [length Nat.add]. rewrite <- (Htail fuel).
    cbn [encode_extensions map concat length Z.of_nat]. by rewrite Z.add_0_r.
  - apply Forall_cons in Hne as [He Hne].
    rewrite encode_extensions_cons in *.
    rewrite length_app, encode_extension_length in *.
    rewrite <- app_assoc in Hb.
    apply bytes_at_app in Hb as [Hb1 Hb2].
    rewrite encode_extension_length in Hb2.
    unfold encode_extension in Hb1.
    apply bytes_at_app in Hb1 as [Ht Hb1]. rewrite encode_be16_length in Hb1.
    apply bytes_at_app in Hb1 as [Hl _].
    apply be16_at_encoded in Ht, Hl.
    replace (pos + Z.of_nat 2) with (pos + 2) in Hl by lia.
    cbn [length Nat.add parse_tls_extensions].
    replace (pos + 4 <=? ext_end) with true by (symmetry; lia).
    replace (pos <? data_len) with true by (symmetry; lia).
    cbn [andb]. cbv zeta. rewrite Hl, Ht.
    replace (pos + 4 + Z.of_nat (length (snd e)) >? data_len) with false
      by (symmetry; lia).
    apply Z.eqb_neq in He. rewrite He.
    apply IH; [lia | exact Hne | | lia | lia |].
    + replace (pos + 4 + Z.of_nat (length (snd e)))
        with (pos + Z.of_nat (4 + length (snd e))) by lia.
      exact Hb2.
    + intros fuel'. rewrite <- (Htail fuel'). f_equal. lia.
Qed.

(** The walk finds the server name behind extensions of other types. *)
Lemma parse_tls_extensions_finds fuel data data_len ext_end pos sni_max
    others host rest (sni : list Z) :
  0 <= pos ->
  data_len - pos < Z.of_nat fuel ->
  Forall (fun e => fst e <> 0) others ->
  bytes_at data pos
    (encode_extensions others ++ encode_extension (0, server_name_list host)
     ++ rest) ->
  pos + Z.of_nat (length (encode_extensions others)) + 9
  + Z.of_nat (length host) <= data_len ->
  pos + Z.of_nat (length (encode_extensions others)) + 4 <= ext_end ->
  Z.of_nat (length host) < sni_max ->
  Z.of_nat (length sni) = sni_max ->
  parse_tls_extensions fuel data data_len ext_end pos sni_max sni
  = (Z.of_nat (length host), host ++ 0 :: drop (S (length host)) sni).
Proof.
  intros Hpos Hfuel Hne Hb Hfit Hend Hmax Hsni.
  rewrite (parse_tls_extensions_fuel fuel (length others + S fuel)) by lia.
  apply (parse_tls_extensions_skips others) with
    (tail := encode_extension (0, server_name_list host) ++ rest);
    [lia | exact Hne | exact Hb | lia | lia |].
  intros fuel'.
  apply bytes_at_app in Hb as [_ Hb].
  apply bytes_at_app in Hb as [Hb _].
  apply parse_tls_extensions_server_name; [lia | exact Hb | lia | lia | lia | lia].
Qed.

(** [parse_tls_sni] up to its extension walk. *)
Lemma parse_tls_sni_header data data_len (sni : list Z) sni_max
    session_id cipher_suites compression extensions :
  let body :=
    client_hello_body session_id cipher_suites compression extensions in
  let start := extensions_start session_id cipher_suites compression in
  bytes_at data 9 body ->
  9 + Z.of_nat (length body) <= data_len ->
  (1 <= length extensions)%nat ->
  bytes_at data start extensions
  /\ start + Z.of_nat (length extensions) <= data_len
  /\ parse_tls_sni data data_len sni sni_max
     = parse_tls_extensions (Z.to_nat data_len) data data_len
         (start + Z.of_nat (length extensions)) start sni_max sni.
Proof.
  cbv zeta. intros Hb Hfit Hext.
  unfold client_hello_body in Hb, Hfit. unfold extensions_start.
  repeat rewrite ?length_app, ?encode_be16_length in Hfit.
  cbn [length] in Hfit.
  apply bytes_at_app in Hb as [Hsid Hb]. cbn [length] in Hb.
  apply bytes_at_cons in Hsid as [Hsid _].
  apply bytes_at_app in Hb as [_ Hb].
  apply bytes_at_app in Hb as [Hcs Hb]. rewrite encode_be16_length in Hb.
  apply be16_at_encoded in Hcs.
  apply bytes_at_app in Hb as [_ Hb].
  apply bytes_at_app in Hb as [Hcm Hb]. cbn [length] in Hb.
  apply bytes_at_cons in Hcm as [Hcm _].
  apply bytes_at_app in Hb as [_ Hb].
  apply bytes_at_app in Hb as [Hel Hb]. rewrite encode_be16_length in Hb.
  apply be16_at_encoded in Hel.
  change (Z.of_nat 2) with 2 in *. change (Z.of_nat 1) with 1 in *.
  split; [exact Hb |]. split; [lia |].
  unfold parse_tls_sni.
  replace (data_len <? 9) with false by (symmetry; lia).
  cbv zeta.
  replace (9 + 1 >=? data_len) with false by (symmetry; lia).
  rewrite Hsid.
  replace (9 + 1 + Z.of_nat (length session_id) + 2 >=? data_len) with false
    by (symmetry; lia).
  rewrite Hcs.
  replace (9 + 1 + Z.of_nat (length session_id)
           + (2 + Z.of_nat (length cipher_suites)))
    with (9 + 1 + Z.of_nat (length session_id) + 2
          + Z.of_nat (length cipher_suites)) by lia.
  replace (9 + 1 + Z.of_nat (length session_id) + 2
           + Z.of_nat (length cipher_suites) + 1 >=? data_len) with false
    by (symmetry; lia).
  rewrite Hcm.
  replace (9 + 1 + Z.of_nat (length session_id) + 2
           + Z.of_nat (length cipher_suites) + 1
           + Z.of_nat (length compression) + 2 >=? data_len) with false
    by (symmetry; lia).
  rewrite Hel. reflexivity.
Qed.

(** X8.  Round trip: from a ClientHello whose extensions hold a server-name
    extension after extensions of other types, [parse_tls_sni] returns the
    length of the host name and leaves the name, NUL-terminated, at the
    start of the buffer. *)
Theorem parse_tls_sni_finds_server_name (data : list Z) (data_len : Z)
    (sni : list Z) (sni_max : Z)
    (session_id cipher_suites compression : list Z)
    (others : list (Z * list Z)) (host rest : list Z) :
  let extensions :=
    encode_extensions others ++ encode_extension (0, server_name_list host)
    ++ rest in
  let body :=
    client_hello_body session_id cipher_suites compression extensions in
  bytes_at data 9 body ->
  9 + Z.of_nat (length body) <= data_len ->
  Forall (fun e => fst e <> 0) others ->
  Z.of_nat (length host) < sni_max ->
  Z.of_nat (length sni) = sni_max ->
  parse_tls_sni data data_len sni sni_max
  = (Z.of_nat (length host), host ++ 0 :: drop (S (length host)) sni).
Proof.
  cbv zeta. intros Hb Hfit Hne Hmax Hsni.
  destruct (parse_tls_sni_header data data_len sni sni_max session_id
              cipher_suites compression _ Hb Hfit) as (Hext & Hend & ->).
  { rewrite !length_app, encode_extension_length. lia. }
  unfold extensions_start in *.
  rewrite !length_app, encode_extension_length in *.
  cbn [snd] in *. rewrite server_name_list_length in *.
  apply (parse_tls_extensions_finds _ _ _ _ _ _ others host rest);
    [lia | lia | exact Hne | exact Hext | lia | lia | exact Hmax | exact Hsni].
Qed.

Lemma parse_tls_sni_finds_server_name_witness :
  parse_tls_sni Examples.tls_hello_two_extensions 46 (replicate 64 0) 64
  = (11, Samples.example_org ++ 0 :: drop 12 (replicate 64 0)).
Proof.
  apply (parse_tls_sni_finds_server_name Examples.tls_hello_two_extensions 46
           (replicate 64 0) 64 [] [0x13; 0x01] [0] [(10, [0; 2; 0; 29])]
           Samples.example_org []);
    [ check_bytes | check_closed
    | apply List.Forall_cons; [discriminate | apply List.Forall_nil]
    | check_closed | check_closed ].
Defined.

Lemma copy_sni_above n data data_len pos i (sni : list Z) (j : nat) :
  0 <= i ->
  (Z.to_nat i + n <= j)%nat ->
  copy_sni n data data_len pos i sni !! j = sni !! j.
Proof.
  revert i sni. induction n as [| n IH]; intros i sni Hi Hj; [reflexivity |].
  cbn [copy_sni]. destruct (pos + i <? data_len); [| reflexivity].
  rewrite IH by lia. apply list_lookup_insert_ne. lia.
Qed.

Lemma sni_result_ok_unchanged (sni : list Z) sni_max r :
  1 <= sni_max -> r = -1 \/ r = 0 -> sni_result_ok sni sni_max (r, sni).
Proof.
  intros Hmax Hr. unfold sni_result_ok. cbn [fst snd].
  split; [lia |]. split; [reflexivity |]. split; [reflexivity |].
  intros Hpos. lia.
Qed.

Lemma parse_tls_extensions_ok fuel data data_len ext_end pos sni_max
    (sni : list Z) :
  1 <= sni_max ->
  Z.of_nat (length sni) = sni_max ->
  sni_result_ok sni sni_max
    (parse_tls_extensions fuel data data_len ext_end pos sni_max sni).
Proof.
  intros Hmax Hlen. revert pos.
  induction fuel as [| fuel IH]; intros pos;
    [apply sni_result_ok_unchanged; [lia | right; reflexivity] |].
  cbn [parse_tls_extensions].
  destruct ((pos + 4 <=? ext_end) && (pos <? data_len));
    [| apply sni_result_ok_unchanged; [lia | right; reflexivity]].
  cbv zeta.
  destruct (pos + 4 + be16_at data (pos + 2) >? data_len);
    [apply sni_result_ok_unchanged; [lia | left; reflexivity] |].
  destruct (be16_at data pos =? 0); [| apply IH].
  destruct (pos + 4 + 2 >? data_len);
    [apply sni_result_ok_unchanged; [lia | left; reflexivity] |].
  destruct (pos + 4 + 2 + 3 >? data_len);
    [apply sni_result_ok_unchanged; [lia | left; reflexivity] |].
  pose proof (be16_at_range data (pos + 4 + 2 + 3 - 2)) as Hr.
  set (n := if be16_at data (pos + 4 + 2 + 3 - 2) >=? sni_max
            then u16 (sni_max - 1) else be16_at data (pos + 4 + 2 + 3 - 2)).
  assert (Hn : 0 <= n < sni_max).
  { subst n.
    destruct (Z.geb_spec (be16_at data (pos + 4 + 2 + 3 - 2)) sni_max);
      [| lia].
    unfold u16. rewrite Z.mod_small; lia. }
  unfold sni_result_ok. cbn [fst snd].
  split; [lia |]. split; [lia |]. split.
  - intros j Hj. rewrite list_lookup_insert_ne by lia.
    apply copy_sni_above; lia.
  - intros _. apply list_lookup_insert_eq.
    rewrite copy_sni_length. lia.
Qed.

Lemma parse_tls_sni_result_ok data data_len (sni : list Z) sni_max :
  1 <= sni_max ->
  Z.of_nat (length sni) = sni_max ->
  sni_result_ok sni sni_max (parse_tls_sni data data_len sni sni_max).
Proof.
  intros Hmax Hlen. unfold parse_tls_sni.
  repeat match goal with
         | |- context [if ?c then (-1, sni) else _] =>
             destruct c;
             [apply sni_result_ok_unchanged; [lia | left; reflexivity] |]
         end.
  apply parse_tls_extensions_ok; assumption.
Qed.

(** X9.  [parse_tls_sni] stays inside the buffer it is given: the result is an
    index below [sni_max] or -1, the buffer keeps its size, a failed call
    leaves it untouched, nothing is written above the returned index, and
    a positive index holds the terminating NUL. *)
Theorem parse_tls_sni_writes_within (data : list Z) (data_len : Z)
    (sni : list Z) (sni_max : Z) :
  1 <= sni_max ->
  Z.of_nat (length sni) = sni_max ->
  let r := parse_tls_sni data data_len sni sni_max in
  -1 <= fst r < sni_max
  /\ length (snd r) = length sni
  /\ (fst r = -1 -> snd r = sni)
  /\ (forall j : nat, (Z.to_nat (fst r) < j)%nat -> snd r !! j = sni !! j)
  /\ (0 < fst r -> snd r !! Z.to_nat (fst r) = Some 0).
Proof.
  intros Hmax Hlen r.
  destruct (parse_tls_sni_result_ok data data_len sni sni_max Hmax Hlen)
    as (H1 & H2 & H3 & H4).
  split; [exact H1 |]. split; [apply parse_tls_sni_length |].
  split; [exact H2 |]. split; [exact H3 | exact H4].
Qed.

Lemma parse_tls_sni_writes_within_witness :
  let r := parse_tls_sni (Samples.tls_client_hello 0x1301) 38
             (replicate 64 7) 64 in
  -1 <= fst r < 64
  /\ length (snd r) = length (replicate 64 7)
  /\ (fst r = -1 -> snd r = replicate 64 7)
  /\ (forall j : nat,
        (Z.to_nat (fst r) < j)%nat -> snd r !! j = replicate 64 7 !! j)
  /\ (0 < fst r -> snd r !! Z.to_nat (fst r) = Some 0).
Proof.
  apply (parse_tls_sni_writes_within (Samples.tls_client_hello 0x1301) 38
           (replicate 64 7) 64); [lia | check_closed].
Defined.

(** ** The TLS socket filter: records and events *)

Lemma tls_socket_filter_accepted k skb st :
  tls_accepted (skb_data skb) ->
  Tls.tls_socket_filter k skb st
  = let pkt := skb_data skb in
    let info :=
      Tls.produce_ja3_hash
        (Tls.mk_info
           (be16_at (drop (Z.to_nat (tls_payload_off pkt)) pkt) 1) 0
           (snd (tls_sni_result pkt)) [0; 0; 0; 0] (ktime_ns k)) in
    (Tls.send_tls_event k skb
       (Tls.increment_stat Tls.STAT_HANDSHAKES_OBSERVED
          (Tls.mk_state (<[tls_key_of pkt := info]> (Tls.tls_handshakes st))
             (Tls.tls_stats st) (Tls.tls_events st)))
       (tls_key_of pkt) info, 0).
Proof.
  intros (Hlen & Heth & Hproto & Hfit & Hrec & Hhello).
  unfold Tls.tls_socket_filter, tls_sni_result, tls_key_of,
    tls_payload_off in *.
  cbv zeta.
  replace (sizeof_ethhdr + sizeof_iphdr + sizeof_tcphdr
           >? data_end (skb_data skb)) with false by (symmetry; lia).
  rewrite Heth, Hproto, !Z.eqb_refl. cbn [negb orb].
  match goal with
  | |- context [?a + 5 >? ?b] =>
      replace (a + 5 >? b) with false by (symmetry; lia);
      replace (a + 5 + 4 >? b) with false by (symmetry; lia)
  end.
  rewrite Hrec, Hhello, !Z.eqb_refl. cbn [negb].
  cbn [Tls.hs_sni Tls.hs_version Tls.hs_cipher_suite Tls.hs_ja3_hash
       Tls.hs_timestamp].
  destruct (parse_tls_sni _ _ _ _) as [r sni]. cbn [snd].
  unfold bpf_map_update_elem. cbn [Z.eqb BPF_ANY BPF_NOEXIST BPF_EXIST].
  reflexivity.
Qed.

Lemma ja3_mix_zeros n i h2 h3 :
  0 <= i -> 0 <= h2 -> 0 <= h3 ->
  Tls.ja3_mix (replicate n 0) i h2 h3 = (h2, h3).
Proof.
  revert i h2 h3. induction n as [| n IH]; intros i h2 h3 Hi H2 H3;
    [reflexivity |].
  cbn [replicate Tls.ja3_mix].
  change (Tls.char_to_int 0) with 0.
  rewrite !Z.shiftl_0_l. change (u32 0) with 0. rewrite !Z.lxor_0_r.
  apply IH; lia.
Qed.

(** X24.  For a ClientHello packet that holds its TCP header, the event
    sent repeats the record stored under the connection's key: the same
    version, cipher suite, name bytes and fingerprint, with the
    connection's addresses and ports; the handshake counter goes up by
    one. *)
Theorem tls_event_mirrors_record (k : kernel) (skb : sk_buff)
    (st : Tls.state) :
  let pkt := skb_data skb in
  let st' := fst (Tls.tls_socket_filter k skb st) in
  tls_accepted pkt ->
  tls_header_inside pkt ->
  bpf_ringbuf_reserve (Tls.tls_events st) = true ->
  exists info e,
    Tls.tls_handshakes st' !! tls_key_of pkt = Some info
    /\ rb_records (Tls.tls_events st')
       = rb_records (Tls.tls_events st) ++ [e]
    /\ Tls.e_version e = Tls.hs_version info
    /\ Tls.e_cipher_suite e = Tls.hs_cipher_suite info
    /\ Tls.e_sni e = Tls.hs_sni info
    /\ Tls.e_ja3_hash e = Tls.hs_ja3_hash info
    /\ Tls.mk_tls_key (Tls.e_src_ip e) (Tls.e_dst_ip e) (Tls.e_src_port e)
         (Tls.e_dst_port e) = tls_key_of pkt
    /\ Tls.e_packet_size e = u16 (skb_len skb)
    /\ Tls.tls_stats st'
       = stat_increment (Tls.tls_stats st) Tls.STAT_HANDSHAKES_OBSERVED.
Proof.
  cbv zeta. intros Hacc _ Hroom.
  rewrite (tls_socket_filter_accepted k skb st Hacc). cbv zeta.
  cbn [fst]. unfold Tls.send_tls_event, Tls.increment_stat.
  cbn [Tls.tls_events]. rewrite Hroom.
  eexists. eexists. cbn [Tls.tls_handshakes Tls.tls_events Tls.tls_stats
    bpf_ringbuf_submit rb_records].
  split; [apply lookup_insert_eq |]. split; [reflexivity |].
  cbn [Tls.e_version Tls.e_cipher_suite Tls.e_sni Tls.e_ja3_hash Tls.e_src_ip
       Tls.e_dst_ip Tls.e_src_port Tls.e_dst_port Tls.e_packet_size].
  repeat split.
Qed.

Lemma tls_event_mirrors_record_witness :
  let skb := Samples.skb_of (Samples.tls_packet 0x1301) in
  let st' :=
    fst (Tls.tls_socket_filter (mk_kernel 1000 77) skb (Samples.tls_empty 8)) in
  exists info e,
    Tls.tls_handshakes st' !! tls_key_of (Samples.tls_packet 0x1301)
    = Some info
    /\ rb_records (Tls.tls_events st') = [e]
    /\ Tls.e_sni e = Tls.hs_sni info
    /\ Tls.e_ja3_hash e = Tls.hs_ja3_hash info
    /\ Tls.tls_stats st'
       = stat_increment (replicate 10 0) Tls.STAT_HANDSHAKES_OBSERVED.
Proof.
  intros skb st'.
  destruct (tls_event_mirrors_record (mk_kernel 1000 77) skb
              (Samples.tls_empty 8))
    as (info & e & Hm & Hrec & _ & _ & Hsni & Hja & _ & _ & Hst);
    [check_tls_accepted | vm_compute; discriminate | vm_compute; reflexivity |].
  exists info, e. split; [exact Hm |]. split; [exact Hrec |].
  split; [exact Hsni |]. split; [exact Hja | exact Hst].
Defined.

(** X25.  A ClientHello packet that holds its TCP header and for which
    [parse_tls_sni] returns -1 is stored with the name buffer zeroed; its
    fingerprint is then the record version alone. *)
Theorem tls_no_name_fingerprint (k : kernel) (skb : sk_buff)
    (st : Tls.state) :
  let pkt := skb_data skb in
  let st' := fst (Tls.tls_socket_filter k skb st) in
  tls_accepted pkt ->
  tls_header_inside pkt ->
  fst (tls_sni_result pkt) = -1 ->
  exists info,
    Tls.tls_handshakes st' !! tls_key_of pkt = Some info
    /\ Tls.hs_sni info = replicate (Z.to_nat Tls.MAX_SNI_LEN) 0
    /\ Tls.hs_ja3_hash info
       = [be16_at (drop (Z.to_nat (tls_payload_off pkt)) pkt) 1; 0; 0; 0].
Proof.
  cbv zeta. intros Hacc _ Hnone.
  rewrite (tls_socket_filter_accepted k skb st Hacc). cbv zeta.
  cbn [fst].
  assert (Hsni : snd (tls_sni_result (skb_data skb))
                 = replicate (Z.to_nat Tls.MAX_SNI_LEN) 0).
  { unfold tls_sni_result in *.
    apply (parse_tls_sni_result_ok _ _
             (replicate (Z.to_nat Tls.MAX_SNI_LEN) 0) Tls.MAX_SNI_LEN);
      [unfold Tls.MAX_SNI_LEN; lia
      | rewrite length_replicate; reflexivity | exact Hnone]. }
  rewrite Hsni.
  unfold Tls.send_tls_event, Tls.increment_stat. cbn [Tls.tls_events].
  eexists. split.
  { destruct (bpf_ringbuf_reserve (Tls.tls_events st));
      cbn [Tls.tls_handshakes]; apply lookup_insert_eq. }
  unfold Tls.produce_ja3_hash.
  cbn [Tls.hs_sni Tls.hs_version Tls.hs_cipher_suite Tls.hs_timestamp].
  rewrite take_replicate, ja3_mix_zeros by lia.
  split; reflexivity.
Qed.

Lemma tls_no_name_fingerprint_witness :
  let skb := Samples.skb_of Examples.tls_packet_short in
  let st' :=
    fst (Tls.tls_socket_filter (mk_kernel 1000 77) skb (Samples.tls_empty 8)) in
  exists info,
    Tls.tls_handshakes st' !! tls_key_of Examples.tls_packet_short = Some info
    /\ Tls.hs_sni info = replicate 64 0
    /\ Tls.hs_ja3_hash info = [0x0301; 0; 0; 0].
Proof.
  intros skb st'.
  destruct (tls_no_name_fingerprint (mk_kernel 1000 77) skb
              (Samples.tls_empty 8)) as (info & Hm & Hsni & Hja);
    [check_tls_accepted | vm_compute; discriminate | vm_compute; reflexivity |].
  exists info. split; [exact Hm |]. split; [exact Hsni |].
  rewrite Hja. vm_compute. reflexivity.
Defined.

(** X26.  End to end: the record stored for a ClientHello that carries a server
    name of fewer than 64 bytes holds that name, padded with NULs. *)
Theorem tls_records_server_name (k : kernel) (skb : sk_buff) (st : Tls.state)
    (session_id cipher_suites compression : list Z)
    (others : list (Z * list Z)) (host rest : list Z) :
  let pkt := skb_data skb in
  let st' := fst (Tls.tls_socket_filter k skb st) in
  let body :=
    client_hello_body session_id cipher_suites compression
      (encode_extensions others ++ encode_extension (0, server_name_list host)
       ++ rest) in
  tls_accepted pkt ->
  bytes_at (drop (Z.to_nat (tls_payload_off pkt)) pkt) 9 body ->
  tls_payload_off pkt + 9 + Z.of_nat (length body) <= data_end pkt ->
  Forall (fun e => fst e <> 0) others ->
  (length host < 64)%nat ->
  exists info,
    Tls.tls_handshakes st' !! tls_key_of pkt = Some info
    /\ Tls.hs_sni info = host ++ replicate (64 - length host) 0.
Proof.
  cbv zeta. intros Hacc Hb Hfit Hne Hhost.
  rewrite (tls_socket_filter_accepted k skb st Hacc). cbv zeta.
  cbn [fst]. unfold tls_sni_result.
  destruct (parse_tls_sni_header _
              (data_end (skb_data skb) - tls_payload_off (skb_data skb))
              (replicate (Z.to_nat Tls.MAX_SNI_LEN) 0) Tls.MAX_SNI_LEN
              session_id cipher_suites compression _ Hb)
    as (Hext & Hend & ->);
    [lia | rewrite !length_app, encode_extension_length; lia |].
  unfold extensions_start in *.
  rewrite !length_app, encode_extension_length in Hend |- *.
  cbn [snd] in Hend |- *.
  rewrite server_name_list_length in Hend |- *.
  rewrite (parse_tls_extensions_finds _ _ _ _ _ _ others host rest);
    [ | lia | lia | exact Hne | exact Hext | lia | lia
      | unfold Tls.MAX_SNI_LEN; lia | rewrite length_replicate; reflexivity].
  cbn [snd].
  unfold Tls.send_tls_event, Tls.increment_stat. cbn [Tls.tls_events].
  eexists. split.
  { destruct (bpf_ringbuf_reserve (Tls.tls_events st));
      cbn [Tls.tls_handshakes]; apply lookup_insert_eq. }
  unfold Tls.produce_ja3_hash.
  destruct (Tls.ja3_mix _ _ _ _) as [h2 h3]. cbn [Tls.hs_sni].
  f_equal. rewrite drop_replicate.
  change (Z.to_nat Tls.MAX_SNI_LEN) with 64%nat.
  replace (64 - length host)%nat with (S (64 - S (length host)))%nat by lia.
  reflexivity.
Qed.

Lemma tls_records_server_name_witness :
  let skb := Samples.skb_of Examples.tls_packet_two_extensions in
  let st' :=
    fst (Tls.tls_socket_filter (mk_kernel 1000 77) skb (Samples.tls_empty 8)) in
  exists info,
    Tls.tls_handshakes st' !! tls_key_of Examples.tls_packet_two_extensions
    = Some info
    /\ Tls.hs_sni info = Samples.example_org ++ replicate 53 0.
Proof.
  apply (tls_records_server_name (mk_kernel 1000 77)
           (Samples.skb_of Examples.tls_packet_two_extensions)
           (Samples.tls_empty 8) [] [0x13; 0x01] [0] [(10, [0; 2; 0; 29])]
           Samples.example_org []);
    [ check_tls_accepted | check_bytes | vm_compute; discriminate
    | apply List.Forall_cons; [discriminate | apply List.Forall_nil]
    | vm_compute; lia ].
Defined.
